(** * mootdx.quotes: a shallow embedding of the quote facades

    The development follows [mootdx/quotes.py]: the standard-market facade
    [StdQuotes], the extended-market facade [ExtQuotes], the retry predicate
    [check_empty] and the session helpers of [BaseQuotes].

    Python values are modelled by small inductive types, pandas frames by a
    record of column labels, index labels and rows, and the protocol client by
    a trace of requests answered by a server function.  Helper functions that
    live in [mootdx.utils] and [mootdx.consts] are not part of [quotes.py];
    they are either taken as parameters (record [Utils]) or, where a statement
    needs their result, modelled from the written specification and marked as
    such. *)

From Stdlib Require Import ZArith List String Ascii Bool Lia.
From Stdlib Require Import DecimalString.
From Stdlib Require Import QArith Lqa.
From Stdlib Require Import Floats Uint63.
From Stdlib Require Import Sorted Permutation.
Import ListNotations.

Open Scope string_scope.
Open Scope list_scope.
Open Scope Z_scope.

(* 2.8 is no binary64 value; the nearest one is meant, as in Python. *)
Set Warnings "-inexact-float".

(* ===================================================================== *)
(** * Python values, exceptions and builtins *)
(* ===================================================================== *)

Module Py.

(** Exceptions raised by the modelled code.  [KeyboardInterrupt] stands for
    the [BaseException]s that are not [Exception]s. *)
Inductive exc : Type :=
| ValueError (msg : string)
| TypeError (msg : string)
| KeyError (key : string)
| OverflowError
| ValidationException
| MootdxValidationException (msg : string)
| NameError (name : string)
| ConnectionError
| KeyboardInterrupt.

(** [isinstance(e, Exception)] *)
Definition is_Exception (e : exc) : bool :=
  match e with
  | KeyboardInterrupt => false
  | _ => true
  end.

(** The outcome of evaluating an expression: a value or a raised exception. *)
Inductive outcome (A : Type) : Type :=
| Ok (a : A)
| Raise (e : exc).
Arguments Ok {A} a.
Arguments Raise {A} e.

Definition raised {A} (o : outcome A) : bool :=
  match o with Ok _ => false | Raise _ => true end.

(** Scalar values found in the cells of a record.  A float is carried by its
    [repr], the only thing the modelled code ever asks of one. *)
Inductive pyval : Type :=
| VNone
| VNaN
| VInt (z : Z)
| VStr (s : string)
| VFloat (repr : string).

(** ** Strings *)

Definition chars (s : string) : list ascii := list_ascii_of_string s.
Definition text (l : list ascii) : string := string_of_list_ascii l.

(** [s.split(sep)] for a one-character separator: the pieces between the
    occurrences of [sep]; never the empty list. *)
Fixpoint split_chars (sep : ascii) (l : list ascii) : list (list ascii) :=
  match l with
  | [] => [[]]
  | c :: r =>
      if Ascii.eqb c sep then [] :: split_chars sep r
      else match split_chars sep r with
           | [] => [[c]]
           | p :: ps => (c :: p) :: ps
           end
  end.

Definition split (sep : ascii) (s : string) : list string :=
  map text (split_chars sep (chars s)).

(** [x[0:n]] on a string *)
Definition slice_to (n : nat) (s : string) : string := substring 0 n s.

(** [a <= b] and [a < b] on strings: lexicographic on code units. *)
Definition str_le (a b : string) : bool := String.leb a b.
Definition str_lt (a b : string) : bool := String.ltb a b.

(** ** [int(...)] on a string

    Leading white space is skipped, one sign is allowed, then decimal
    digits follow, single underscores allowed between digits, then white
    space only; a literal of more than 4300 digits is refused.  (Only ASCII
    text is modelled: its white space is the characters 9 to 13 and the
    blank.) *)

Definition is_space (c : ascii) : bool :=
  let n := N_of_ascii c in
  ((9 <=? n) && (n <=? 13) || (n =? 32))%N.

Definition digit_of (c : ascii) : option Z :=
  let n := Z.of_N (N_of_ascii c) in
  if (48 <=? n) && (n <=? 57) then Some (n - 48) else None.

Fixpoint lstrip (l : list ascii) : list ascii :=
  match l with
  | c :: r => if is_space c then lstrip r else l
  | [] => []
  end.

(** [digits acc after_digit l]: reads [l] as digits and underscores;
    [after_digit] says whether the previous character was a digit. *)
Fixpoint digits (acc : Z) (after_digit : bool) (l : list ascii) : option Z :=
  match l with
  | [] => if after_digit then Some acc else None
  | c :: r =>
      match digit_of c with
      | Some d => digits (10 * acc + d) true r
      | None =>
          if Ascii.eqb c "_"%char && after_digit
          then match r with
               | [] => None
               | _ => digits acc false r
               end
          else None
      end
  end.

Definition is_digit (c : ascii) : bool :=
  match digit_of c with Some _ => true | None => false end.

(** The run of digits and underscores a list of characters starts with, and
    what follows the run. *)
Fixpoint scan (l : list ascii) : list ascii * list ascii :=
  match l with
  | c :: r =>
      if is_digit c || Ascii.eqb c "_"%char
      then let (run, tail) := scan r in (c :: run, tail)
      else ([], l)
  | [] => ([], [])
  end.

(** The number of digits [int] accepts in a decimal literal. *)
Definition max_str_digits : nat := 4300.

Definition int_of_chars (l : list ascii) : outcome Z :=
  let invalid := Raise (ValueError "invalid literal for int() with base 10") in
  match lstrip l with
  | [] => invalid
  | c :: r =>
      let '(negative, body) :=
        if Ascii.eqb c "-"%char then (true, r)
        else if Ascii.eqb c "+"%char then (false, r)
        else (false, c :: r) in
      let (run, tail) := scan body in
      match digits 0 false run with
      | None => invalid
      | Some z =>
          if (max_str_digits <? List.length (filter is_digit run))%nat
          then Raise (ValueError "Exceeds the limit (4300 digits) for integer string conversion")
          else match lstrip tail with
               | [] => Ok (if negative then - z else z)
               | _ :: _ => invalid
               end
      end
  end.

Definition int_of_str (s : string) : outcome Z := int_of_chars (chars s).

(** [str(x)] *)
Definition str_of_int (z : Z) : string := NilZero.string_of_int (Z.to_int z).

Definition str (v : pyval) : string :=
  match v with
  | VNone => "None"
  | VNaN => "nan"
  | VInt z => str_of_int z
  | VStr s => s
  | VFloat r => r
  end.

(** [range(0, stop, step)] for a positive [step], as the list of its
    values.  [n] bounds the number of values. *)
Fixpoint range_from (n : nat) (start stop step : Z) : list Z :=
  match n with
  | O => []
  | S k => if start <? stop then start :: range_from k (start + step) stop step
           else []
  end.

(** Number of values of [range(0, stop, step)], [step > 0]. *)
Definition range_len (stop step : Z) : nat :=
  Z.to_nat ((stop + step - 1) / step).

Definition range_step (stop step : Z) : list Z :=
  range_from (range_len stop step) 0 stop step.

(** [range(n)] *)
Definition range (n : Z) : list Z := range_step n 1.

(** ** Floats: [n / c] for an int [n] and a float constant [c], [int(x)]
    and [math.ceil(x)]. *)

(** Conversion of an int to a float; exact for the magnitudes below [2^53],
    an [OverflowError] stands for everything larger. *)
Definition float_of_int (z : Z) : outcome float :=
  if Z.abs z <? 2 ^ 53 then
    Ok (if z <? 0 then PrimFloat.opp (PrimFloat.of_uint63 (Uint63.of_Z (- z)))
        else PrimFloat.of_uint63 (Uint63.of_Z z))
  else Raise OverflowError.

Definition truediv (n : Z) (c : float) : outcome float :=
  match float_of_int n with
  | Ok x => Ok (PrimFloat.div x c)
  | Raise e => Raise e
  end.

(** [int(x)]: truncation toward zero. *)
Definition int_of_float (x : float) : outcome Z :=
  match Prim2SF x with
  | S754_zero _ => Ok 0
  | S754_finite s m e =>
      let a := match e with
               | Z0 => Zpos m
               | Zpos p => Z.shiftl (Zpos m) (Zpos p)
               | Zneg p => Z.shiftr (Zpos m) (Zpos p)
               end in
      Ok (if s then - a else a)
  | S754_infinity _ => Raise OverflowError
  | S754_nan => Raise (ValueError "cannot convert float NaN to integer")
  end.

(** [math.ceil(x)] *)
Definition ceil (x : float) : outcome Z :=
  match Prim2SF x with
  | S754_zero _ => Ok 0
  | S754_finite s m e =>
      match e with
      | Z0 => Ok (if s then - Zpos m else Zpos m)
      | Zpos p => let a := Z.shiftl (Zpos m) (Zpos p) in
                  Ok (if s then - a else a)
      | Zneg p =>
          let q := Z.shiftr (Zpos m) (Zpos p) in
          let exact := Z.shiftl q (Zpos p) =? Zpos m in
          Ok (if s then - q else if exact then q else q + 1)
      end
  | S754_infinity _ => Raise OverflowError
  | S754_nan => Raise (ValueError "cannot convert float NaN to integer")
  end.

End Py.
Export Py.

(* ===================================================================== *)
(** * pandas frames *)
(* ===================================================================== *)

Module Pandas.

(** A record as the protocol client returns it: an ordered mapping from
    field names to values. *)
Definition record : Type := list (string * pyval).

(** A frame: its column labels, its index labels (one per row) and its
    rows.  A cell a row does not hold reads as NaN. *)
Record DataFrame : Type := mkDataFrame {
  columns : list string;
  index : list pyval;
  rows : list record
}.

Fixpoint lookup (c : string) (r : record) : option pyval :=
  match r with
  | [] => None
  | (k, v) :: r' => if String.eqb k c then Some v else lookup c r'
  end.

Definition cell (r : record) (c : string) : pyval :=
  match lookup c r with Some v => v | None => VNaN end.

Definition has_column (c : string) (cols : list string) : bool :=
  existsb (String.eqb c) cols.

(** Labels of [new] that [cols] lacks are appended, first come first. *)
Fixpoint add_columns (cols new : list string) : list string :=
  match new with
  | [] => cols
  | c :: r => add_columns (if has_column c cols then cols else cols ++ [c]) r
  end.

Definition default_index (n : nat) : list pyval :=
  map (fun i => VInt (Z.of_nat i)) (seq 0 n).

(** [pd.DataFrame(data)] for a list of records *)
Definition of_records (data : list record) : DataFrame :=
  {| columns := fold_left (fun cols r => add_columns cols (map fst r)) data [];
     index := default_index (List.length data);
     rows := data |}.

(** [len(df)] *)
Definition nrows (df : DataFrame) : nat := List.length (rows df).

(** Truth value of a cell, NaN skipped as [all] does by default. *)
Definition truthy (v : pyval) : bool :=
  match v with
  | VNone => false
  | VNaN => true
  | VInt z => negb (z =? 0)
  | VStr s => negb (String.eqb s "")
  | VFloat r => negb (String.eqb r "0.0" || String.eqb r "-0.0")
  end.

(** [df.all()]: one boolean per column, labelled by the column. *)
Definition all (df : DataFrame) : list (string * bool) :=
  map (fun c => (c, forallb (fun r => truthy (cell r c)) (rows df))) (columns df).

(** [s.empty] on a series: true when it has no entry. *)
Definition series_empty {A} (s : list A) : bool :=
  match s with [] => true | _ :: _ => false end.

(** [df.empty]: true when either axis has length zero. *)
Definition empty (df : DataFrame) : bool :=
  series_empty (columns df) || series_empty (index df).

Fixpoint somes {A} (l : list (option A)) : list A :=
  match l with
  | [] => []
  | Some a :: r => a :: somes r
  | None :: r => somes r
  end.

(** [pandas.concat(objs, ignore_index=...)]: [None] entries are dropped;
    an empty list, or a list of [None] only, is a [ValueError]. *)
Definition concat (objs : list (option DataFrame)) (ignore_index : bool)
  : outcome DataFrame :=
  match objs with
  | [] => Raise (ValueError "No objects to concatenate")
  | _ =>
      match somes objs with
      | [] => Raise (ValueError "All objects passed were None")
      | frames =>
          let body := flat_map rows frames in
          Ok {| columns := fold_left (fun cols f => add_columns cols (columns f)) frames [];
                index := if ignore_index then default_index (List.length body)
                         else flat_map index frames;
                rows := body |}
      end
  end.

(** [df[c]]: the values of column [c], row by row. *)
Definition getitem (df : DataFrame) (c : string) : outcome (list pyval) :=
  if has_column c (columns df) then Ok (map (fun r => cell r c) (rows df))
  else Raise (KeyError c).

Fixpoint set_cell (c : string) (v : pyval) (r : record) : record :=
  match r with
  | [] => [(c, v)]
  | (k, w) :: r' => if String.eqb k c then (k, v) :: r' else (k, w) :: set_cell c v r'
  end.

Fixpoint set_cells (c : string) (vals : list pyval) (rs : list record) : list record :=
  match rs, vals with
  | r :: rs', v :: vals' => set_cell c v r :: set_cells c vals' rs'
  | _, _ => []
  end.

(** [df.assign(c=vals)] for values aligned with the rows of [df]. *)
Definition assign (df : DataFrame) (c : string) (vals : list pyval) : DataFrame :=
  {| columns := add_columns (columns df) [c];
     index := index df;
     rows := set_cells c vals (rows df) |}.

(** [df.assign(c=v)] for one scalar [v]. *)
Definition assign_scalar (df : DataFrame) (c : string) (v : pyval) : DataFrame :=
  assign df c (map (fun _ => v) (rows df)).

(** [df.set_index(c, drop=False, inplace=False)] *)
Definition set_index (df : DataFrame) (c : string) : outcome DataFrame :=
  if has_column c (columns df) then
    Ok {| columns := columns df;
          index := map (fun r => cell r c) (rows df);
          rows := rows df |}
  else Raise (KeyError c).

Definition remove_keys (labels : list string) (r : record) : record :=
  filter (fun kv => negb (has_column (fst kv) labels)) r.

(** [df.drop(labels, axis=1)]: every label has to be a column. *)
Definition drop (df : DataFrame) (labels : list string) : outcome DataFrame :=
  match filter (fun l => negb (has_column l (columns df))) labels with
  | [] => Ok {| columns := filter (fun c => negb (has_column c labels)) (columns df);
                index := index df;
                rows := map (remove_keys labels) (rows df) |}
  | l :: _ => Raise (KeyError l)
  end.

Fixpoint select {A} (mask : list bool) (l : list A) : list A :=
  match mask, l with
  | b :: mask', a :: l' => if b then a :: select mask' l' else select mask' l'
  | _, _ => []
  end.

(** [df.loc[mask]] for a boolean mask aligned with the rows. *)
Definition loc (df : DataFrame) (mask : list bool) : DataFrame :=
  {| columns := columns df;
     index := select mask (index df);
     rows := select mask (rows df) |}.

(** Comparison of a column of strings with one string, cell by cell;
    a cell that is no string cannot be compared with one. *)
Fixpoint compare_cells (test : string -> bool) (vals : list pyval)
  : outcome (list bool) :=
  match vals with
  | [] => Ok []
  | VStr s :: r =>
      match compare_cells test r with
      | Ok bs => Ok (test s :: bs)
      | Raise e => Raise e
      end
  | _ :: _ => Raise (TypeError "'>=' not supported between instances")
  end.

(** Index labels of a frame whose labels are all strings. *)
Fixpoint labels_str (l : list pyval) : option (list string) :=
  match l with
  | [] => Some []
  | VStr s :: r => option_map (cons s) (labels_str r)
  | _ :: _ => None
  end.

(** Insertion of a labelled row into a list sorted by label, before the
    rows of an equal label. *)
Fixpoint insert_row (k : string) (r : record) (l : list (string * record))
  : list (string * record) :=
  match l with
  | [] => [(k, r)]
  | (k', r') :: l' =>
      if str_lt k' k then (k', r') :: insert_row k r l'
      else (k, r) :: (k', r') :: l'
  end.

Fixpoint sort_rows (l : list (string * record)) : list (string * record) :=
  match l with
  | [] => []
  | (k, r) :: l' => insert_row k r (sort_rows l')
  end.

(** [df.sort_index()] on an index of strings: rows in ascending order of
    their label.  (pandas leaves the order among equal labels open; this
    model keeps it.) *)
Definition sort_index (df : DataFrame) : outcome DataFrame :=
  match labels_str (index df) with
  | Some keys =>
      let sorted := sort_rows (combine keys (rows df)) in
      Ok {| columns := columns df;
            index := map (fun kr => VStr (fst kr)) sorted;
            rows := map snd sorted |}
  | None => Raise (TypeError "'<' not supported between instances")
  end.

End Pandas.
Export Pandas.

(* ===================================================================== *)
(** * What [quotes.py] imports from the rest of the package *)
(* ===================================================================== *)

(** The helpers of [mootdx.utils] the facades call.  Their code is not in
  [quotes.py]; the facades are modelled over any such helpers.  None of them
  talks to the client.  [to_data_table] is the adapter [to_data] applied to a
  table, as [k] applies it. *)
Record Utils : Type := mkUtils {
get_frequency : pyval -> outcome Z;
get_stock_market : string -> outcome Z;
get_stock_markets : list string -> outcome (list (Z * string));
to_datetime : string -> outcome Z;
to_data_table : DataFrame -> outcome DataFrame
}.

(** Modelled from the spec: the market codes of [mootdx.consts], which the
  data model gives as the enumeration SH=1, SZ=0. *)
Definition MARKET_SH : Z := 1.
Definition MARKET_SZ : Z := 0.

(** Modelled from the spec: the table adapter [to_data] of [mootdx.utils].
  A [None] input yields an empty table; a sequence of records is converted
  row by row, in the order and with the fields the server supplied.  The
  [symbol] and [client] tags are out-of-band and carry no rows. *)
Definition to_data (v : option (list record)) : DataFrame :=
match v with
| None => of_records []
| Some recs => of_records recs
end.

(* ===================================================================== *)
(** * Company information: [F10C] and [F10] of the standard facade

    The two methods are first written over the requests of their own kind;
    [StdQuotes.F10C] and [StdQuotes.F10] run them in a session. *)
(* ===================================================================== *)

Module CompanyInfo.

(** An entry of the directory of a company's information, as the client
    returns it: the title of a section and where its text lies. *)
Record section : Type := mkSection {
  name : string;
  filename : string;
  start : Z;
  length : Z
}.

(** The two requests these methods send. *)
Inductive info_request : Type :=
| get_company_info_category (market : Z) (code : string)
| get_company_info_content (market : Z) (code filename : string) (start length : Z).

(** The server answers a directory request with a list of sections or
    [None], a content request with a text, knowing the requests so far. *)
Record InfoServer : Type := mkInfoServer {
  directory_of : list info_request -> info_request -> outcome (option (list section));
  content_of : list info_request -> info_request -> outcome pyval
}.

(** Computations over the requests sent so far. *)
Definition I (A : Type) : Type := list info_request -> outcome A * list info_request.

Definition unit_ {A} (a : A) : I A := fun t => (Ok a, t).

Definition fail {A} (e : exc) : I A := fun t => (Raise e, t).

Definition pure {A} (o : outcome A) : I A := fun t => (o, t).

Definition and_then {A B} (m : I A) (k : A -> I B) : I B :=
  fun t => match m t with
           | (Ok a, t') => k a t'
           | (Raise e, t') => (Raise e, t')
           end.

(** What [F10] returns: [None], the text of one section, or a dict from
    section titles to texts, in insertion order. *)
Inductive info : Type :=
| Nothing
| Content (text : pyval)
| Contents (sections : list (string * pyval)).

Section Facade.
Variable U : Utils.
Variable Srv : InfoServer.

Definition category (market : Z) (symbol : string) : I (option (list section)) :=
  fun t => (directory_of Srv t (get_company_info_category market symbol),
            t ++ [get_company_info_category market symbol]).

Definition content (market : Z) (symbol : string) (x : section) : I pyval :=
  let r := get_company_info_content market symbol (filename x) (start x) (length x) in
  fun t => (content_of Srv t r, t ++ [r]).

Definition F10C (symbol : string) : I (option (list section)) :=
  and_then (pure (get_stock_market U symbol)) (fun market =>
  if existsb (Z.eqb market) [0; 1] then
    and_then (category market symbol) (fun result => unit_ result)
  else fail (MootdxValidationException "market code, SH and SZ only")).

(** The first loop of [F10]: the text of the first section titled [name_],
    or nothing when the loop runs to its end. *)
Fixpoint named (market : Z) (symbol name_ : string) (category_ : list section)
  : I (option pyval) :=
  match category_ with
  | [] => unit_ None
  | x :: rest =>
      if String.eqb (name x) name_
      then and_then (content market symbol x) (fun text => unit_ (Some text))
      else named market symbol name_ rest
  end.

(** The second loop of [F10]: [result[x['name']] = ...] for every section. *)
Fixpoint every (market : Z) (symbol : string) (category_ : list section)
  (result : list (string * pyval)) : I (list (string * pyval)) :=
  match category_ with
  | [] => unit_ result
  | x :: rest =>
      and_then (content market symbol x) (fun text =>
      every market symbol rest (set_cell (name x) text result))
  end.

Definition F10 (symbol name_ : string) : I info :=
  and_then (pure (get_stock_market U symbol)) (fun market =>
  if existsb (Z.eqb market) [0; 1] then
    and_then (category market symbol) (fun category_ =>
    match category_ with
    | None => unit_ Nothing
    | Some [] => unit_ Nothing
    | Some category_ =>
        and_then (if negb (String.eqb name_ "")
                  then named market symbol name_ category_
                  else unit_ None) (fun found =>
        match found with
        | Some text => unit_ (Content text)
        | None =>
            and_then (every market symbol category_ []) (fun result =>
            unit_ (Contents result))
        end)
    end)
  else fail (MootdxValidationException "market code, SH and SZ only")).
End Facade.

End CompanyInfo.

(* ===================================================================== *)
(** * The protocol client and its effects *)
(* ===================================================================== *)

Module Client.

(** Requests a facade sends through [self.client]; the constructors carry
    the arguments in the order of the client's methods.  The [ex_] ones are
    the methods of the extended-market client, [company_info] wraps the two
    requests of [F10C] and [F10]. *)
Inductive request : Type :=
| connect (address : string) (port : Z)
| get_security_quotes (symbols : list (Z * string))
| get_security_bars (category market : Z) (code : string) (start count : Z)
| get_index_bars (category market : Z) (code : string) (start count : Z)
| get_security_count (market : Z)
| get_security_list (market start : Z)
| get_transaction_data (market : Z) (code : string) (start count : Z)
| get_history_transaction_data (market : Z) (code : string) (start count date : Z)
| ex_get_markets
| ex_get_instrument_count
| ex_get_instrument_info (start count : Z)
| ex_get_instrument_bars (category market : Z) (code : string) (start count : Z)
| ex_get_transaction_data (market : Z) (code : string) (start count : Z)
| ex_get_history_transaction_data (market : Z) (code : string) (date start count : Z)
| get_traffic_stats
| get_history_minute_time_data (market : Z) (code date : string)
| get_xdxr_info (market : Z) (code : string)
| get_finance_info (market : Z) (code : string)
| get_and_parse_block_info (tofile : string)
| ex_get_instrument_quote (market : Z) (code : string)
| ex_get_minute_time_data (market : Z) (code : string)
| ex_get_history_minute_time_data (market : Z) (code date : string)
| company_info (r : CompanyInfo.info_request).

(** What an observer of a run sees: the requests sent and the pauses made
    between the attempts of a retried operation. *)
Inductive event : Type :=
| Sent (r : request)
| Slept (duration : Q).

(** The world a facade runs in.  The server answers a request knowing the
    events so far, with records (or [None]) or, for the count requests, with
    an int (or [None]); [reachable] tells whether a [connect] reaches the server; [random] is
    the stream of samples of [random.random()], each in [0, 1); [today] is
    the timestamp of [datetime.now().date()], in nanoseconds. *)
Record World : Type := mkWorld {
  records_of : list event -> request -> outcome (option (list record));
  scalar_of : list event -> request -> outcome (option Z);
  reachable : list event -> bool;
  random : nat -> Q;
  today : Z
}.

(** The state of a session: the events so far, the number of random samples
    drawn, and the [_closed] flag of the transport ([None]: the transport
    has no such attribute). *)
Record state : Type := mkState {
  trace : list event;
  draws : nat;
  _closed : option bool
}.

Definition M (A : Type) : Type := state -> outcome A * state.

Definition ret {A} (a : A) : M A := fun s => (Ok a, s).

Definition raise {A} (e : exc) : M A := fun s => (Raise e, s).

Definition bind {A B} (m : M A) (k : A -> M B) : M B :=
  fun s => match m s with
           | (Ok a, s') => k a s'
           | (Raise e, s') => (Raise e, s')
           end.

(** A pure computation that may raise. *)
Definition lift {A} (o : outcome A) : M A := fun s => (o, s).

(** [try: m  except: ...]: the outcome of [m], reified. *)
Definition attempt {A} (m : M A) : M (outcome A) :=
  fun s => let (o, s') := m s in (Ok o, s').

Definition log (e : event) (s : state) : state :=
  {| trace := trace s ++ [e]; draws := draws s; _closed := _closed s |}.

Section Requests.
Variable W : World.

(** A request answered with records. *)
Definition send (r : request) : M (option (list record)) :=
  fun s => (records_of W (trace s) r, log (Sent r) s).

(** A request answered with a count. *)
Definition ask (r : request) : M (option Z) :=
  fun s => (scalar_of W (trace s) r, log (Sent r) s).

(** [client.connect(address, port)]: the client puts a new socket in place,
    whose [_closed] flag is unset, and tries to connect it.  The client is
    built with [raise_exception=False]: a failure shows in the value
    returned only, and the new socket stays. *)
Definition open_transport (address : string) (port : Z) : M bool :=
  fun s => (Ok (reachable W (trace s)),
            {| trace := trace s ++ [Sent (connect address port)];
               draws := draws s;
               _closed := Some false |}).

(** [random.random()] *)
Definition random_sample : M Q :=
  fun s => (Ok (random W (draws s)),
            {| trace := trace s; draws := S (draws s); _closed := _closed s |}).

(** [time.sleep(d)] *)
Definition sleep (d : Q) : M unit :=
  fun s => (Ok tt, log (Slept d) s).
End Requests.

Definition requests (t : list event) : list request :=
  flat_map (fun e => match e with Sent r => [r] | Slept _ => [] end) t.

Definition pauses (t : list event) : list Q :=
  flat_map (fun e => match e with Sent _ => [] | Slept d => [d] end) t.

Definition is_connect (r : request) : bool :=
  match r with connect _ _ => true | _ => false end.

(** The company-information requests among the events of a session. *)
Definition info_requests (t : list event) : list CompanyInfo.info_request :=
  flat_map (fun e => match e with
                     | Sent (company_info r) => [r]
                     | _ => []
                     end) t.

(** A computation over company-information requests, run in a session: it
    is given the requests of its kind sent so far, and those it adds are
    sent in the session. *)
Definition in_session {A} (m : CompanyInfo.I A) : M A :=
  fun s => let before := info_requests (trace s) in
           let (o, after) := m before in
           (o, {| trace := trace s ++ map (fun r => Sent (company_info r))
                                          (skipn (List.length before) after);
                  draws := draws s;
                  _closed := _closed s |}).

Definition initial (closed_flag : option bool) : state :=
  {| trace := []; draws := 0; _closed := closed_flag |}.

End Client.
Export Client.

Declare Scope monad_scope.
Delimit Scope monad_scope with monad.
Notation "x <- m ;; k" := (bind m (fun x => k))
(at level 61, m at next level, right associativity) : monad_scope.
Notation "m ;;; k" := (bind m (fun _ => k))
(at level 61, right associativity) : monad_scope.
Open Scope monad_scope.

(* ===================================================================== *)
(** * The retry callback of [mootdx.consts] *)
(* ===================================================================== *)

(** Modelled from the spec: [return_last_value] of [mootdx.consts], the
  retry policy's answer once the attempts are used up: the last obtained
  result.  An attempt that raised has no result to return; its exception
  is raised again. *)
Definition return_last_value {A} (last : outcome A) : M A := lift last.

(* ===================================================================== *)
(** * Session helpers and the retry predicate *)
(* ===================================================================== *)

(** What a facade method returns: a table, or the scalar the client gave. *)
Inductive value : Type :=
| Frame (df : DataFrame)
| Plain (v : pyval).

Definition scalar (c : option Z) : pyval :=
match c with Some z => VInt z | None => VNone end.

Module BaseQuotes.

(** The attributes of a facade the modelled methods read.  [bestip] is the
    class attribute of [BaseQuotes]: [None] unless it has been assigned. *)
Record facade : Type := mkFacade {
  bestip : option (string * Z);
  server : string * Z;
  timeout : Z
}.

(** Property [closed]: true when the transport has no [_closed] attribute
    or the attribute is set. *)
Definition closed : M bool :=
  fun s => (Ok match _closed s with
               | None => true
               | Some flag => flag
               end, s).

Section Session.
Variable W : World.
Variable self : facade.

Definition reconnect : M unit :=
  is_closed <- closed ;;
  if is_closed then
    match bestip self with
    | Some (address, port) => open_transport W address port ;;; ret tt
    | None => raise (TypeError "argument after * must be an iterable, not NoneType")
    end
  else ret tt.
End Session.

End BaseQuotes.
Export BaseQuotes.

(** [not value] for a value that is no frame. *)
Definition py_not (v : pyval) : bool := negb (truthy v).

(** [check_empty(value)].  [instance] is the module-level variable the
  constructors of the facades assign: [None] stands for the variable not
  yet bound.  The warning it logs is not modelled. *)
Definition check_empty (instance : option facade) (v : value) : outcome bool :=
let _empty := match v with
              | Frame df => series_empty (Pandas.all df)
              | Plain x => py_not x
              end in
match instance with
| Some _ => Ok _empty
| None => Raise (NameError "instance")
end.

(* ===================================================================== *)
(** * The retry decorator *)
(* ===================================================================== *)

Module Tenacity.

(** A retried call may in principle go on for ever: the loop is run on a
    fuel, [None] meaning the fuel ran out. *)
Definition R (A : Type) : Type := state -> option (outcome A * state).

(** [stop_after_attempt(max_attempt_number)] *)
Definition stop_after_attempt (max_attempt_number attempt_number : nat) : bool :=
  (max_attempt_number <=? attempt_number)%nat.

(** [wait_random(min, max)]: [min + random.random() * (max - min)] *)
Definition wait_random (W : World) (min max : Q) : M Q :=
  u <- random_sample W ;;
  ret (min + u * (max - min))%Q.

(** [retry_if_exception_type()]: the attempt raised an [Exception]. *)
Definition retry_if_exception_type {A} (o : outcome A) : outcome bool :=
  match o with
  | Raise e => Ok (is_Exception e)
  | Ok _ => Ok false
  end.

(** [retry_if_result(predicate)]: the attempt returned and the predicate
    holds of its result. *)
Definition retry_if_result {A} (predicate : A -> outcome bool) (o : outcome A)
  : outcome bool :=
  match o with
  | Ok a => predicate a
  | Raise _ => Ok false
  end.

(** [r1 | r2] *)
Definition retry_any {A} (r1 r2 : outcome A -> outcome bool) (o : outcome A)
  : outcome bool :=
  match r1 o with
  | Ok true => Ok true
  | Ok false => r2 o
  | Raise e => Raise e
  end.

Section Retrying.
Context {A : Type}.
Variable stop : nat -> bool.
Variable wait : M Q.
Variable retry : outcome A -> outcome bool.
Variable retry_error_callback : outcome A -> M A.

(** The loop of [Retrying.__call__], started at attempt [attempt_number]:
    attempt; return the outcome unless [retry] asks for another attempt;
    hand over to the callback once [stop] holds; else sleep and go on. *)
Fixpoint call (fuel : nat) (attempt_number : nat) (fn : M A) : R A :=
  match fuel with
  | O => fun _ => None
  | S fuel' =>
      fun s =>
        let (o, s1) := fn s in
        match retry o with
        | Raise e => Some (Raise e, s1)
        | Ok false => Some (o, s1)
        | Ok true =>
            if stop attempt_number then Some (retry_error_callback o s1)
            else
              match (d <- wait ;; sleep d) s1 with
              | (Ok _, s2) => call fuel' (S attempt_number) fn s2
              | (Raise e, s2) => Some (Raise e, s2)
              end
        end
  end.
End Retrying.

End Tenacity.

(* ===================================================================== *)
(** * StdQuotes: the standard-market facade *)
(* ===================================================================== *)

Module StdQuotes.

(** The [symbol] argument of [quotes]: absent, one code or a list. *)
Inductive symbols : Type :=
| NoSymbol
| OneSymbol (s : string)
| ManySymbols (l : list string).

(** [not symbol] *)
Definition no_symbol (symbol : symbols) : bool :=
  match symbol with
  | NoSymbol => true
  | OneSymbol s => String.eqb s ""
  | ManySymbols l => match l with [] => true | _ => false end
  end.

(** [(offset, 800)[offset > 800]] *)
Definition page (offset : Z) : Z := if offset >? 800 then 800 else offset.

(** [(MARKET_SZ, MARKET_SH)[symbol[:2] in ["00", "88", "99"]]] *)
Definition index_market (symbol : string) : Z :=
  let head := slice_to 2 symbol in
  if String.eqb head "00" || String.eqb head "88" || String.eqb head "99"
  then MARKET_SH else MARKET_SZ.

(** [Timestamp - Timestamp] and [.days]: the difference of two timestamps in
    whole days, rounded down; a difference no [Timedelta] holds is an
    out-of-bounds error of pandas, a [ValueError]. *)
Definition ns_per_day : Z := 86400 * 1000000000.

Definition days_between (a b : Z) : outcome Z :=
  if Z.abs (a - b) <? 2 ^ 63 then Ok ((a - b) / ns_per_day)
  else Raise (ValueError "Result is too large for pandas.Timedelta").

(** [client.to_df(data)]: the records as a frame; [None] gives the empty
    frame. *)
Definition to_df (data : option (list record)) : DataFrame :=
  match data with
  | Some recs => of_records recs
  | None => of_records []
  end.

(** The civil date of a day counted from 1970-01-01. *)
Definition civil_from_days (z : Z) : Z * Z * Z :=
  let z := z + 719468 in
  let era := z / 146097 in
  let doe := z - era * 146097 in
  let yoe := (doe - doe / 1460 + doe / 36524 - doe / 146096) / 365 in
  let doy := doe - (365 * yoe + yoe / 4 - yoe / 100) in
  let mp := (5 * doy + 2) / 153 in
  let d := doy - (153 * mp + 2) / 5 + 1 in
  let m := if mp <? 10 then mp + 3 else mp - 9 in
  (if m <=? 2 then yoe + era * 400 + 1 else yoe + era * 400, m, d).

(** [n] in decimal, padded with zeros to [width] digits. *)
Definition zero_padded (width : nat) (n : Z) : string :=
  let written := str_of_int n in
  text (repeat "0"%char (width - String.length written)) ++ written.

(** [strftime('%Y%m%d')] of the timestamp of a day, for the years of four
    digits. *)
Definition strftime_Ymd (ts : Z) : string :=
  let '(y, m, d) := civil_from_days (ts / ns_per_day) in
  zero_padded 4 y ++ zero_padded 2 m ++ zero_padded 2 d.

Section Facade.
Variable U : Utils.
Variable W : World.
Variable Srv : CompanyInfo.InfoServer.

(** [traffic] hands on what the client returns. *)
Definition traffic : M (option (list record)) :=
  send W get_traffic_stats.

Definition quotes (symbol : symbols) : M DataFrame :=
  if no_symbol symbol then ret (to_data None)
  else
    let symbol := match symbol with
                  | OneSymbol s => [s]
                  | ManySymbols l => l
                  | NoSymbol => []
                  end in
    r <- attempt (symbol <- lift (get_stock_markets U symbol) ;;
                  result <- send W (get_security_quotes symbol) ;;
                  ret result) ;;
    match r with
    | Raise ValidationException => ret (to_data None)
    | Raise e => raise e
    | Ok result => ret (to_data result)
    end.

Definition bars (symbol : string) (frequency : pyval) (start offset : Z)
  : M DataFrame :=
  frequency <- lift (get_frequency U frequency) ;;
  market <- lift (get_stock_market U symbol) ;;
  let offset := page offset in
  result <- send W (get_security_bars frequency market symbol start offset) ;;
  ret (to_data result).

Definition stock_count (market : Z) : M (option Z) :=
  if existsb (Z.eqb market) [0; 1; 2] then
    result <- ask W (get_security_count market) ;;
    ret result
  else raise (MootdxValidationException "market code").

(** The body of the loop of [stocks], over the values of
    [range(0, counts, 1000)] still to come. *)
Fixpoint stocks_pages (market : Z) (starts : list Z) (stocks : option DataFrame)
  : M (option DataFrame) :=
  match starts with
  | [] => ret stocks
  | start :: rest =>
      result <- send W (get_security_list market start) ;;
      stocks <- (if start >? 1
                 then lift (concat [stocks; Some (to_data result)] true)
                 else ret (to_data result)) ;;
      stocks_pages market rest (Some stocks)
  end.

Definition stocks (market : Z) : M (option DataFrame) :=
  if existsb (Z.eqb market) [0; 1] then
    counts <- stock_count market ;;
    match counts with
    | None => raise (TypeError "'>' not supported between 'NoneType' and 'int'")
    | Some counts =>
        if counts >? 0 then stocks_pages market (range_step counts 1000) None
        else ret None
    end
  else raise (MootdxValidationException "market code, SH and SZ only").

Fixpoint stock_all_markets (ms : list Z) (stocks_ : option DataFrame)
  : M (option DataFrame) :=
  match ms with
  | [] => ret stocks_
  | m :: rest =>
      page_ <- stocks m ;;
      stocks_ <- lift (concat [stocks_; page_] true) ;;
      stock_all_markets rest (Some stocks_)
  end.

Definition stock_all : M (option DataFrame) :=
  stock_all_markets [0; 1] None.

Definition index_bars (symbol : string) (frequency : pyval) (start offset : Z)
  : M DataFrame :=
  frequency <- lift (get_frequency U frequency) ;;
  let offset := page offset in
  let market := index_market symbol in
  result <- send W (get_index_bars frequency market symbol start offset) ;;
  ret (to_data result).

Definition minutes (symbol date : string) : M DataFrame :=
  market <- lift (get_stock_market U symbol) ;;
  if existsb (Z.eqb market) [0; 1] then
    result <- send W (get_history_minute_time_data market symbol date) ;;
    ret (to_data result)
  else raise (MootdxValidationException "market code, SH and SZ only").

Definition minute (symbol : string) : M DataFrame :=
  let today := strftime_Ymd (today W) in
  minutes symbol today.

Definition transaction (symbol : string) (start offset : Z) : M DataFrame :=
  market <- lift (get_stock_market U symbol) ;;
  result <- send W (get_transaction_data market symbol start offset) ;;
  ret (to_data result).

Definition transactions (symbol : string) (start offset : Z) (date : string)
  : M DataFrame :=
  market <- lift (get_stock_market U symbol) ;;
  if existsb (Z.eqb market) [0; 1] then
    date <- lift (int_of_str date) ;;
    result <- send W (get_history_transaction_data market symbol start offset date) ;;
    ret (to_data result)
  else raise (MootdxValidationException "market code, SH and SZ only").

Definition F10C (symbol : string) : M (option (list CompanyInfo.section)) :=
  in_session (CompanyInfo.F10C U Srv symbol).

Definition F10 (symbol name : string) : M CompanyInfo.info :=
  in_session (CompanyInfo.F10 U Srv symbol name).

Definition xdxr (symbol : string) : M DataFrame :=
  market <- lift (get_stock_market U symbol) ;;
  result <- send W (get_xdxr_info market symbol) ;;
  ret (to_data result).

Definition finance (symbol : string) : M DataFrame :=
  market <- lift (get_stock_market U symbol) ;;
  result <- send W (get_finance_info market symbol) ;;
  ret (to_data result).

(** [first = (abs(first), 0)[first >= 0]] *)
Definition days_back (d : Z) : Z := if d >=? 0 then 0 else Z.abs d.

(** [n -= int(n / c)] *)
Definition discount (n : Z) (c : float) : outcome Z :=
  match truediv n c with
  | Ok q => match int_of_float q with
            | Ok i => Ok (n - i)
            | Raise e => Raise e
            end
  | Raise e => Raise e
  end.

(** [math.ceil((last - first) / 800)] *)
Definition page_count (first last : Z) : outcome Z :=
  match truediv (last - first) 800%float with
  | Ok q => ceil q
  | Raise e => Raise e
  end.

(** The loop of [get_k_data] over the values of [range(...)] still to
    come; [temp] is the list of the frames fetched so far. *)
Fixpoint k_pages (market : Z) (code : string) (first : Z) (todo : list Z)
  (temp : list DataFrame) : M (list DataFrame) :=
  match todo with
  | [] => ret temp
  | i :: rest =>
      data <- send W (get_security_bars 9 market code (first + i * 800) 800) ;;
      k_pages market code first rest (temp ++ [to_df data])
  end.

(** The post-processing of [get_k_data], from [pd.concat(temp)] on. *)
Definition k_table (temp : list DataFrame) (code start_date end_date : string)
  : outcome DataFrame :=
  match concat (map Some temp) false with
  | Raise e => Raise e
  | Ok data =>
  match getitem data "datetime" with
  | Raise e => Raise e
  | Ok datetimes =>
  let data := assign data "date" (map (fun x => VStr (slice_to 10 (str x))) datetimes) in
  let data := assign_scalar data "code" (VStr code) in
  match set_index data "date" with
  | Raise e => Raise e
  | Ok data =>
  match drop data ["year"; "month"; "day"; "hour"; "minute"; "datetime"] with
  | Raise e => Raise e
  | Ok data =>
  match getitem data "date" with
  | Raise e => Raise e
  | Ok dates =>
  match compare_cells (fun d => str_le start_date d) dates with
  | Raise e => Raise e
  | Ok ge_start =>
  match compare_cells (fun d => str_lt d end_date) dates with
  | Raise e => Raise e
  | Ok lt_end =>
  let data := loc data (map (fun p => fst p && snd p) (combine ge_start lt_end)) in
  sort_index data
  end end end end end end end.

Definition get_k_data (code start_date end_date : string) : M DataFrame :=
  end_ts <- lift (to_datetime U end_date) ;;
  first <- lift (days_between end_ts (today W)) ;;
  let first := days_back first in
  start_ts <- lift (to_datetime U start_date) ;;
  last <- lift (days_between start_ts (today W)) ;;
  let last := days_back last in
  first <- lift (discount first 2.8%float) ;;
  last <- lift (discount last 3.5%float) ;;
  market <- lift (get_stock_market U code) ;;
  pages <- lift (page_count first last) ;;
  temp <- k_pages market code first (range pages) [] ;;
  lift (k_table temp code start_date end_date).

(** [k]: the table of [get_k_data], handed to the adapter. *)
Definition k (symbol begin_ end_ : string) : M DataFrame :=
  result <- get_k_data symbol begin_ end_ ;;
  lift (to_data_table U result).

Definition ohlc (symbol begin_ end_ : string) : M DataFrame :=
  k symbol begin_ end_.

(** [index]: the same statements as [index_bars]. *)
Definition index (symbol : string) (frequency : pyval) (start offset : Z)
  : M DataFrame :=
  frequency <- lift (get_frequency U frequency) ;;
  let offset := page offset in
  let market := index_market symbol in
  result <- send W (get_index_bars frequency market symbol start offset) ;;
  ret (to_data result).

Definition block (tofile : string) : M DataFrame :=
  result <- send W (get_and_parse_block_info tofile) ;;
  ret (to_data result).
End Facade.

End StdQuotes.


(* ===================================================================== *)
(** * ExtQuotes: the extended-market facade *)
(* ===================================================================== *)

Module ExtQuotes.

(** The [market] argument as callers pass it: [None], a string or an int. *)
Inductive market_arg : Type :=
| MNone
| MStr (s : string)
| MInt (z : Z).

(** [not market] *)
Definition no_market (market : market_arg) : bool :=
  match market with
  | MNone => true
  | MStr s => String.eqb s ""
  | MInt z => z =? 0
  end.

(** [int(market)] *)
Definition int_of_market (market : market_arg) : outcome Z :=
  match market with
  | MNone => Raise (TypeError "int() argument must be a string or a number")
  | MStr s => int_of_str s
  | MInt z => Ok z
  end.

(** [l[i]] with a default that is never read where the length is known. *)
Definition item (l : list string) (i : nat) : string := nth i l "".

Definition validate (market : market_arg) (symbol : string)
  : outcome (Z * string) :=
  let '(market, symbol) :=
    if no_market market then
      if (1 <? Z.of_nat (List.length (split "#" symbol)))
      then (MStr (item (split "#" symbol) 0), item (split "#" symbol) 1)
      else (market, symbol)
    else (market, symbol) in
  if no_market market then Raise (ValueError "market must not be empty")
  else match int_of_market market with
       | Ok m => Ok (m, symbol)
       | Raise e => Raise e
       end.

Section Facade.
Variable U : Utils.
Variable W : World.
Variable self : facade.

(** The decorator every public method carries:
    [retry(wait=wait_random(min=1, max=10), stop=stop_after_attempt(3),
           retry_error_callback=return_last_value,
           retry=(retry_if_exception_type() | retry_if_result(check_empty)))].
    The constructor has bound [instance] to the facade. *)
Definition retry (fuel : nat) (fn : M value) : Tenacity.R value :=
  Tenacity.call
    (Tenacity.stop_after_attempt 3)
    (Tenacity.wait_random W 1 10)
    (Tenacity.retry_any Tenacity.retry_if_exception_type
       (Tenacity.retry_if_result (check_empty (Some self))))
    return_last_value
    fuel 1%nat fn.

Definition markets_fn : M value :=
  result <- send W ex_get_markets ;;
  ret (Frame (to_data result)).

Definition markets (fuel : nat) : Tenacity.R value := retry fuel markets_fn.

Definition instrument_fn (start offset : Z) : M value :=
  result <- send W (ex_get_instrument_info start offset) ;;
  ret (Frame (to_data result)).

Definition instrument (fuel : nat) (start offset : Z) : Tenacity.R value :=
  retry fuel (instrument_fn start offset).

Definition instrument_count_fn : M value :=
  result <- ask W ex_get_instrument_count ;;
  ret (Plain (scalar result)).

Definition instrument_count (fuel : nat) : Tenacity.R value :=
  retry fuel instrument_count_fn.

Definition bars_fn (frequency : pyval) (market : market_arg) (symbol : string)
  (start offset : Z) : M value :=
  frequency <- lift (get_frequency U frequency) ;;
  ms <- lift (validate market symbol) ;;
  let '(market, symbol) := ms in
  result <- send W (ex_get_instrument_bars frequency market symbol start offset) ;;
  ret (Frame (to_data result)).

Definition bars (fuel : nat) (frequency : pyval) (market : market_arg)
  (symbol : string) (start offset : Z) : Tenacity.R value :=
  retry fuel (bars_fn frequency market symbol start offset).

Definition transaction_fn (market : market_arg) (symbol : string)
  (start offset : Z) : M value :=
  ms <- lift (validate market symbol) ;;
  let '(market, symbol) := ms in
  result <- send W (ex_get_transaction_data market symbol start offset) ;;
  ret (Frame (to_data result)).

Definition transaction (fuel : nat) (market : market_arg) (symbol : string)
  (start offset : Z) : Tenacity.R value :=
  retry fuel (transaction_fn market symbol start offset).

Definition transactions_fn (market : market_arg) (symbol date : string)
  (start offset : Z) : M value :=
  ms <- lift (validate market symbol) ;;
  let '(market, symbol) := ms in
  date <- lift (int_of_str date) ;;
  result <- send W (ex_get_history_transaction_data market symbol date start offset) ;;
  ret (Frame (to_data result)).

Definition transactions (fuel : nat) (market : market_arg) (symbol date : string)
  (start offset : Z) : Tenacity.R value :=
  retry fuel (transactions_fn market symbol date start offset).

(** [math.ceil(count / 100)]: the quotient of two ints is the correctly
    rounded one, which below [2^53] is the float quotient of the operands. *)
Definition instrument_pages (count : Z) : outcome Z :=
  match truediv count 100%float with
  | Ok q => ceil q
  | Raise e => Raise e
  end.

(** The loop of [instruments] over the pages still to come; [result += x]
    needs [x] to be a list. *)
Fixpoint instruments_pages (pages : list Z) (result : list record)
  : M (list record) :=
  match pages with
  | [] => ret result
  | page :: rest =>
      info <- send W (ex_get_instrument_info (page * 100) 100) ;;
      match info with
      | Some recs => instruments_pages rest (result ++ recs)
      | None => raise (TypeError "'NoneType' object is not iterable")
      end
  end.

Definition instruments_fn : M value :=
  count <- ask W ex_get_instrument_count ;;
  match count with
  | None => raise (TypeError "unsupported operand type(s) for /: 'NoneType' and 'int'")
  | Some count =>
      pages <- lift (instrument_pages count) ;;
      result <- instruments_pages (range pages) [] ;;
      ret (Frame (to_data (Some result)))
  end.

Definition instruments (fuel : nat) : Tenacity.R value := retry fuel instruments_fn.

Definition quote_fn (market : market_arg) (symbol : string) : M value :=
  ms <- lift (validate market symbol) ;;
  let '(market, symbol) := ms in
  result <- send W (ex_get_instrument_quote market symbol) ;;
  ret (Frame (to_data result)).

Definition quote (fuel : nat) (market : market_arg) (symbol : string)
  : Tenacity.R value :=
  retry fuel (quote_fn market symbol).

Definition minute_fn (market : market_arg) (symbol : string) : M value :=
  ms <- lift (validate market symbol) ;;
  let '(market, symbol) := ms in
  result <- send W (ex_get_minute_time_data market symbol) ;;
  ret (Frame (to_data result)).

Definition minute (fuel : nat) (market : market_arg) (symbol : string)
  : Tenacity.R value :=
  retry fuel (minute_fn market symbol).

Definition minutes_fn (market : market_arg) (symbol date : string) : M value :=
  ms <- lift (validate market symbol) ;;
  let '(market, symbol) := ms in
  result <- send W (ex_get_history_minute_time_data market symbol date) ;;
  ret (Frame (to_data result)).

Definition minutes (fuel : nat) (market : market_arg) (symbol date : string)
  : Tenacity.R value :=
  retry fuel (minutes_fn market symbol date).
End Facade.

End ExtQuotes.


(* ===================================================================== *)
(** * [valid_server] *)
(* ===================================================================== *)

Module Server.

(** An element of the [server] argument: [None], a string or an int. *)
Inductive item : Type :=
| INone
| IStr (s : string)
| IInt (z : Z).

(** The [server] argument: a tuple or a list of items, or anything else. *)
Inductive server_arg : Type :=
| Sequence (items : list item)
| NotSequence.

(** [int(port)] *)
Definition int_of_item (port : item) : outcome Z :=
  match port with
  | INone => Raise (TypeError "int() argument must be a string or a number")
  | IStr s => int_of_str s
  | IInt z => Ok z
  end.

Section Validation.
(** [ipaddress.ip_address], which returns for an address and raises for
    anything else. *)
Variable ip_address : item -> outcome unit.

Definition valid_server (server : server_arg) : outcome (option (item * Z)) :=
  match server with
  | Sequence items =>
      let tried :=
        match items with
        | [address; port] =>
            match ip_address address with
            | Ok _ => match int_of_item port with
                      | Ok p => Ok (address, p)
                      | Raise e => Raise e
                      end
            | Raise e => Raise e
            end
        | _ => Raise (ValueError "wrong number of values to unpack")
        end in
      match tried with
      | Ok endpoint => Ok (Some endpoint)
      | Raise e => if is_Exception e then Raise (ValueError "server format")
                   else Raise e
      end
  | NotSequence => Ok None
  end.
End Validation.

End Server.


(* ===================================================================== *)
(** * Sample helpers, servers and sessions

    Concrete instances on which the model is run: helpers in the spirit of
    [mootdx.utils], and servers with a fixed content. *)
(* ===================================================================== *)

Module Samples.

(** Codes that start with 5, 6 or 9 trade in Shanghai, the rest in Shenzhen. *)
Definition market_of (symbol : string) : Z :=
  let head := slice_to 1 symbol in
  if String.eqb head "6" || String.eqb head "5" || String.eqb head "9"
  then MARKET_SH else MARKET_SZ.

(** Days from 1970-01-01 to the civil date [y]-[m]-[d]. *)
Definition days_from_civil (y m d : Z) : Z :=
  let y := if m <=? 2 then y - 1 else y in
  let era := y / 400 in
  let yoe := y - era * 400 in
  let doy := (153 * (if m >? 2 then m - 3 else m + 9) + 2) / 5 + d - 1 in
  let doe := yoe * 365 + yoe / 4 - yoe / 100 + doy in
  era * 146097 + doe - 719468.

Definition number (s : string) : outcome Z := int_of_str s.

(** Dates written [YYYY-MM-DD] or [YYYYMMDD], as a timestamp at midnight. *)
Definition parse_date (s : string) : outcome Z :=
  let dashed := String.eqb (substring 4 1 s) "-" in
  match number (substring 0 4 s),
        number (substring (if dashed then 5 else 4) 2 s),
        number (substring (if dashed then 8 else 6) 2 s) with
  | Ok y, Ok m, Ok d => Ok (days_from_civil y m d * StdQuotes.ns_per_day)
  | _, _, _ => Raise (ValueError "unknown date format")
  end.

Definition utils : Utils :=
  {| get_frequency := fun f => match f with VInt z => Ok z | _ => Ok 0 end;
     get_stock_market := fun symbol => Ok (market_of symbol);
     get_stock_markets := fun l => Ok (map (fun s => (market_of s, s)) l);
     to_datetime := parse_date;
     to_data_table := fun table => Ok table |}.

Definition bar (datetime : string) (close : string) : record :=
  [("open", VFloat close); ("close", VFloat close);
   ("year", VInt 2023); ("month", VInt 1); ("day", VInt 1);
   ("hour", VInt 15); ("minute", VInt 0); ("datetime", VStr datetime)].

Definition stock (code name : string) : record :=
  [("code", VStr code); ("name", VStr name)].

(** A server with two Shenzhen stocks, one Shanghai stock and four daily
    bars, most recent last, that answers every request the same way whatever
    happened before.  Today is 2023-01-12. *)
Definition world : World :=
  {| records_of := fun _ r =>
       match r with
       | get_security_bars _ _ _ start _ =>
           Ok (Some (if start <? 800
                     then [bar "2023-01-06 15:00" "10.5"; bar "2023-01-04 15:00" "10.1";
                           bar "2023-01-09 15:00" "10.7"; bar "2023-01-11 15:00" "10.9"]
                     else []))
       | get_security_list market start =>
           Ok (Some (if market =? 0
                     then [stock "000001" "PAB"; stock "000002" "VANKE"]
                     else [stock "600000" "SPDB"]))
       | _ => Ok None
       end;
     scalar_of := fun _ r =>
       match r with
       | get_security_count market => Ok (Some (if market =? 0 then 2 else 1))
       | _ => Ok None
       end;
     reachable := fun _ => true;
     random := fun _ => (1 # 2)%Q;
     today := days_from_civil 2023 1 12 * StdQuotes.ns_per_day |}.

(** A server that fails twice with a transient error and then answers. *)
Definition flaky_world : World :=
  {| records_of := fun t r =>
       if (List.length (requests t) <? 2)%nat then Raise ConnectionError
       else Ok (Some [stock "47" "CFFEX"]);
     scalar_of := fun _ _ => Ok None;
     reachable := fun _ => true;
     random := fun _ => (1 # 2)%Q;
     today := 0 |}.

(** A server that has nothing to say. *)
Definition silent_world : World :=
  {| records_of := fun _ _ => Ok None;
     scalar_of := fun _ _ => Ok None;
     reachable := fun _ => true;
     random := fun _ => (1 # 3)%Q;
     today := 0 |}.

Definition session : facade :=
  {| bestip := Some ("127.0.0.1", 7709); server := ("127.0.0.1", 7709); timeout := 15 |}.

(** A session whose transport is open, and one whose transport is closed. *)
Definition alive : state := initial (Some false).
Definition dead : state := initial (Some true).

End Samples.


(* ===================================================================== *)
(** * Vocabulary of the statements *)
(* ===================================================================== *)

(** The events a computation adds to a state are those after the events the
    state already had; [m] leaves the trace alone when it adds none. *)
Definition final {A} (m : M A) (s : state) : state := snd (m s).
Definition result {A} (m : M A) (s : state) : outcome A := fst (m s).

(** A computation is quiet when it sends no [connect] and leaves the
    transport's flag as it found it. *)
Definition connects (t : list event) : list request :=
  filter is_connect (requests t).

Definition quiet {A} (m : M A) : Prop :=
  forall s, connects (trace (final m s)) = connects (trace s)
            /\ _closed (final m s) = _closed s.

(** A decorated method is quiet when, with fuel for its three attempts, it
    returns, has sent no [connect] and has left the flag as it found it. *)
Definition quiet_retried {A} (m : nat -> Tenacity.R A) : Prop :=
  forall fuel s, (3 <= fuel)%nat ->
    exists o s', m fuel s = Some (o, s')
                 /\ connects (trace s') = connects (trace s)
                 /\ _closed s' = _closed s.

(** The state after the pause the retry decorator makes between two
    attempts: one random sample is drawn and one sleep of
    [1 + sample * (10 - 1)] is recorded. *)
Definition pause_length (W : World) (s : state) : Q :=
  (1 + random W (draws s) * (10 - 1))%Q.

Definition paused (W : World) (s : state) : state :=
  {| trace := trace s ++ [Slept (pause_length W s)];
     draws := S (draws s);
     _closed := _closed s |}.

(** The state in which attempt [n] (counted from zero) of a retried [fn]
    starts, when every attempt before it is followed by a pause. *)
Fixpoint attempt_state {A} (W : World) (fn : M A) (n : nat) (s : state) : state :=
  match n with
  | O => s
  | S k => paused W (final fn (attempt_state W fn k s))
  end.

(** An outcome after which the decorator of [ExtQuotes] asks for another
    attempt: an [Exception], or an empty result. *)
Definition retried (self : facade) (o : outcome value) : bool :=
  match o with
  | Raise e => is_Exception e
  | Ok v => match check_empty (Some self) v with
            | Ok b => b
            | Raise _ => false
            end
  end.

(** [ceil(a / b)] on integers, [b > 0]. *)
Definition ceil_div (a b : Z) : Z := - ((- a) / b).

(** A string without the separator [#]. *)
Definition no_hash (s : string) : Prop := ~ In "#"%char (chars s).

(** The answers a server gives to a list of requests sent one after the
    other from the trace [t], up to the first one that raises. *)
Fixpoint fetched (W : World) (reqs : list request) (t : list event)
  : list (option (list record)) :=
  match reqs with
  | [] => []
  | r :: rest =>
      match records_of W t r with
      | Ok recs => recs :: fetched W rest (t ++ [Sent r])
      | Raise _ => []
      end
  end.

(** The requests of [get_k_data]: one page of 800 daily bars per value of
    [i], starting [first + i * 800] bars back. *)
Definition k_requests (market : Z) (code : string) (first : Z) (todo : list Z)
  : list request :=
  map (fun i => get_security_bars 9 market code (first + i * 800) 800) todo.

(** [p] holds of [k], [k + 1], ..., [k + fuel - 1]. *)
Fixpoint holds_from (fuel : nat) (k : Z) (p : Z -> bool) : bool :=
  match fuel with
  | O => true
  | S fuel' => if p k then holds_from fuel' (k + 1) p else false
  end.

(** The float computations of [get_k_data] against integer arithmetic.
    [n - int(n / c)] takes off the integer [q] with
    [10 c * q <= 10 n < 10 c * (q + 1)], the floor of [n / c], where [c10] is
    [10 c]; [math.ceil(d / 800)] is the integer [p] with
    [800 (p - 1) < d <= 800 p]. *)
Definition discount_agrees (c : float) (c10 : Z) (n : Z) : bool :=
  match StdQuotes.discount n c with
  | Ok r => (c10 * (n - r) <=? 10 * n) && (10 * n <? c10 * (n - r) + c10)
  | Raise _ => false
  end.

Definition page_count_agrees (d : Z) : bool :=
  match StdQuotes.page_count 0 d with
  | Ok p => (800 * p - 800 <? d) && (d <=? 800 * p)
  | Raise _ => false
  end.

(** The longest span of days a [Timedelta] holds. *)
Definition max_days : Z := 106751.

(** The columns [get_k_data] drops once the date is derived. *)
Definition dropped : list string :=
  ["year"; "month"; "day"; "hour"; "minute"; "datetime"].

(** The date of a bar: the first ten characters of its datetime. *)
Definition date_of (bar : record) : string :=
  slice_to 10 (str (cell bar "datetime")).

(** The row [get_k_data] makes of a bar: the date and the code are set, the
    calendar fields are removed. *)
Definition row_of (code : string) (bar : record) : record :=
  remove_keys dropped
    (set_cell "code" (VStr code) (set_cell "date" (VStr (date_of bar)) bar)).

(** [start_date <= d < end_date], on strings. *)
Definition in_range (start_date end_date d : string) : bool :=
  str_le start_date d && str_lt d end_date.

(** Order of labelled rows: by label, ascending. *)
Definition by_label (a b : string * record) : Prop := str_le (fst a) (fst b) = true.

(** The labelled rows [get_k_data] keeps of a list of bars, before sorting. *)
Definition kept (code start_date end_date : string) (bars : list record)
  : list (string * record) :=
  filter (fun p => in_range start_date end_date (fst p))
    (map (fun bar => (date_of bar, row_of code bar)) bars).

(** The columns of pages put one after the other: those of the first page,
    then what each further page adds. *)
Definition page_columns (pages : list DataFrame) : list string :=
  fold_left (fun cols f => add_columns cols (columns f)) pages [].

(** The table [get_k_data] makes of its pages, written out.  The bars are
    those of the pages, page after page; a bar gives a row when its date is in
    range; the rows come sorted by date, rows of one date in the order of
    their bars.  There is no table without a page, without a [datetime]
    column, or when one of the columns to drop is missing. *)
Definition k_result (code start_date end_date : string) (pages : list DataFrame)
  : outcome DataFrame :=
  match pages with
  | [] => Raise (ValueError "No objects to concatenate")
  | _ :: _ =>
      let cols := add_columns (add_columns (page_columns pages) ["date"]) ["code"] in
      if has_column "datetime" (page_columns pages) then
        match filter (fun l => negb (has_column l cols)) dropped with
        | l :: _ => Raise (KeyError l)
        | [] =>
            let sorted := sort_rows (kept code start_date end_date
                                       (flat_map rows pages)) in
            Ok {| columns := filter (fun c => negb (has_column c dropped)) cols;
                  Pandas.index := map (fun kr => VStr (fst kr)) sorted;
                  rows := map snd sorted |}
        end
      else Raise (KeyError "datetime")
  end.

(** Ascending order of dates. *)
Definition ascending (a b : string) : Prop := str_le a b = true.

(** [math.ceil(count / 100)] against integer arithmetic: the integer [p]
    with [100 (p - 1) < count <= 100 p]. *)
Definition instrument_pages_agrees (count : Z) : bool :=
  match ExtQuotes.instrument_pages count with
  | Ok p => (100 * p - 100 <? count) && (count <=? 100 * p)
  | Raise _ => false
  end.

(** The instrument counts the statements cover. *)
Definition max_instruments : Z := 131071.

(** [isinstance(e, ValidationException)] *)
Definition is_validation (e : exc) : bool :=
  match e with
  | ValidationException => true
  | _ => false
  end.

(** The list a [quotes] argument stands for. *)
Definition symbol_list (symbol : StdQuotes.symbols) : list string :=
  match symbol with
  | StdQuotes.NoSymbol => []
  | StdQuotes.OneSymbol s => [s]
  | StdQuotes.ManySymbols l => l
  end.

(** The records of a list of answers, [None] counting for none. *)
Definition records_in (answers : list (option (list record))) : list record :=
  flat_map (fun a => match a with Some recs => recs | None => [] end) answers.

(** The page requests of [stocks] and of [instruments]. *)
Definition list_requests (market : Z) (pages : list Z) : list request :=
  map (fun i => get_security_list market (1000 * i)) pages.

Definition instrument_requests (pages : list Z) : list request :=
  map (fun page => ex_get_instrument_info (page * 100) 100) pages.

(** The records [instruments] lists in an attempt that starts in state [s],
    for a count [c], and the state the attempt leaves. *)
Definition listed (W : World) (c : Z) (s : state) : list record :=
  records_in (fetched W (instrument_requests (range (ceil_div c 100)))
                (trace s ++ [Sent ex_get_instrument_count])).

Definition listing_done (c : Z) (s : state) : state :=
  {| trace := trace s ++ Sent ex_get_instrument_count
                         :: map Sent (instrument_requests (range (ceil_div c 100)));
     draws := draws s;
     _closed := _closed s |}.

(** A record without fields. *)
Definition no_field (r : record) : bool :=
  match r with [] => true | _ :: _ => false end.

(** The content request of a section, and the last section of a directory
    that carries a title. *)
Definition content_request (market : Z) (symbol : string) (x : CompanyInfo.section)
  : CompanyInfo.info_request :=
  CompanyInfo.get_company_info_content market symbol
    (CompanyInfo.filename x) (CompanyInfo.start x) (CompanyInfo.length x).

Definition titled (title : string) (x : CompanyInfo.section) : bool :=
  String.eqb (CompanyInfo.name x) title.

Definition last_titled (title : string) (directory : list CompanyInfo.section)
  : option CompanyInfo.section :=
  find (titled title) (rev directory).

(** More samples: a directory with a repeated title, a server of texts, and
    a check of dotted IPv4 addresses. *)
Module MoreSamples.

Definition directory : list CompanyInfo.section :=
  [CompanyInfo.mkSection "news" "600000.txt" 0 100;
   CompanyInfo.mkSection "profile" "600000.txt" 100 50;
   CompanyInfo.mkSection "news" "600000.txt" 150 20].

Definition text_of (r : CompanyInfo.info_request) : pyval :=
  match r with
  | CompanyInfo.get_company_info_content _ _ file start _ =>
      VStr (file ++ "@" ++ str_of_int start)
  | CompanyInfo.get_company_info_category _ _ => VNone
  end.

Definition info_server : CompanyInfo.InfoServer :=
  {| CompanyInfo.directory_of := fun _ _ => Ok (Some directory);
     CompanyInfo.content_of := fun _ r => Ok (text_of r) |}.

(** A server that knows no company. *)
Definition silent_info_server : CompanyInfo.InfoServer :=
  {| CompanyInfo.directory_of := fun _ _ => Ok None;
     CompanyInfo.content_of := fun _ _ => Ok VNone |}.

Definition octet (s : string) : bool :=
  match int_of_str s with
  | Ok z => (0 <=? z) && (z <=? 255)
  | Raise _ => false
  end.

Definition ip_address (address : Server.item) : outcome unit :=
  match address with
  | Server.IStr s =>
      let parts := split "." s in
      if (List.length parts =? 4)%nat && forallb octet parts then Ok tt
      else Raise (ValueError "does not appear to be an IPv4 or IPv6 address")
  | _ => Raise (ValueError "does not appear to be an IPv4 or IPv6 address")
  end.

(** A server of the extended market with 250 instruments, listed in pages
    of 100. *)
Definition instrument (i : Z) : record := [("code", VInt i)].

Definition ex_world : World :=
  {| records_of := fun _ r =>
       match r with
       | ex_get_instrument_info start count =>
           Ok (Some (map (fun k => instrument (start + Z.of_nat k))
                         (seq 0 (Z.to_nat (Z.min count (250 - start))))))
       | ex_get_markets => Ok (Some [Samples.stock "47" "CFFEX"])
       | _ => Ok None
       end;
     scalar_of := fun _ r =>
       match r with
       | ex_get_instrument_count => Ok (Some 250)
       | _ => Ok None
       end;
     reachable := fun _ => true;
     random := fun _ => (1 # 4)%Q;
     today := 0 |}.

(** A server that lists Shanghai only: Shenzhen has no security. *)
Definition shanghai_only : World :=
  {| records_of := fun _ _ => Ok (Some [Samples.stock "600000" "SPDB"]);
     scalar_of := fun _ r =>
       match r with
       | get_security_count market => Ok (Some (if market =? 0 then 0 else 1))
       | _ => Ok None
       end;
     reachable := fun _ => true;
     random := fun _ => (1 # 4)%Q;
     today := 0 |}.

(** A server whose daily bars come in two pages, the newer page first;
    today is 2023-01-12. *)
Definition paged_world : World :=
  {| records_of := fun _ r =>
       match r with
       | get_security_bars _ _ _ start _ =>
           Ok (Some (if start <? 800
                     then [Samples.bar "2023-01-06 15:00" "10.5";
                           Samples.bar "2023-01-09 15:00" "10.7"]
                     else if start <? 1600
                     then [Samples.bar "2023-01-04 15:00" "10.1";
                           Samples.bar "2023-01-05 15:00" "10.3"]
                     else []))
       | _ => Ok None
       end;
     scalar_of := fun _ _ => Ok None;
     reachable := fun _ => true;
     random := fun _ => (1 # 4)%Q;
     today := Samples.days_from_civil 2023 1 12 * StdQuotes.ns_per_day |}.

(** A server of the extended market that lists no instrument. *)
Definition empty_exchange : World :=
  {| records_of := fun _ _ => Ok (Some []);
     scalar_of := fun _ r =>
       match r with
       | ex_get_instrument_count => Ok (Some 0)
       | _ => Ok None
       end;
     reachable := fun _ => true;
     random := fun _ => (1 # 4)%Q;
     today := 0 |}.

(** A server no [connect] reaches. *)
Definition unreachable : World :=
  {| records_of := fun _ _ => Ok None;
     scalar_of := fun _ _ => Ok None;
     reachable := fun _ => false;
     random := fun _ => (1 # 4)%Q;
     today := 0 |}.

End MoreSamples.

(* ===================================================================== *)
(** * Properties *)
(* ===================================================================== *)

(** ** The monad *)

Lemma bind_lift_ok {A B} (o : outcome A) (a : A) (k : A -> M B) (s : state) :
  o = Ok a -> bind (lift o) k s = k a s.
Proof. intros ->. reflexivity. Qed.

Lemma bind_lift_raise {A B} (o : outcome A) (e : exc) (k : A -> M B) (s : state) :
  o = Raise e -> bind (lift o) k s = (Raise e, s).
Proof. intros ->. reflexivity. Qed.

Lemma page_above (offset : Z) : 800 < offset -> StdQuotes.page offset = 800.
Proof.
  intros H. unfold StdQuotes.page.
  destruct (offset >? 800) eqn:E; [reflexivity | lia].
Qed.

Lemma page_800 : StdQuotes.page 800 = 800.
Proof. reflexivity. Qed.

(** ** Page size of the bars operations *)

(** C1, as stated, fails on the transaction operations: asked for 1000
    ticks, [StdQuotes.transaction] passes a count of 1000 to the client. *)
Lemma transaction_passes_1000 :
  800 < 1000 /\
  trace (final (StdQuotes.transaction Samples.utils Samples.world "600000" 0 1000)
               Samples.alive)
  = [Sent (get_transaction_data 1 "600000" 0 1000)] /\
  1000 <> 800.
Proof. split; [lia | split; [reflexivity | discriminate]]. Qed.

(** C1 (amended): for [StdQuotes.bars], [StdQuotes.index_bars] and
    [StdQuotes.index] an offset above 800 behaves in every respect as the
    offset 800 (same outcome, same final state, so no error comes from the
    oversized request), and the request sent carries the count 800.  The
    transaction operations and [ExtQuotes.bars] pass the requested offset to
    the client as it is. *)
Theorem bars_page_size (U : Utils) (W : World) (symbol : string) (frequency : pyval)
  (start offset : Z) (s : state) (f m : Z) :
  800 < offset ->
  get_frequency U frequency = Ok f ->
  get_stock_market U symbol = Ok m ->
  (StdQuotes.bars U W symbol frequency start offset s
     = StdQuotes.bars U W symbol frequency start 800 s
   /\ trace (final (StdQuotes.bars U W symbol frequency start offset) s)
      = trace s ++ [Sent (get_security_bars f m symbol start 800)])
  /\ (StdQuotes.index_bars U W symbol frequency start offset s
        = StdQuotes.index_bars U W symbol frequency start 800 s
      /\ trace (final (StdQuotes.index_bars U W symbol frequency start offset) s)
         = trace s ++ [Sent (get_index_bars f (StdQuotes.index_market symbol) symbol start 800)])
  /\ (StdQuotes.index U W symbol frequency start offset s
        = StdQuotes.index U W symbol frequency start 800 s
      /\ trace (final (StdQuotes.index U W symbol frequency start offset) s)
         = trace s ++ [Sent (get_index_bars f (StdQuotes.index_market symbol) symbol start 800)])
  /\ trace (final (StdQuotes.transaction U W symbol start offset) s)
     = trace s ++ [Sent (get_transaction_data m symbol start offset)]
  /\ (forall date d, int_of_str date = Ok d -> In m [0; 1] ->
      trace (final (StdQuotes.transactions U W symbol start offset date) s)
      = trace s ++ [Sent (get_history_transaction_data m symbol start offset d)])
  /\ (forall market em esym, ExtQuotes.validate market symbol = Ok (em, esym) ->
      trace (final (ExtQuotes.bars_fn U W frequency market symbol start offset) s)
      = trace s ++ [Sent (ex_get_instrument_bars f em esym start offset)]).
Proof.
  intros Hoff Hf Hm.
  unfold StdQuotes.bars, StdQuotes.index_bars, StdQuotes.index,
    StdQuotes.transaction, StdQuotes.transactions, ExtQuotes.bars_fn, final.
  rewrite (page_above offset Hoff), page_800.
  repeat match goal with |- _ /\ _ => split end; try reflexivity.
  - rewrite (bind_lift_ok _ f), (bind_lift_ok _ m) by assumption.
    unfold bind, send. simpl.
    destruct (records_of W (trace s) _); reflexivity.
  - rewrite (bind_lift_ok _ f) by assumption.
    unfold bind, send. simpl.
    destruct (records_of W (trace s) _); reflexivity.
  - rewrite (bind_lift_ok _ f) by assumption.
    unfold bind, send. simpl.
    destruct (records_of W (trace s) _); reflexivity.
  - rewrite (bind_lift_ok _ m) by assumption.
    unfold bind, send. simpl.
    destruct (records_of W (trace s) _); reflexivity.
  - intros date d Hd Hin.
    rewrite (bind_lift_ok _ m) by assumption.
    assert (E : existsb (Z.eqb m) [0; 1] = true).
    { apply existsb_exists. exists m. split; [assumption | apply Z.eqb_refl]. }
    rewrite E, (bind_lift_ok _ d) by assumption.
    unfold bind, send. simpl.
    destruct (records_of W (trace s) _); reflexivity.
  - intros market em esym Hv.
    rewrite (bind_lift_ok _ f), (bind_lift_ok _ (em, esym)) by assumption.
    unfold bind, send. simpl.
    destruct (records_of W (trace s) _); reflexivity.
Qed.

Lemma bars_page_size_witness :
  trace (final (StdQuotes.bars Samples.utils Samples.world "600000" (VInt 9) 0 1000)
               Samples.alive)
  = trace Samples.alive ++ [Sent (get_security_bars 9 1 "600000" 0 800)].
Proof.
  apply (bars_page_size Samples.utils Samples.world "600000" (VInt 9) 0 1000
           Samples.alive 9 1); [lia | reflexivity | reflexivity].
Defined.

(** ** [quotes] without symbols *)

(** C10: with an empty or falsy [symbol], [quotes] returns the empty table
    and leaves the session as it was: nothing is sent to the client. *)
Theorem quotes_no_symbol (U : Utils) (W : World) (symbol : StdQuotes.symbols)
  (s : state) :
  StdQuotes.no_symbol symbol = true ->
  StdQuotes.quotes U W symbol s = (Ok (to_data None), s)
  /\ rows (to_data None) = [] /\ columns (to_data None) = []
  /\ trace (final (StdQuotes.quotes U W symbol) s) = trace s.
Proof.
  intros H. unfold final, StdQuotes.quotes. rewrite H.
  repeat match goal with |- _ /\ _ => split end; reflexivity.
Qed.

Lemma quotes_no_symbol_witness :
  StdQuotes.quotes Samples.utils Samples.world (StdQuotes.ManySymbols []) Samples.dead
  = (Ok (to_data None), Samples.dead).
Proof.
  apply (quotes_no_symbol Samples.utils Samples.world (StdQuotes.ManySymbols [])
           Samples.dead).
  reflexivity.
Defined.

(** ** [ExtQuotes.validate] *)

Lemma chars_app (a b : string) : chars (a ++ b)%string = chars a ++ chars b.
Proof.
  unfold chars. induction a as [| c a IH]; simpl; [reflexivity | now rewrite IH].
Qed.

Lemma text_chars (s : string) : text (chars s) = s.
Proof. apply string_of_list_ascii_of_string. Qed.

Lemma split_chars_none (sep : ascii) (l : list ascii) :
  ~ In sep l -> split_chars sep l = [l].
Proof.
  induction l as [| c l IH]; intros H; simpl; [reflexivity |].
  destruct (Ascii.eqb c sep) eqn:E.
  - apply Ascii.eqb_eq in E. subst c. exfalso. apply H. now left.
  - rewrite IH; [reflexivity |]. intros Hin. apply H. now right.
Qed.

Lemma split_chars_at (sep : ascii) (a b : list ascii) :
  ~ In sep a -> split_chars sep (a ++ sep :: b) = a :: split_chars sep b.
Proof.
  induction a as [| c a IH]; intros H; simpl.
  - now rewrite Ascii.eqb_refl.
  - destruct (Ascii.eqb c sep) eqn:E.
    + apply Ascii.eqb_eq in E. subst c. exfalso. apply H. now left.
    + rewrite IH; [reflexivity |]. intros Hin. apply H. now right.
Qed.

(** Splitting [a#b] at its only separator gives the two parts. *)
Lemma split_pair (a b : string) :
  no_hash a -> no_hash b -> split "#" (a ++ String "#" b)%string = [a; b].
Proof.
  intros Ha Hb. unfold split. rewrite chars_app.
  change (chars (String "#" b)) with ("#"%char :: chars b).
  rewrite split_chars_at by exact Ha.
  rewrite split_chars_none by exact Hb.
  simpl. now rewrite !text_chars.
Qed.

Lemma split_whole (s : string) : no_hash s -> split "#" s = [s].
Proof.
  intros H. unfold split. rewrite split_chars_none by exact H.
  simpl. now rewrite text_chars.
Qed.

Lemma int_of_str_nonempty (s : string) (n : Z) : int_of_str s = Ok n -> s <> "".
Proof. intros H ->. discriminate H. Qed.

(** [int] raises nothing but [ValueError]. *)
Lemma int_of_str_raises (s : string) (e : exc) :
  int_of_str s = Raise e -> exists msg, e = ValueError msg.
Proof.
  unfold int_of_str, int_of_chars. intros H.
  destruct (lstrip (chars s)) as [| c r]; [inversion H; eauto |].
  match type of H with
  | context [let '(_, _) := ?x in _] => destruct x as [negative body]
  end.
  destruct (scan body) as [run tail].
  destruct (digits 0 false run); [| inversion H; eauto].
  destruct (max_str_digits <? _)%nat; [inversion H; eauto |].
  destruct (lstrip tail); [discriminate H | inversion H; eauto].
Qed.

Lemma no_hash_dec_true (s : string) :
  existsb (Ascii.eqb "#"%char) (chars s) = false -> no_hash s.
Proof.
  intros H Hin. assert (E : existsb (Ascii.eqb "#"%char) (chars s) = true).
  { apply existsb_exists. exists "#"%char. split; [exact Hin | apply Ascii.eqb_refl]. }
  congruence.
Qed.

(** ** [check_empty] *)

(** On a frame, [check_empty] answers whether the frame has no column:
    [value.all()] has one entry per column, whatever the number of rows. *)
Lemma check_empty_frame (self : facade) (df : DataFrame) :
  check_empty (Some self) (Frame df) = Ok (series_empty (columns df)).
Proof.
  unfold check_empty, Pandas.all. simpl.
  destruct (columns df); reflexivity.
Qed.

Lemma check_empty_plain (self : facade) (v : pyval) :
  check_empty (Some self) (Plain v) = Ok (py_not v).
Proof. reflexivity. Qed.

(** The empty table of the adapter is judged empty. *)
Lemma check_empty_no_data (self : facade) :
  check_empty (Some self) (Frame (to_data None)) = Ok true.
Proof. reflexivity. Qed.


(** ** Reconnection *)

Lemma connects_snoc (t : list event) (r : request) :
  is_connect r = false -> connects (t ++ [Sent r]) = connects t.
Proof.
  intros H. unfold connects, requests.
  rewrite flat_map_app, filter_app. simpl. rewrite H. apply app_nil_r.
Qed.

Lemma connects_slept (t : list event) (d : Q) :
  connects (t ++ [Slept d]) = connects t.
Proof.
  unfold connects, requests.
  rewrite flat_map_app, filter_app. simpl. apply app_nil_r.
Qed.

Lemma quiet_ret {A} (a : A) : quiet (ret a).
Proof. intros s. split; reflexivity. Qed.

Lemma quiet_raise {A} (e : exc) : quiet (@raise A e).
Proof. intros s. split; reflexivity. Qed.

Lemma quiet_lift {A} (o : outcome A) : quiet (lift o).
Proof. intros s. split; reflexivity. Qed.

Lemma quiet_bind {A B} (m : M A) (k : A -> M B) :
  quiet m -> (forall a, quiet (k a)) -> quiet (bind m k).
Proof.
  intros Hm Hk s. unfold final, bind. specialize (Hm s). unfold final in Hm.
  destruct (m s) as [[a | e] s1]; simpl in *.
  - destruct (Hk a s1) as [H1 H2]. unfold final in *.
    destruct Hm as [H3 H4]. split; congruence.
  - exact Hm.
Qed.

Lemma quiet_attempt {A} (m : M A) : quiet m -> quiet (attempt m).
Proof.
  intros Hm s. specialize (Hm s). unfold final, attempt in *.
  destruct (m s); exact Hm.
Qed.

Lemma quiet_send (W : World) (r : request) : is_connect r = false -> quiet (send W r).
Proof.
  intros H s. unfold final, send. simpl. split; [now apply connects_snoc | reflexivity].
Qed.

Lemma quiet_ask (W : World) (r : request) : is_connect r = false -> quiet (ask W r).
Proof.
  intros H s. unfold final, ask. simpl. split; [now apply connects_snoc | reflexivity].
Qed.

Lemma quiet_sleep (d : Q) : quiet (sleep d).
Proof. intros s. unfold final, sleep. simpl. split; [apply connects_slept | reflexivity]. Qed.

Lemma quiet_random_sample (W : World) : quiet (random_sample W).
Proof. intros s. split; reflexivity. Qed.

Create HintDb quiet.
#[local] Hint Resolve quiet_ret quiet_raise quiet_lift quiet_attempt quiet_send
  quiet_ask quiet_sleep quiet_random_sample : quiet.

(** Walks through a computation written with [bind], case by case. *)
Ltac quiet_step :=
  match goal with
  | |- quiet (bind _ _) => apply quiet_bind; [| intro]
  | |- quiet (attempt _) => apply quiet_attempt
  | |- quiet (if ?b then _ else _) => destruct b
  | |- quiet (match ?x with _ => _ end) => destruct x
  | |- quiet (let '(_, _) := ?x in _) => destruct x
  | |- quiet _ => solve [auto with quiet]
  | |- is_connect _ = false => reflexivity
  | |- forall _, _ => intro
  end.

Ltac quietly := repeat quiet_step.

Lemma quiet_stocks_pages (W : World) (market : Z) (starts : list Z) :
  forall stocks, quiet (StdQuotes.stocks_pages W market starts stocks).
Proof.
  induction starts as [| start rest IH]; intros stocks; simpl; quietly;
    try apply IH.
Qed.

Lemma quiet_stock_count (W : World) (market : Z) :
  quiet (StdQuotes.stock_count W market).
Proof. unfold StdQuotes.stock_count. quietly. Qed.

Lemma quiet_stocks (W : World) (market : Z) : quiet (StdQuotes.stocks W market).
Proof.
  unfold StdQuotes.stocks. quietly;
    try first [apply quiet_stock_count | apply quiet_stocks_pages].
Qed.

Lemma quiet_stock_all_markets (W : World) (ms : list Z) :
  forall stocks, quiet (StdQuotes.stock_all_markets W ms stocks).
Proof.
  induction ms as [| m rest IH]; intros stocks; simpl; quietly;
    try first [apply quiet_stocks | apply IH].
Qed.

Lemma quiet_k_pages (W : World) (market : Z) (code : string) (first : Z)
  (todo : list Z) :
  forall temp, quiet (StdQuotes.k_pages W market code first todo temp).
Proof.
  induction todo as [| i rest IH]; intros temp; simpl; quietly; try apply IH.
Qed.

Lemma quiet_get_k_data (U : Utils) (W : World) (code start_date end_date : string) :
  quiet (StdQuotes.get_k_data U W code start_date end_date).
Proof. unfold StdQuotes.get_k_data. quietly; try apply quiet_k_pages. Qed.

(** ** The retry policy of [ExtQuotes] *)

Section RetryPolicy.
Variable W : World.
Variable self : facade.

Let retry_rule : outcome value -> outcome bool :=
  Tenacity.retry_any Tenacity.retry_if_exception_type
    (Tenacity.retry_if_result (check_empty (Some self))).

(** The rule [retry_if_exception_type() | retry_if_result(check_empty)]
    never raises; it asks for another attempt exactly after an [Exception] or
    an empty result. *)
Lemma retry_rule_retried (o : outcome value) : retry_rule o = Ok (retried self o).
Proof.
  unfold retry_rule, Tenacity.retry_any. destruct o as [v | e]; simpl.
  - destruct v; reflexivity.
  - destruct (is_Exception e); reflexivity.
Qed.

Lemma pause_step (s : state) :
  (d <- Tenacity.wait_random W 1 10 ;; sleep d) s = (Ok tt, paused W s).
Proof. reflexivity. Qed.

Lemma pause_length_bounds (s : state) :
  (forall n, 0 <= random W n /\ random W n < 1)%Q ->
  (1 <= pause_length W s /\ pause_length W s <= 10)%Q.
Proof.
  intros H. unfold pause_length. destruct (H (draws s)) as [H0 H1]. split; lra.
Qed.

(** One round of the loop: the attempt is made; its outcome is returned if
    the rule does not ask for more or if the attempts are used up; otherwise
    the loop pauses and goes on. *)
Lemma call_step (fuel n : nat) (fn : M value) (s : state) :
  Tenacity.call (Tenacity.stop_after_attempt 3) (Tenacity.wait_random W 1 10)
    retry_rule return_last_value (S fuel) n fn s
  = if retried self (result fn s) && negb (3 <=? n)%nat
    then Tenacity.call (Tenacity.stop_after_attempt 3) (Tenacity.wait_random W 1 10)
           retry_rule return_last_value fuel (S n) fn (paused W (final fn s))
    else Some (fn s).
Proof.
  cbn [Tenacity.call]. unfold result, final.
  destruct (fn s) as [o s1]. cbn [fst snd].
  rewrite retry_rule_retried, pause_step.
  unfold Tenacity.stop_after_attempt.
  destruct (retried self o); [| reflexivity].
  destruct (3 <=? n)%nat; reflexivity.
Qed.

(** The decorated method, unrolled: at most three attempts. *)
Lemma retry_unrolled (fuel : nat) (fn : M value) (s : state) :
  (3 <= fuel)%nat ->
  ExtQuotes.retry W self fuel fn s
  = if retried self (result fn s)
    then if retried self (result fn (attempt_state W fn 1 s))
         then Some (fn (attempt_state W fn 2 s))
         else Some (fn (attempt_state W fn 1 s))
    else Some (fn s).
Proof.
  intros Hfuel. destruct fuel as [| [| [| fuel]]]; try lia.
  unfold ExtQuotes.retry. fold retry_rule.
  rewrite call_step. cbn [Nat.leb negb andb].
  rewrite andb_true_r.
  destruct (retried self (result fn s)); [| reflexivity].
  rewrite call_step. cbn [Nat.leb negb andb]. rewrite andb_true_r.
  cbn [attempt_state].
  destruct (retried self (result fn (paused W (final fn s)))); [| reflexivity].
  rewrite call_step. cbn [Nat.leb negb andb]. rewrite andb_false_r.
  reflexivity.
Qed.

(** C4: a decorated method makes at most three attempts, each attempt but
    the first after a pause whose length lies in [1, 10]; attempts go on only
    after an exception or an empty result, and the outcome of the last
    attempt made is the outcome of the call.  Hence: two transient errors
    followed by a success return the third result, and three empty results
    return the third, empty, result without raising. *)
Theorem retry_policy (fuel : nat) (fn : M value) (s : state) :
  (3 <= fuel)%nat ->
  (forall n, 0 <= random W n /\ random W n < 1)%Q ->
  (exists n, (n < 3)%nat
     /\ ExtQuotes.retry W self fuel fn s = Some (fn (attempt_state W fn n s))
     /\ (forall k, (k < n)%nat ->
           retried self (result fn (attempt_state W fn k s)) = true
           /\ (1 <= pause_length W (final fn (attempt_state W fn k s))
               /\ pause_length W (final fn (attempt_state W fn k s)) <= 10)%Q)
     /\ ((n < 2)%nat -> retried self (result fn (attempt_state W fn n s)) = false))
  /\ (forall e1 e2 v,
         result fn s = Raise e1 -> is_Exception e1 = true ->
         result fn (attempt_state W fn 1 s) = Raise e2 -> is_Exception e2 = true ->
         result fn (attempt_state W fn 2 s) = Ok v ->
         exists s', ExtQuotes.retry W self fuel fn s = Some (Ok v, s'))
  /\ (forall v1 v2 v3,
         result fn s = Ok v1 -> check_empty (Some self) v1 = Ok true ->
         result fn (attempt_state W fn 1 s) = Ok v2 -> check_empty (Some self) v2 = Ok true ->
         result fn (attempt_state W fn 2 s) = Ok v3 -> check_empty (Some self) v3 = Ok true ->
         exists s', ExtQuotes.retry W self fuel fn s = Some (Ok v3, s')).
Proof.
  intros Hfuel Hrand. rewrite (retry_unrolled fuel fn s Hfuel).
  split; [| split].
  - destruct (retried self (result fn s)) eqn:E0.
    + destruct (retried self (result fn (attempt_state W fn 1 s))) eqn:E1.
      * exists 2%nat. split; [lia | split; [reflexivity | split]].
        -- intros k Hk. split; [| apply pause_length_bounds, Hrand].
           destruct k as [| [| k]]; [exact E0 | exact E1 | lia].
        -- intros Hn. lia.
      * exists 1%nat. split; [lia | split; [reflexivity | split]].
        -- intros k Hk. split; [| apply pause_length_bounds, Hrand].
           destruct k as [| k]; [exact E0 | lia].
        -- intros _. exact E1.
    + exists 0%nat. split; [lia | split; [reflexivity | split]].
      * intros k Hk. lia.
      * intros _. exact E0.
  - intros e1 e2 v H1 He1 H2 He2 H3.
    rewrite H1, H2. cbn [retried]. rewrite He1, He2.
    unfold result in H3. destruct (fn (attempt_state W fn 2 s)) as [o3 s3].
    cbn [fst] in H3. subst o3. now exists s3.
  - intros v1 v2 v3 H1 Hv1 H2 Hv2 H3 Hv3.
    rewrite H1, H2. cbn [retried]. rewrite Hv1, Hv2.
    unfold result in H3. destruct (fn (attempt_state W fn 2 s)) as [o3 s3].
    cbn [fst] in H3. subst o3. now exists s3.
Qed.

End RetryPolicy.

Lemma retry_policy_witness :
  (exists s', ExtQuotes.markets Samples.flaky_world Samples.session 3 Samples.alive
              = Some (Ok (Frame (to_data (Some [Samples.stock "47" "CFFEX"]))), s'))
  /\ (exists s', ExtQuotes.markets Samples.silent_world Samples.session 3 Samples.alive
                 = Some (Ok (Frame (to_data None)), s')).
Proof.
  split.
  - refine (proj1 (proj2 (retry_policy Samples.flaky_world Samples.session 3
             (ExtQuotes.markets_fn Samples.flaky_world) Samples.alive _ _))
             ConnectionError ConnectionError _ _ _ _ _ _);
      try reflexivity; try lia; intros n; split; [now vm_compute | reflexivity].
  - refine (proj2 (proj2 (retry_policy Samples.silent_world Samples.session 3
             (ExtQuotes.markets_fn Samples.silent_world) Samples.alive _ _))
             _ _ _ _ _ _ _ _ _);
      try reflexivity; try lia; intros n; split; [now vm_compute | reflexivity].
Defined.

(** ** No operation reconnects *)

Lemma connects_info (t : list event) (l : list CompanyInfo.info_request) :
  connects (t ++ map (fun r => Sent (company_info r)) l) = connects t.
Proof.
  induction l as [| r l IH] using rev_ind.
  - simpl. now rewrite app_nil_r.
  - rewrite map_app, app_assoc. simpl.
    rewrite connects_snoc by reflexivity. exact IH.
Qed.

(** What [F10C] and [F10] send are company-information requests. *)
Lemma quiet_in_session {A} (m : CompanyInfo.I A) : quiet (in_session m).
Proof.
  intros s. unfold final, in_session.
  destruct (m (info_requests (trace s))) as [o after]. cbn [snd trace _closed].
  split; [apply connects_info | reflexivity].
Qed.

Lemma quiet_instruments_pages (W : World) (pages : list Z) :
  forall result, quiet (ExtQuotes.instruments_pages W pages result).
Proof.
  induction pages as [| page rest IH]; intros result; simpl; quietly; try apply IH.
Qed.

Lemma quiet_instruments_fn (W : World) : quiet (ExtQuotes.instruments_fn W).
Proof.
  unfold ExtQuotes.instruments_fn. quietly; try apply quiet_instruments_pages.
Qed.

(** The pauses between the attempts are no requests. *)
Lemma quiet_attempt_state {A} (W : World) (fn : M A) (s : state) :
  quiet fn ->
  forall n, connects (trace (attempt_state W fn n s)) = connects (trace s)
            /\ _closed (attempt_state W fn n s) = _closed s.
Proof.
  intros Hfn. induction n as [| n [IH1 IH2]]; [now split |].
  cbn [attempt_state paused trace _closed]. rewrite connects_slept.
  destruct (Hfn (attempt_state W fn n s)) as [H1 H2]. split; congruence.
Qed.

(** The decorator adds pauses only: a decorated quiet method is quiet, and
    it returns. *)
Lemma quiet_retry (W : World) (self : facade) (fn : M value) :
  quiet fn -> quiet_retried (fun fuel => ExtQuotes.retry W self fuel fn).
Proof.
  intros Hfn fuel s Hfuel.
  assert (H : forall n, exists o s',
               fn (attempt_state W fn n s) = (o, s')
               /\ connects (trace s') = connects (trace s)
               /\ _closed s' = _closed s).
  { intros n. destruct (quiet_attempt_state W fn s Hfn n) as [H1 H2].
    destruct (Hfn (attempt_state W fn n s)) as [H3 H4]. unfold final in H3, H4.
    destruct (fn (attempt_state W fn n s)) as [o s'].
    exists o, s'. cbn [snd] in H3, H4. repeat split; congruence. }
  rewrite (retry_unrolled W self fuel fn s Hfuel).
  destruct (retried self (result fn s));
    [destruct (retried self (result fn (attempt_state W fn 1 s))) |].
  - destruct (H 2%nat) as [o [s' [E Hq]]]. exists o, s'. now rewrite E.
  - destruct (H 1%nat) as [o [s' [E Hq]]]. exists o, s'. now rewrite E.
  - destruct (H 0%nat) as [o [s' [E Hq]]]. exists o, s'. now rewrite <- E.
Qed.




(** ** The range resolver of [get_k_data] *)

Lemma holds_from_spec (p : Z -> bool) (fuel : nat) :
  forall k, holds_from fuel k p = true ->
            forall z, k <= z < k + Z.of_nat fuel -> p z = true.
Proof.
  induction fuel as [| fuel IH]; intros k H z Hz; [lia |].
  cbn [holds_from] in H. destruct (p k) eqn:E; [| discriminate].
  destruct (Z.eq_dec z k) as [-> | Hne]; [exact E |].
  apply (IH (k + 1) H). lia.
Qed.

Lemma discount_2_8_checked :
  holds_from (N.to_nat 106752) 0 (discount_agrees 2.8%float 28) = true.
Proof. vm_compute. reflexivity. Qed.

Lemma discount_3_5_checked :
  holds_from (N.to_nat 106752) 0 (discount_agrees 3.5%float 35) = true.
Proof. vm_compute. reflexivity. Qed.

Lemma page_count_checked :
  holds_from (N.to_nat 144878) (-68626) page_count_agrees = true.
Proof. vm_compute. reflexivity. Qed.

(** [n - int(n / 2.8)] for a day count [n]. *)
Lemma discount_2_8 (n : Z) :
  0 <= n <= max_days -> StdQuotes.discount n 2.8%float = Ok (n - (10 * n) / 28).
Proof.
  intros H. unfold max_days in H.
  pose proof (holds_from_spec _ _ _ discount_2_8_checked n) as Hn.
  rewrite N_nat_Z in Hn. specialize (Hn ltac:(lia)).
  unfold discount_agrees in Hn.
  destruct (StdQuotes.discount n 2.8%float) as [r | e]; [| discriminate].
  apply andb_true_iff in Hn. destruct Hn as [Hlo Hhi].
  apply Z.leb_le in Hlo. apply Z.ltb_lt in Hhi.
  rewrite <- (Z.div_unique (10 * n) 28 (n - r) (10 * n - 28 * (n - r)));
    [f_equal; lia | lia | lia].
Qed.

(** [n - int(n / 3.5)] for a day count [n]. *)
Lemma discount_3_5 (n : Z) :
  0 <= n <= max_days -> StdQuotes.discount n 3.5%float = Ok (n - (10 * n) / 35).
Proof.
  intros H. unfold max_days in H.
  pose proof (holds_from_spec _ _ _ discount_3_5_checked n) as Hn.
  rewrite N_nat_Z in Hn. specialize (Hn ltac:(lia)).
  unfold discount_agrees in Hn.
  destruct (StdQuotes.discount n 3.5%float) as [r | e]; [| discriminate].
  apply andb_true_iff in Hn. destruct Hn as [Hlo Hhi].
  apply Z.leb_le in Hlo. apply Z.ltb_lt in Hhi.
  rewrite <- (Z.div_unique (10 * n) 35 (n - r) (10 * n - 35 * (n - r)));
    [f_equal; lia | lia | lia].
Qed.

(** [math.ceil((last - first) / 800)] for two discounted day counts. *)
Lemma page_count_ceil (first last : Z) :
  -68626 <= last - first <= 76251 ->
  StdQuotes.page_count first last = Ok (ceil_div (last - first) 800).
Proof.
  intros H.
  pose proof (holds_from_spec _ _ _ page_count_checked (last - first)) as Hn.
  rewrite N_nat_Z in Hn. specialize (Hn ltac:(lia)).
  unfold page_count_agrees, StdQuotes.page_count in *.
  rewrite Z.sub_0_r in Hn.
  destruct (truediv (last - first) 800) as [q | e]; [| discriminate].
  destruct (ceil q) as [p | e]; [| discriminate].
  apply andb_true_iff in Hn. destruct Hn as [Hlo Hhi].
  apply Z.ltb_lt in Hlo. apply Z.leb_le in Hhi.
  unfold ceil_div.
  rewrite <- (Z.div_unique (- (last - first)) 800 (- p) (800 * p - (last - first)));
    [f_equal; lia | lia | lia].
Qed.

Lemma range_from_seq (n : nat) :
  forall start stop, start + Z.of_nat n <= stop ->
    range_from n start stop 1 = map (fun i => start + Z.of_nat i) (seq 0 n).
Proof.
  induction n as [| n IH]; intros start stop H; [reflexivity |].
  cbn [range_from]. destruct (start <? stop) eqn:E; [| lia].
  rewrite (IH (start + 1) stop) by lia.
  cbn [seq map]. rewrite Z.add_0_r. f_equal.
  rewrite <- seq_shift, map_map. apply map_ext. intros i. lia.
Qed.

(** [range(n)] is [0, 1, ..., n - 1], and empty when [n <= 0]. *)
Lemma range_seq (n : Z) : range n = map Z.of_nat (seq 0 (Z.to_nat n)).
Proof.
  unfold range, range_step, range_len.
  replace ((n + 1 - 1) / 1) with n by (rewrite Z.div_1_r; lia).
  destruct (Z_le_gt_dec n 0) as [Hn | Hn].
  - replace (Z.to_nat n) with 0%nat by lia. reflexivity.
  - rewrite range_from_seq by lia. reflexivity.
Qed.

Lemma range_nonpos (n : Z) : n <= 0 -> range n = [].
Proof.
  intros H. rewrite range_seq. replace (Z.to_nat n) with 0%nat by lia. reflexivity.
Qed.

Lemma k_pages_run (W : World) (market : Z) (code : string) (first : Z)
  (todo : list Z) :
  (forall t r, exists recs, records_of W t r = Ok recs) ->
  forall temp s,
    StdQuotes.k_pages W market code first todo temp s
    = (Ok (temp ++ map StdQuotes.to_df
                     (fetched W (k_requests market code first todo) (trace s))),
       {| trace := trace s ++ map Sent (k_requests market code first todo);
          draws := draws s;
          _closed := _closed s |}).
Proof.
  intros Hserver. induction todo as [| i rest IH]; intros temp s.
  - cbn. rewrite !app_nil_r. destruct s; reflexivity.
  - cbn [StdQuotes.k_pages k_requests map fetched].
    unfold bind at 1, send at 1.
    destruct (Hserver (trace s) (get_security_bars 9 market code (first + i * 800) 800))
      as [recs Hrecs].
    rewrite Hrecs. rewrite IH. cbn [log trace draws _closed].
    rewrite <- !app_assoc. reflexivity.
Qed.

Lemma days_between_whole (d dt : Z) :
  Z.abs (d - dt) <= max_days ->
  StdQuotes.days_between (d * StdQuotes.ns_per_day) (dt * StdQuotes.ns_per_day)
  = Ok (d - dt).
Proof.
  intros H. unfold StdQuotes.days_between, max_days in *.
  replace (d * StdQuotes.ns_per_day - dt * StdQuotes.ns_per_day)
    with ((d - dt) * StdQuotes.ns_per_day) by ring.
  unfold StdQuotes.ns_per_day.
  rewrite Z.div_mul by lia.
  destruct (Z.abs ((d - dt) * (86400 * 1000000000)) <? 2 ^ 63) eqn:E; [reflexivity |].
  apply Z.ltb_ge in E. rewrite Z.abs_mul in E.
  change (2 ^ 63) with 9223372036854775808 in E. lia.
Qed.

Lemma days_back_max (d : Z) : StdQuotes.days_back (- d) = Z.max 0 d.
Proof. unfold StdQuotes.days_back. destruct (- d >=? 0) eqn:E; lia. Qed.

(** [get_k_data] up to its loop: the day counts, their discounts and the
    page count, for dates at midnight within the span a [Timedelta] holds. *)
Lemma get_k_data_plan (U : Utils) (W : World) (code start_date end_date : string)
  (s : state) (de ds dt market : Z) :
  to_datetime U end_date = Ok (de * StdQuotes.ns_per_day) ->
  to_datetime U start_date = Ok (ds * StdQuotes.ns_per_day) ->
  today W = dt * StdQuotes.ns_per_day ->
  Z.abs (de - dt) <= max_days ->
  Z.abs (ds - dt) <= max_days ->
  get_stock_market U code = Ok market ->
  let daysSinceEnd := Z.max 0 (dt - de) in
  let daysSinceStart := Z.max 0 (dt - ds) in
  let first := daysSinceEnd - (10 * daysSinceEnd) / 28 in
  let last := daysSinceStart - (10 * daysSinceStart) / 35 in
  let pages := ceil_div (last - first) 800 in
  StdQuotes.discount daysSinceEnd 2.8%float = Ok first
  /\ StdQuotes.discount daysSinceStart 3.5%float = Ok last
  /\ StdQuotes.page_count first last = Ok pages
  /\ StdQuotes.get_k_data U W code start_date end_date s
     = (temp <- StdQuotes.k_pages W market code first (range pages) [] ;;
        lift (StdQuotes.k_table temp code start_date end_date)) s.
Proof.
  intros He Hs Ht Hde Hds Hm daysSinceEnd daysSinceStart first last pages.
  assert (HdE : 0 <= daysSinceEnd <= max_days) by (unfold daysSinceEnd, max_days in *; lia).
  assert (HdS : 0 <= daysSinceStart <= max_days) by (unfold daysSinceStart, max_days in *; lia).
  assert (Hfirst : StdQuotes.discount daysSinceEnd 2.8%float = Ok first).
  { now apply discount_2_8. }
  assert (Hlast : StdQuotes.discount daysSinceStart 3.5%float = Ok last).
  { now apply discount_3_5. }
  assert (Hf : 0 <= first <= 68626).
  { unfold first, max_days in *.
    pose proof (Z.div_mod (10 * daysSinceEnd) 28 ltac:(lia)).
    pose proof (Z.mod_pos_bound (10 * daysSinceEnd) 28 ltac:(lia)). lia. }
  assert (Hl : 0 <= last <= 76251).
  { unfold last, max_days in *.
    pose proof (Z.div_mod (10 * daysSinceStart) 35 ltac:(lia)).
    pose proof (Z.mod_pos_bound (10 * daysSinceStart) 35 ltac:(lia)). lia. }
  assert (Hpages : StdQuotes.page_count first last = Ok pages).
  { apply page_count_ceil. lia. }
  repeat match goal with |- _ /\ _ => split end; try assumption.
  unfold StdQuotes.get_k_data.
  rewrite (bind_lift_ok _ _ _ _ He), Ht.
  rewrite (bind_lift_ok _ _ _ _ (days_between_whole de dt Hde)).
  rewrite (bind_lift_ok _ _ _ _ Hs).
  rewrite (bind_lift_ok _ _ _ _ (days_between_whole ds dt Hds)).
  replace (de - dt) with (- (dt - de)) by ring.
  replace (ds - dt) with (- (dt - ds)) by ring.
  rewrite !days_back_max. fold daysSinceEnd daysSinceStart.
  rewrite (bind_lift_ok _ _ _ _ Hfirst), (bind_lift_ok _ _ _ _ Hlast).
  rewrite (bind_lift_ok _ _ _ _ Hm), (bind_lift_ok _ _ _ _ Hpages).
  reflexivity.
Qed.

(** Pages are concatenated in the order they are fetched. *)
Lemma concat_in_order (temp : list DataFrame) (df : DataFrame) :
  Pandas.concat (map Some temp) false = Ok df ->
  rows df = flat_map rows temp /\ Pandas.index df = flat_map Pandas.index temp.
Proof.
  unfold Pandas.concat. destruct temp as [| f temp]; [discriminate |].
  assert (E : forall l : list DataFrame, somes (map Some l) = l).
  { induction l as [| x l IH]; [reflexivity | cbn; now rewrite IH]. }
  cbn [map]. rewrite <- (map_cons Some), E.
  intros H. inversion H. split; reflexivity.
Qed.

Lemma sample_world_answers :
  forall t r, exists recs, records_of Samples.world t r = Ok recs.
Proof. intros t r. destruct r; eexists; reflexivity. Qed.

(** ** [get_k_data] without pages *)

(** When the page count is zero or negative nothing is fetched, and
    [pd.concat] refuses the empty list of frames. *)
Lemma get_k_data_no_pages (U : Utils) (W : World) (code start_date end_date : string)
  (s : state) (de ds dt market : Z) :
  to_datetime U end_date = Ok (de * StdQuotes.ns_per_day) ->
  to_datetime U start_date = Ok (ds * StdQuotes.ns_per_day) ->
  today W = dt * StdQuotes.ns_per_day ->
  Z.abs (de - dt) <= max_days ->
  Z.abs (ds - dt) <= max_days ->
  get_stock_market U code = Ok market ->
  let daysSinceEnd := Z.max 0 (dt - de) in
  let daysSinceStart := Z.max 0 (dt - ds) in
  let first := daysSinceEnd - (10 * daysSinceEnd) / 28 in
  let last := daysSinceStart - (10 * daysSinceStart) / 35 in
  ceil_div (last - first) 800 <= 0 ->
  StdQuotes.get_k_data U W code start_date end_date s
  = (Raise (ValueError "No objects to concatenate"), s).
Proof.
  intros He Hs Ht Hde Hds Hm daysSinceEnd daysSinceStart first last Hpages.
  destruct (get_k_data_plan U W code start_date end_date s de ds dt market
              He Hs Ht Hde Hds Hm) as (_ & _ & _ & Hrun).
  fold daysSinceEnd daysSinceStart first last in Hrun.
  rewrite Hrun, (range_nonpos _ Hpages). reflexivity.
Qed.

(** C2 fails on the code: for a start date after the end date (here, on
    2023-01-12, [first = 11 - 3 = 8] and [last = 2 - 0 = 2]) the page count is
    zero, nothing is fetched, and [get_k_data] (and with it [k]) raises
    [ValueError] instead of returning an empty table. *)
Theorem get_k_data_inverted_range_raises :
  StdQuotes.page_count 8 2 = Ok 0
  /\ StdQuotes.get_k_data Samples.utils Samples.world "000001"
       "2023-01-10" "2023-01-01" Samples.alive
     = (Raise (ValueError "No objects to concatenate"), Samples.alive)
  /\ StdQuotes.k Samples.utils Samples.world "000001"
       "2023-01-10" "2023-01-01" Samples.alive
     = (Raise (ValueError "No objects to concatenate"), Samples.alive).
Proof. repeat split; vm_compute; reflexivity. Qed.

(** ** [stocks] and [stock_all] *)

Lemma concat_pair (a b : DataFrame) :
  exists df, Pandas.concat [Some a; Some b] true = Ok df
             /\ rows df = rows a ++ rows b.
Proof.
  eexists. split; [reflexivity |]. cbn. now rewrite app_nil_r.
Qed.

Lemma concat_first (a : DataFrame) :
  exists df, Pandas.concat [None; Some a] true = Ok df /\ rows df = rows a.
Proof.
  eexists. split; [reflexivity |]. cbn. now rewrite app_nil_r.
Qed.

Section Listing.
Variable W : World.
Variable cnt : Z -> Z.

(** The server reports [cnt m] securities in market [m] and lists them in
    pages of 1000, the last page holding what is left. *)
Hypothesis counts_reported :
  forall t m, In m [0; 1] -> scalar_of W t (get_security_count m) = Ok (Some (cnt m)).
Hypothesis pages_full :
  forall t m k, In m [0; 1] -> 0 <= 1000 * k < cnt m ->
    exists recs, records_of W t (get_security_list m (1000 * k)) = Ok (Some recs)
                 /\ Z.of_nat (List.length recs) = Z.min 1000 (cnt m - 1000 * k).

Lemma stocks_pages_after_first (m : Z) (Hm : In m [0; 1]) (n : nat) :
  forall k a s,
    0 < k ->
    Z.of_nat (nrows a) = Z.min (1000 * k) (cnt m) ->
    cnt m <= 1000 * k + 1000 * Z.of_nat n ->
    exists df s',
      StdQuotes.stocks_pages W m (range_from n (1000 * k) (cnt m) 1000) (Some a) s
      = (Ok (Some df), s')
      /\ Z.of_nat (nrows df) = cnt m.
Proof.
  induction n as [| n IH]; intros k a s Hk Ha Hn.
  - exists a, s. split; [reflexivity | lia].
  - cbn [range_from]. destruct (1000 * k <? cnt m) eqn:E.
    + apply Z.ltb_lt in E.
      destruct (pages_full (trace s) m k Hm ltac:(lia)) as (recs & Hrecs & Hlen).
      cbn [StdQuotes.stocks_pages]. unfold bind at 1, send at 1. rewrite Hrecs.
      replace (1000 * k >? 1) with true by (symmetry; apply Z.gtb_lt; lia).
      destruct (concat_pair a (to_data (Some recs))) as (df & Hdf & Hrows).
      unfold bind at 1, lift at 1. rewrite Hdf.
      replace (1000 * k + 1000) with (1000 * (k + 1)) by ring.
      apply IH; [lia | | lia].
      unfold nrows in *. rewrite Hrows, length_app. cbn [to_data of_records rows]. lia.
    + apply Z.ltb_ge in E. exists a, s. split; [reflexivity | lia].
Qed.

(** [stocks(m)] returns [cnt m] rows. *)
Lemma stocks_row_count (m : Z) (s : state) :
  In m [0; 1] -> 0 < cnt m ->
  exists df s', StdQuotes.stocks W m s = (Ok (Some df), s')
                /\ Z.of_nat (nrows df) = cnt m.
Proof.
  intros Hm Hpos. unfold StdQuotes.stocks, StdQuotes.stock_count.
  assert (E1 : existsb (Z.eqb m) [0; 1] = true).
  { apply existsb_exists. exists m. split; [exact Hm | apply Z.eqb_refl]. }
  assert (E2 : existsb (Z.eqb m) [0; 1; 2] = true).
  { apply existsb_exists. exists m. split; [| apply Z.eqb_refl].
    destruct Hm as [<- | [<- | []]]; cbn; auto. }
  rewrite E1, E2.
  unfold bind at 1. unfold bind at 1, ask at 1.
  rewrite (counts_reported (trace s) m Hm). cbn [ret].
  replace (cnt m >? 0) with true by (symmetry; apply Z.gtb_lt; lia).
  unfold range_step, range_len.
  assert (Hlen : 1000 * ((cnt m + 1000 - 1) / 1000) >= cnt m).
  { pose proof (Z.mul_div_le (cnt m + 1000 - 1) 1000 ltac:(lia)).
    pose proof (Z.mod_pos_bound (cnt m + 1000 - 1) 1000 ltac:(lia)).
    pose proof (Z.div_mod (cnt m + 1000 - 1) 1000 ltac:(lia)). lia. }
  destruct (Z.to_nat ((cnt m + 1000 - 1) / 1000)) as [| n] eqn:En; [lia |].
  cbn [range_from]. replace (0 <? cnt m) with true by (symmetry; apply Z.ltb_lt; lia).
  set (s0 := log (Sent (get_security_count m)) s).
  destruct (pages_full (trace s0) m 0 Hm ltac:(lia)) as (recs & Hrecs & Hrl).
  change (1000 * 0) with 0 in Hrecs, Hrl.
  cbn [StdQuotes.stocks_pages]. unfold bind at 1, send at 1. rewrite Hrecs.
  change (0 >? 1) with false. unfold bind at 1, ret at 1.
  change (0 + 1000) with (1000 * 1).
  apply stocks_pages_after_first; [exact Hm | lia | | lia].
  unfold nrows. cbn [to_data of_records rows]. lia.
Qed.

(** C3 (amended): [stock_all] returns the rows of [stocks(SZ)] (market 0)
    followed by the rows of [stocks(SH)] (market 1), the two sub-calls made in
    that order and their row order kept; when both markets report a positive
    count and every page of the listing is full, the number of rows is
    [stock_count(SZ) + stock_count(SH)]. *)
Theorem stock_all_rows (s : state) :
  0 < cnt MARKET_SZ -> 0 < cnt MARKET_SH ->
  exists sz sh all s1 s2,
    StdQuotes.stocks W MARKET_SZ s = (Ok (Some sz), s1)
    /\ StdQuotes.stocks W MARKET_SH s1 = (Ok (Some sh), s2)
    /\ StdQuotes.stock_all W s = (Ok (Some all), s2)
    /\ rows all = rows sz ++ rows sh
    /\ result (StdQuotes.stock_count W MARKET_SZ) s = Ok (Some (cnt MARKET_SZ))
    /\ result (StdQuotes.stock_count W MARKET_SH) s = Ok (Some (cnt MARKET_SH))
    /\ Z.of_nat (nrows all) = cnt MARKET_SZ + cnt MARKET_SH.
Proof.
  intros Hsz Hsh.
  destruct (stocks_row_count MARKET_SZ s) as (sz & s1 & Hrun1 & Hn1);
    [cbn; auto | exact Hsz |].
  destruct (stocks_row_count MARKET_SH s1) as (sh & s2 & Hrun2 & Hn2);
    [cbn; auto | exact Hsh |].
  destruct (concat_first sz) as (acc & Hacc & Hacc_rows).
  destruct (concat_pair acc sh) as (all & Hall & Hall_rows).
  exists sz, sh, all, s1, s2.
  repeat match goal with |- _ /\ _ => split end; try assumption.
  - unfold StdQuotes.stock_all. cbn [StdQuotes.stock_all_markets].
    change 0 with MARKET_SZ at 1. change 1 with MARKET_SH at 1.
    unfold bind at 1. rewrite Hrun1.
    unfold bind at 1, lift at 1. rewrite Hacc.
    unfold bind at 1. rewrite Hrun2.
    unfold bind at 1, lift at 1. rewrite Hall. reflexivity.
  - now rewrite Hall_rows, Hacc_rows.
  - unfold result, StdQuotes.stock_count. cbn [existsb MARKET_SZ Z.eqb orb].
    unfold bind, ask. now rewrite counts_reported by (cbn; auto).
  - unfold result, StdQuotes.stock_count. cbn [existsb MARKET_SH Z.eqb Pos.eqb orb].
    unfold bind, ask. now rewrite counts_reported by (cbn; auto).
  - unfold nrows in *. rewrite Hall_rows, Hacc_rows, length_app. lia.
Qed.

End Listing.

(** C3, as stated, fails on the order: the rows of Shenzhen (market 0) come
    first, those of Shanghai (market 1) second. *)
Lemma stock_all_lists_SZ_first :
  exists sz sh all,
    result (StdQuotes.stocks Samples.world MARKET_SZ) Samples.alive = Ok (Some sz)
    /\ result (StdQuotes.stocks Samples.world MARKET_SH) Samples.alive = Ok (Some sh)
    /\ result (StdQuotes.stock_all Samples.world) Samples.alive = Ok (Some all)
    /\ rows all = rows sz ++ rows sh
    /\ rows all <> rows sh ++ rows sz.
Proof.
  do 3 eexists. repeat split; try reflexivity. discriminate.
Qed.

Lemma stock_all_rows_witness :
  exists all s',
    StdQuotes.stock_all Samples.world Samples.alive = (Ok (Some all), s')
    /\ Z.of_nat (nrows all) = 2 + 1.
Proof.
  destruct (stock_all_rows Samples.world (fun m => if m =? 0 then 2 else 1))
    with (s := Samples.alive)
    as (sz & sh & all & s1 & s2 & _ & _ & Hall & _ & _ & _ & Hn).
  - intros t m Hm. reflexivity.
  - intros t m k Hm Hk. cbn [Samples.world records_of].
    destruct Hm as [<- | [<- | []]]; cbn [Z.eqb] in Hk |- *;
      (assert (k = 0) as -> by lia);
      eexists; (split; [reflexivity | reflexivity]).
  - reflexivity.
  - reflexivity.
  - exists all, s2. split; [exact Hall | exact Hn].
Defined.

(** Without a Shenzhen listing there is nothing to concatenate at the first
    round of the loop. *)
Lemma stock_all_without_SZ (W : World) (s s1 : state) :
  StdQuotes.stocks W MARKET_SZ s = (Ok None, s1) ->
  StdQuotes.stock_all W s = (Raise (ValueError "All objects passed were None"), s1).
Proof.
  intros H. unfold StdQuotes.stock_all. cbn [StdQuotes.stock_all_markets].
  change 0 with MARKET_SZ at 1. unfold bind at 1. rewrite H. reflexivity.
Qed.

(** ** The table of [get_k_data] *)

Lemma set_cells_map (c : string) (g : record -> pyval) (rs : list record) :
  set_cells c (map g rs) rs = map (fun r => set_cell c (g r) r) rs.
Proof. induction rs as [| r rs IH]; [reflexivity | cbn; now rewrite IH]. Qed.

Lemma lookup_set_cell_same (c : string) (v : pyval) (r : record) :
  lookup c (set_cell c v r) = Some v.
Proof.
  induction r as [| [k w] r IH]; cbn.
  - now rewrite String.eqb_refl.
  - destruct (String.eqb k c) eqn:E; cbn; rewrite E; [reflexivity | exact IH].
Qed.

Lemma lookup_set_cell_other (c c' : string) (v : pyval) (r : record) :
  c <> c' -> lookup c (set_cell c' v r) = lookup c r.
Proof.
  intros Hne. induction r as [| [k w] r IH]; cbn.
  - destruct (String.eqb c' c) eqn:E; [| reflexivity].
    apply String.eqb_eq in E. congruence.
  - destruct (String.eqb k c') eqn:E; cbn.
    + apply String.eqb_eq in E. subst k.
      destruct (String.eqb c' c) eqn:E'; [| reflexivity].
      apply String.eqb_eq in E'. congruence.
    + now rewrite IH.
Qed.

Lemma lookup_remove_keys (labels : list string) (c : string) (r : record) :
  lookup c (remove_keys labels r)
  = if has_column c labels then None else lookup c r.
Proof.
  unfold remove_keys. induction r as [| [k w] r IH]; cbn.
  - now destruct (has_column c labels).
  - destruct (String.eqb k c) eqn:E.
    + apply String.eqb_eq in E. subst k.
      destruct (has_column c labels) eqn:H; cbn; [exact IH |].
      now rewrite String.eqb_refl.
    + destruct (has_column k labels); cbn; [exact IH |]. now rewrite E.
Qed.

(** The date cell of a row made of a bar is the date of the bar. *)
Lemma row_of_date (code : string) (bar : record) :
  cell (row_of code bar) "date" = VStr (date_of bar).
Proof.
  unfold cell, row_of. rewrite lookup_remove_keys.
  change (has_column "date" dropped) with false. cbv iota.
  rewrite lookup_set_cell_other by discriminate.
  now rewrite lookup_set_cell_same.
Qed.

Lemma row_of_dropped (code : string) (bar : record) (c : string) :
  In c dropped -> lookup c (row_of code bar) = None.
Proof.
  intros H. unfold row_of. rewrite lookup_remove_keys.
  replace (has_column c dropped) with true; [reflexivity |].
  symmetry. apply existsb_exists. exists c. split; [exact H | apply String.eqb_refl].
Qed.

Lemma compare_cells_map {A} (test : string -> bool) (f : A -> string) (l : list A) :
  compare_cells test (map (fun p => VStr (f p)) l) = Ok (map (fun p => test (f p)) l).
Proof. induction l as [| p l IH]; cbn; [reflexivity | now rewrite IH]. Qed.

Lemma select_map {A B} (m : A -> bool) (g : A -> B) (l : list A) :
  select (map m l) (map g l) = map g (filter m l).
Proof.
  induction l as [| a l IH]; cbn; [reflexivity |].
  destruct (m a); cbn; now rewrite IH.
Qed.

Lemma combine_maps {A B C} (f : A -> B) (g : A -> C) (l : list A) :
  combine (map f l) (map g l) = map (fun a => (f a, g a)) l.
Proof. induction l as [| a l IH]; cbn; [reflexivity | now rewrite IH]. Qed.

Lemma labels_str_map {A} (f : A -> string) (l : list A) :
  labels_str (map (fun p => VStr (f p)) l) = Some (map f l).
Proof. induction l as [| p l IH]; cbn; [reflexivity | now rewrite IH]. Qed.

(** *** Sorting by label *)

Lemma str_lt_le (a b : string) : str_lt a b = true -> str_le a b = true.
Proof.
  unfold str_lt, str_le, String.ltb, String.leb.
  destruct (String.compare a b); congruence.
Qed.

Lemma str_not_lt_le (a b : string) : str_lt a b = false -> str_le b a = true.
Proof.
  unfold str_lt, str_le, String.ltb, String.leb.
  rewrite (String.compare_antisym b a).
  destruct (String.compare a b); cbn; congruence.
Qed.

Lemma insert_row_perm (k : string) (r : record) (l : list (string * record)) :
  Permutation (insert_row k r l) ((k, r) :: l).
Proof.
  induction l as [| [k' r'] l IH]; cbn; [reflexivity |].
  destruct (str_lt k' k); [| reflexivity].
  rewrite IH. apply perm_swap.
Qed.

Lemma sort_rows_perm (l : list (string * record)) : Permutation (sort_rows l) l.
Proof.
  induction l as [| [k r] l IH]; cbn; [reflexivity |].
  rewrite insert_row_perm. now constructor.
Qed.

Lemma insert_row_sorted (k : string) (r : record) (l : list (string * record)) :
  Sorted by_label l -> Sorted by_label (insert_row k r l).
Proof.
  induction l as [| [k' r'] l IH]; intros Hs; cbn.
  - repeat constructor.
  - destruct (str_lt k' k) eqn:E.
    + inversion Hs as [| ? ? Hs' Hhd]; subst. constructor; [now apply IH |].
      destruct l as [| [k'' r''] l]; cbn.
      * constructor. now apply str_lt_le.
      * destruct (str_lt k'' k); constructor.
        -- now inversion Hhd.
        -- now apply str_lt_le.
    + constructor; [exact Hs |]. constructor. now apply str_not_lt_le.
Qed.

Lemma sort_rows_sorted (l : list (string * record)) : Sorted by_label (sort_rows l).
Proof.
  induction l as [| [k r] l IH]; cbn; [constructor | now apply insert_row_sorted].
Qed.

(** *** The post-processing, stage by stage *)

Lemma staged_rows (code : string) (bars : list record) :
  let dated := set_cells "date"
                 (map (fun x => VStr (slice_to 10 (str x)))
                      (map (fun r => cell r "datetime") bars)) bars in
  map (remove_keys dropped)
      (set_cells "code" (map (fun _ => VStr code) dated) dated)
  = map (row_of code) bars.
Proof.
  cbv zeta. rewrite map_map.
  rewrite (set_cells_map "date" (fun r => VStr (slice_to 10 (str (cell r "datetime"))))).
  rewrite (set_cells_map "code" (fun _ => VStr code)).
  rewrite !map_map. reflexivity.
Qed.

Lemma staged_index (code : string) (bars : list record) :
  let dated := set_cells "date"
                 (map (fun x => VStr (slice_to 10 (str x)))
                      (map (fun r => cell r "datetime") bars)) bars in
  map (fun r => cell r "date")
      (set_cells "code" (map (fun _ => VStr code) dated) dated)
  = map (fun bar => VStr (date_of bar)) bars.
Proof.
  cbv zeta. rewrite map_map.
  rewrite (set_cells_map "date" (fun r => VStr (slice_to 10 (str (cell r "datetime"))))).
  rewrite (set_cells_map "code" (fun _ => VStr code)).
  rewrite !map_map. apply map_ext. intros bar. unfold cell.
  rewrite lookup_set_cell_other by discriminate.
  now rewrite lookup_set_cell_same.
Qed.

Lemma filter_map_swap {A B} (f : A -> B) (p : B -> bool) (l : list A) :
  filter p (map f l) = map f (filter (fun a => p (f a)) l).
Proof.
  induction l as [| a l IH]; cbn; [reflexivity |].
  destruct (p (f a)); cbn; now rewrite IH.
Qed.

Lemma not_dropped_column (cols : list string) (c : string) :
  In c dropped ->
  ~ In c (filter (fun c => negb (has_column c dropped)) cols).
Proof.
  intros Hc Hin. apply filter_In in Hin. destruct Hin as [_ Hb].
  assert (E : has_column c dropped = true).
  { apply existsb_exists. exists c. split; [exact Hc | apply String.eqb_refl]. }
  rewrite E in Hb. discriminate.
Qed.

(** What [k_table] returns, when it returns: the kept rows, sorted by their
    date, under the columns that are left. *)
Lemma k_table_spec (temp : list DataFrame) (code start_date end_date : string)
  (df : DataFrame) :
  StdQuotes.k_table temp code start_date end_date = Ok df ->
  let sorted := sort_rows (kept code start_date end_date (flat_map rows temp)) in
  rows df = map snd sorted
  /\ Pandas.index df = map (fun kr => VStr (fst kr)) sorted
  /\ (forall c, In c dropped -> ~ In c (columns df)).
Proof.
  unfold StdQuotes.k_table. intros H.
  destruct (Pandas.concat (map Some temp) false) as [data0 |] eqn:E0; [| discriminate].
  apply concat_in_order in E0. destruct E0 as [Hrows0 _].
  unfold getitem at 1 in H.
  destruct (has_column "datetime" (columns data0)); [| discriminate].
  cbv zeta in H. unfold set_index in H.
  match type of H with
  | match (if ?b then _ else _) with _ => _ end = _ => destruct b; [| discriminate]
  end.
  unfold drop in H. cbn [columns] in H.
  match type of H with
  | match (match ?l with [] => _ | _ :: _ => _ end) with _ => _ end = _ =>
      destruct l; [| discriminate]
  end.
  unfold getitem in H. cbn [columns] in H.
  match type of H with
  | match (if ?b then _ else _) with _ => _ end = _ => destruct b; [| discriminate]
  end.
  cbn [rows Pandas.index columns assign assign_scalar] in H.
  rewrite Hrows0 in H. set (bars := flat_map rows temp) in *.
  pose proof (staged_rows code bars) as HR. pose proof (staged_index code bars) as HI.
  cbv zeta in HR, HI. unfold dropped in HR at 1.
  rewrite HR, HI in H. clear HR HI.
  rewrite map_map in H.
  rewrite (map_ext _ _ (row_of_date code)) in H.
  rewrite !compare_cells_map in H.
  rewrite combine_maps, map_map in H. cbn [fst snd] in H.
  unfold loc, sort_index in H. cbn [rows Pandas.index columns] in H.
  rewrite !select_map, labels_str_map, combine_maps in H.
  inversion H as [Hdf]. clear H Hdf. cbn [rows Pandas.index columns].
  unfold kept. rewrite filter_map_swap. cbn [fst]. unfold in_range.
  repeat split.
  intros c Hc. now apply not_dropped_column.
Qed.

(** *** Order on strings *)

Lemma compare_not_gt_trans (a : string) :
  forall b c, String.compare a b <> Gt -> String.compare b c <> Gt ->
              String.compare a c <> Gt.
Proof.
  induction a as [| x a IH]; intros b c Hab Hbc.
  - destruct c; discriminate.
  - destruct b as [| y b]; [exfalso; now apply Hab |].
    destruct c as [| z c]; [exfalso; now apply Hbc |].
    cbn in *. unfold Ascii.compare in *.
    destruct (N.compare_spec (N_of_ascii x) (N_of_ascii y));
      destruct (N.compare_spec (N_of_ascii y) (N_of_ascii z));
      destruct (N.compare_spec (N_of_ascii x) (N_of_ascii z));
      try congruence; try lia; eauto.
Qed.

Lemma str_le_trans (a b c : string) :
  str_le a b = true -> str_le b c = true -> str_le a c = true.
Proof.
  unfold str_le, String.leb. intros Hab Hbc.
  pose proof (compare_not_gt_trans a b c) as H.
  destruct (String.compare a b); destruct (String.compare b c);
    destruct (String.compare a c); try reflexivity; try discriminate;
    exfalso; apply H; first [discriminate | reflexivity].
Qed.

Lemma sorted_labels (l : list (string * record)) :
  Sorted by_label l -> StronglySorted ascending (map fst l).
Proof.
  intros H. apply Sorted_StronglySorted.
  - intros a b c. apply str_le_trans.
  - induction H as [| p l Hs IH Hhd]; cbn; constructor; [exact IH |].
    destruct Hhd; cbn; constructor. assumption.
Qed.

(** *** The table *)

Lemma bind_ok {A B} (m : M A) (k : A -> M B) (s : state) (b : B) :
  result (bind m k) s = Ok b ->
  exists a s1, m s = (Ok a, s1) /\ result (k a) s1 = Ok b.
Proof.
  unfold result, bind. destruct (m s) as [[a | e] s1]; cbn; [| discriminate].
  intros H. now exists a, s1.
Qed.

(** C8: when [get_k_data] returns a table, the table is made of bars of the
    fetched pages; every row has a date [d] with [start_date <= d < end_date];
    the rows, like the index, are in ascending order of their dates; the date
    of a row is the first ten characters of the datetime of its bar; and none
    of year, month, day, hour, minute and datetime is a column of the table
    or a field of a row. *)
Theorem get_k_data_table (U : Utils) (W : World) (code start_date end_date : string)
  (s : state) (df : DataFrame) :
  result (StdQuotes.get_k_data U W code start_date end_date) s = Ok df ->
  exists (temp : list DataFrame) (dates : list string),
    (exists market first pages s0 s1,
        StdQuotes.k_pages W market code first (range pages) [] s0 = (Ok temp, s1))
    /\ map (fun r => cell r "date") (rows df) = map VStr dates
    /\ Pandas.index df = map VStr dates
    /\ Forall (fun d => str_le start_date d = true /\ str_lt d end_date = true) dates
    /\ StronglySorted ascending dates
    /\ Forall (fun r => exists bar,
                   In bar (flat_map rows temp)
                   /\ r = row_of code bar
                   /\ cell r "date" = VStr (slice_to 10 (str (cell bar "datetime"))))
              (rows df)
    /\ (forall c, In c dropped ->
                  ~ In c (columns df) /\ Forall (fun r => lookup c r = None) (rows df)).
Proof.
  intros H. unfold StdQuotes.get_k_data in H.
  do 8 (apply bind_ok in H; destruct H as (? & ? & _ & H)).
  apply bind_ok in H. destruct H as (temp & s1 & Hpages & H).
  unfold result, lift in H. cbn [fst] in H.
  apply k_table_spec in H. cbv zeta in H. destruct H as (Hrows & Hindex & Hcols).
  set (sorted := sort_rows (kept code start_date end_date (flat_map rows temp))) in *.
  assert (Hin : forall p, In p sorted ->
            in_range start_date end_date (fst p) = true
            /\ exists bar, In bar (flat_map rows temp)
                           /\ p = (date_of bar, row_of code bar)).
  { intros p Hp. apply (Permutation_in _ (sort_rows_perm _)) in Hp.
    unfold kept in Hp. apply filter_In in Hp. destruct Hp as [Hp Hr].
    apply in_map_iff in Hp. destruct Hp as (bar & <- & Hbar).
    split; [exact Hr | now exists bar]. }
  exists temp, (map fst sorted).
  repeat match goal with |- _ /\ _ => split end.
  - eauto 10.
  - rewrite Hrows, !map_map. apply map_ext_in. intros p Hp.
    destruct (Hin p Hp) as (_ & bar & _ & ->). apply row_of_date.
  - rewrite Hindex, map_map. reflexivity.
  - apply Forall_forall. intros d Hd. apply in_map_iff in Hd.
    destruct Hd as (p & <- & Hp). destruct (Hin p Hp) as (Hr & _).
    unfold in_range in Hr. now apply andb_true_iff in Hr.
  - apply sorted_labels, sort_rows_sorted.
  - apply Forall_forall. intros r Hr. rewrite Hrows in Hr. apply in_map_iff in Hr.
    destruct Hr as (p & <- & Hp). destruct (Hin p Hp) as (_ & bar & Hbar & ->).
    exists bar. split; [exact Hbar | split; [reflexivity | apply row_of_date]].
  - intros c Hc. split; [now apply Hcols |].
    apply Forall_forall. intros r Hr. rewrite Hrows in Hr. apply in_map_iff in Hr.
    destruct Hr as (p & <- & Hp). destruct (Hin p Hp) as (_ & bar & _ & ->).
    now apply row_of_dropped.
Qed.

Lemma get_k_data_table_witness :
  let row (d : string) (close : string) : record :=
    [("open", VFloat close); ("close", VFloat close);
     ("date", VStr d); ("code", VStr "000001")] in
  let df := {| columns := ["open"; "close"; "date"; "code"];
               Pandas.index := [VStr "2023-01-04"; VStr "2023-01-06"; VStr "2023-01-09"];
               rows := [row "2023-01-04" "10.1"; row "2023-01-06" "10.5";
                        row "2023-01-09" "10.7"] |} in
  result (StdQuotes.get_k_data Samples.utils Samples.world "000001"
            "2023-01-01" "2023-01-10") Samples.alive = Ok df
  /\ StronglySorted ascending ["2023-01-04"; "2023-01-06"; "2023-01-09"].
Proof.
  intros row df.
  assert (E : result (StdQuotes.get_k_data Samples.utils Samples.world "000001"
                        "2023-01-01" "2023-01-10") Samples.alive = Ok df).
  { vm_compute. reflexivity. }
  split; [exact E |].
  destruct (get_k_data_table Samples.utils Samples.world "000001"
              "2023-01-01" "2023-01-10" Samples.alive df E)
    as (temp & dates & _ & _ & Hindex & _ & Hsorted & _).
  cbn [df Pandas.index] in Hindex.
  destruct dates as [| d1 [| d2 [| d3 [| d4 dates]]]]; try discriminate Hindex.
  cbn [map] in Hindex. inversion Hindex; subst. exact Hsorted.
Defined.

(** ** The pages of [get_k_data] *)

Lemma has_column_add (c : string) (new cols : list string) :
  has_column c (add_columns cols new) = has_column c cols || has_column c new.
Proof.
  revert cols. induction new as [| d new IH]; intros cols; cbn [add_columns].
  - cbn. now rewrite orb_false_r.
  - rewrite IH.
    change (has_column c (d :: new)) with (String.eqb c d || has_column c new).
    destruct (has_column d cols) eqn:E.
    + destruct (String.eqb c d) eqn:Ecd; [| reflexivity].
      apply String.eqb_eq in Ecd. subst d. rewrite E. reflexivity.
    + unfold has_column. rewrite existsb_app. cbn [existsb].
      rewrite orb_false_r, orb_assoc. reflexivity.
Qed.

Lemma has_column_filter (p : string -> bool) (c : string) (cols : list string) :
  has_column c (filter p cols) = has_column c cols && p c.
Proof.
  unfold has_column. induction cols as [| x cols IH]; [reflexivity |].
  cbn [filter existsb]. destruct (String.eqb c x) eqn:E.
  - apply String.eqb_eq in E. subst x. destruct (p c) eqn:Ep.
    + cbn [existsb]. now rewrite String.eqb_refl.
    + rewrite IH, ?Ep, !andb_false_r. reflexivity.
  - destruct (p x); cbn [existsb]; rewrite ?E; exact IH.
Qed.

Lemma somes_map_Some {A} (l : list A) : somes (map Some l) = l.
Proof. induction l as [| x l IH]; [reflexivity | cbn; now rewrite IH]. Qed.

(** Pages are concatenated in the order given. *)
Lemma concat_pages (f : DataFrame) (temp : list DataFrame) :
  Pandas.concat (map Some (f :: temp)) false
  = Ok {| columns := page_columns (f :: temp);
          Pandas.index := flat_map Pandas.index (f :: temp);
          rows := flat_map rows (f :: temp) |}.
Proof.
  unfold Pandas.concat. cbn [map]. rewrite <- (map_cons Some), somes_map_Some.
  reflexivity.
Qed.

(** [k_table], written out. *)
Lemma k_table_equation (temp : list DataFrame) (code start_date end_date : string) :
  StdQuotes.k_table temp code start_date end_date
  = k_result code start_date end_date temp.
Proof.
  unfold StdQuotes.k_table, k_result.
  destruct temp as [| f temp]; [reflexivity |].
  rewrite concat_pages. set (pages := f :: temp).
  unfold getitem at 1. cbn [columns].
  destruct (has_column "datetime" (page_columns pages)); [| reflexivity].
  cbv zeta. unfold set_index. cbn [columns assign assign_scalar].
  set (cols := add_columns (add_columns (page_columns pages) ["date"]) ["code"]).
  assert (Hdate : has_column "date" cols = true).
  { unfold cols. rewrite !has_column_add. cbn. now rewrite orb_true_r. }
  rewrite Hdate. unfold drop. cbn [columns].
  change ["year"; "month"; "day"; "hour"; "minute"; "datetime"] with dropped.
  destruct (filter (fun l => negb (has_column l cols)) dropped); [| reflexivity].
  unfold getitem. cbn [columns].
  rewrite has_column_filter, Hdate.
  change (negb (has_column "date" dropped)) with true. cbn [andb].
  cbn [rows Pandas.index columns assign assign_scalar].
  set (bars := flat_map rows pages).
  pose proof (staged_rows code bars) as HR. pose proof (staged_index code bars) as HI.
  cbv zeta in HR, HI.
  rewrite HR, HI. clear HR HI.
  rewrite map_map.
  rewrite (map_ext _ _ (row_of_date code)).
  rewrite !compare_cells_map.
  rewrite combine_maps, map_map. cbn [fst snd].
  unfold loc, sort_index. cbn [rows Pandas.index columns].
  rewrite !select_map, labels_str_map, combine_maps.
  unfold kept. rewrite filter_map_swap. cbn [fst]. unfold in_range.
  reflexivity.
Qed.

(** The rows of the table made of pages. *)
Lemma k_result_rows (code start_date end_date : string) (pages : list DataFrame)
  (df : DataFrame) :
  k_result code start_date end_date pages = Ok df ->
  rows df = map snd (sort_rows (kept code start_date end_date (flat_map rows pages))).
Proof.
  unfold k_result. destruct pages as [| f pages]; [discriminate |].
  cbv zeta. destruct (has_column "datetime" _); [| discriminate].
  destruct (filter _ dropped); [| discriminate].
  intros H. injection H as <-. reflexivity.
Qed.

(** The bars of the pages, page after page, are the records of the answers. *)
Lemma rows_of_pages (answers : list (option (list record))) :
  flat_map rows (map StdQuotes.to_df answers) = records_in answers.
Proof.
  induction answers as [| a answers IH]; [reflexivity |].
  cbn [map flat_map records_in]. fold (records_in answers). rewrite IH.
  destruct a; reflexivity.
Qed.

(** C7: for dates at midnight, [get_k_data] turns the calendar days since
    the end and since the start date, each at least zero, into
    [first = d - int(d / 2.8)] and [last = d - int(d / 3.5)], and sends
    exactly [ceil((last - first) / 800)] requests (none when that is not
    positive), request [i] asking for 800 daily bars (category 9) from offset
    [first + i * 800].  The frames of the answers are concatenated in the
    order of the requests: the outcome is the table made of the bars of the
    answers, answer after answer, so that a table returned holds the rows of
    the bars in range, sorted by date, rows of one date in the order their
    bars were fetched. *)
Theorem get_k_data_pages (U : Utils) (W : World) (code start_date end_date : string)
  (s : state) (de ds dt market : Z) :
  to_datetime U end_date = Ok (de * StdQuotes.ns_per_day) ->
  to_datetime U start_date = Ok (ds * StdQuotes.ns_per_day) ->
  today W = dt * StdQuotes.ns_per_day ->
  Z.abs (de - dt) <= max_days ->
  Z.abs (ds - dt) <= max_days ->
  get_stock_market U code = Ok market ->
  (forall t r, exists recs, records_of W t r = Ok recs) ->
  let daysSinceEnd := Z.max 0 (dt - de) in
  let daysSinceStart := Z.max 0 (dt - ds) in
  let first := daysSinceEnd - (10 * daysSinceEnd) / 28 in
  let last := daysSinceStart - (10 * daysSinceStart) / 35 in
  let pages := ceil_div (last - first) 800 in
  let reqs := k_requests market code first (range pages) in
  let answers := fetched W reqs (trace s) in
  let temp := map StdQuotes.to_df answers in
  StdQuotes.discount daysSinceEnd 2.8%float = Ok first
  /\ StdQuotes.discount daysSinceStart 3.5%float = Ok last
  /\ StdQuotes.page_count first last = Ok pages
  /\ range pages = map Z.of_nat (seq 0 (Z.to_nat pages))
  /\ trace (final (StdQuotes.get_k_data U W code start_date end_date) s)
     = trace s ++ map Sent reqs
  /\ List.length temp = Z.to_nat pages
  /\ flat_map rows temp = records_in answers
  /\ result (StdQuotes.get_k_data U W code start_date end_date) s
     = k_result code start_date end_date temp
  /\ (forall df,
         result (StdQuotes.get_k_data U W code start_date end_date) s = Ok df ->
         rows df = map snd (sort_rows (kept code start_date end_date
                                         (records_in answers)))).
Proof.
  intros He Hs Ht Hde Hds Hm Hserver daysSinceEnd daysSinceStart first last pages
    reqs answers temp.
  destruct (get_k_data_plan U W code start_date end_date s de ds dt market
              He Hs Ht Hde Hds Hm) as (Hfirst & Hlast & Hpages & Hrun).
  fold daysSinceEnd daysSinceStart first last pages in Hfirst, Hlast, Hpages, Hrun.
  assert (Hlen : forall rs t, List.length (fetched W rs t) = List.length rs).
  { induction rs as [| r rs IH]; intros t; [reflexivity |].
    cbn [fetched]. destruct (Hserver t r) as [recs ->]. cbn. now rewrite IH. }
  assert (Hresult : result (StdQuotes.get_k_data U W code start_date end_date) s
                    = k_result code start_date end_date temp).
  { unfold result. rewrite Hrun. unfold bind at 1.
    rewrite (k_pages_run W market code first _ Hserver).
    unfold lift. cbn [fst app]. apply k_table_equation. }
  repeat match goal with |- _ /\ _ => split end; try assumption.
  - apply range_seq.
  - unfold final. rewrite Hrun. unfold bind at 1.
    rewrite (k_pages_run W market code first _ Hserver). reflexivity.
  - unfold temp, answers, reqs, k_requests.
    rewrite length_map, Hlen, length_map, range_seq, length_map, length_seq.
    reflexivity.
  - apply rows_of_pages.
  - intros df Hdf. rewrite Hresult in Hdf.
    rewrite (k_result_rows _ _ _ _ _ Hdf). unfold temp. now rewrite rows_of_pages.
Qed.

Lemma paged_world_answers :
  forall t r, exists recs, records_of MoreSamples.paged_world t r = Ok recs.
Proof. intros t r. destruct r; eexists; reflexivity. Qed.

Lemma get_k_data_pages_witness :
  trace (final (StdQuotes.get_k_data Samples.utils MoreSamples.paged_world "000001"
                  "2015-01-01" "2023-01-10") Samples.alive)
  = [Sent (get_security_bars 9 0 "000001" 2 800);
     Sent (get_security_bars 9 0 "000001" 802 800);
     Sent (get_security_bars 9 0 "000001" 1602 800)]
  /\ exists df,
       result (StdQuotes.get_k_data Samples.utils MoreSamples.paged_world "000001"
                 "2015-01-01" "2023-01-10") Samples.alive = Ok df
       /\ map (fun r => (cell r "date", cell r "close")) (rows df)
          = [(VStr "2023-01-04", VFloat "10.1"); (VStr "2023-01-05", VFloat "10.3");
             (VStr "2023-01-06", VFloat "10.5"); (VStr "2023-01-09", VFloat "10.7")].
Proof.
  pose proof (get_k_data_pages Samples.utils MoreSamples.paged_world "000001"
                "2015-01-01" "2023-01-10" Samples.alive
                (Samples.days_from_civil 2023 1 10) (Samples.days_from_civil 2015 1 1)
                (Samples.days_from_civil 2023 1 12) 0
                eq_refl eq_refl eq_refl) as H.
  specialize (H ltac:(vm_compute; discriminate) ltac:(vm_compute; discriminate)
                eq_refl paged_world_answers).
  cbv zeta in H. destruct H as (_ & _ & _ & _ & Htrace & _ & _ & Hresult & Hrows).
  split; [exact Htrace |].
  assert (E : exists df,
             result (StdQuotes.get_k_data Samples.utils MoreSamples.paged_world "000001"
                       "2015-01-01" "2023-01-10") Samples.alive = Ok df).
  { rewrite Hresult. eexists. vm_compute. reflexivity. }
  destruct E as [df E]. exists df. split; [exact E |].
  rewrite (Hrows df E). vm_compute. reflexivity.
Defined.

(* ===================================================================== *)
(** * Further properties of the standard facade *)
(* ===================================================================== *)

Lemma in_markets (market : Z) (l : list Z) :
  existsb (Z.eqb market) l = true <-> In market l.
Proof.
  rewrite existsb_exists. split.
  - intros (x & Hx & E). apply Z.eqb_eq in E. now subst.
  - intros H. exists market. split; [exact H | apply Z.eqb_refl].
Qed.

Lemma not_in_markets (market : Z) (l : list Z) :
  ~ In market l -> existsb (Z.eqb market) l = false.
Proof.
  intros H. destruct (existsb (Z.eqb market) l) eqn:E; [| reflexivity].
  apply in_markets in E. contradiction.
Qed.

(** X1: [stock_count] and [stocks] check the market before they use the
    client: [stock_count] rejects every market but 0, 1 and 2, [stocks] every
    market but 0 and 1, and a rejected call sends nothing.  Market 2, which
    [stock_count] passes on to the client, is rejected by [stocks]. *)
Theorem market_checked_before_any_request (W : World) (market : Z) (s : state) :
  (~ In market [0; 1; 2] ->
   exists msg, StdQuotes.stock_count W market s = (Raise (MootdxValidationException msg), s))
  /\ (~ In market [0; 1] ->
      exists msg, StdQuotes.stocks W market s = (Raise (MootdxValidationException msg), s))
  /\ (In market [0; 1; 2] ->
      StdQuotes.stock_count W market s
      = (scalar_of W (trace s) (get_security_count market),
         log (Sent (get_security_count market)) s)).
Proof.
  split; [| split].
  - intros H. unfold StdQuotes.stock_count. rewrite (not_in_markets _ _ H).
    eexists. reflexivity.
  - intros H. unfold StdQuotes.stocks. rewrite (not_in_markets _ _ H).
    eexists. reflexivity.
  - intros H. unfold StdQuotes.stock_count.
    rewrite (proj2 (in_markets _ _) H). unfold bind, ask, ret.
    destruct (scalar_of W (trace s) (get_security_count market)); reflexivity.
Qed.

Lemma market_checked_before_any_request_witness :
  (exists msg, StdQuotes.stock_count Samples.world 99 Samples.alive
               = (Raise (MootdxValidationException msg), Samples.alive))
  /\ (exists msg, StdQuotes.stocks Samples.world 2 Samples.alive
                  = (Raise (MootdxValidationException msg), Samples.alive))
  /\ StdQuotes.stock_count Samples.world 2 Samples.alive
     = (Ok (Some 1), log (Sent (get_security_count 2)) Samples.alive).
Proof.
  destruct (market_checked_before_any_request Samples.world 99 Samples.alive)
    as (H1 & _ & _).
  destruct (market_checked_before_any_request Samples.world 2 Samples.alive)
    as (_ & H2 & H3).
  split; [| split].
  - apply H1. cbn. lia.
  - apply H2. cbn. lia.
  - rewrite H3 by (cbn; lia). reflexivity.
Defined.

(** [range(0, counts, 1000)] is [1000 i] for [i] below [ceil(counts / 1000)]. *)
Lemma range_from_pages (n : nat) :
  forall k c, c <= 1000 * k + 1000 * Z.of_nat n -> 1000 * k + 1000 * Z.of_nat n < c + 1000 ->
    range_from n (1000 * k) c 1000
    = map (fun i => 1000 * i) (map (fun i => k + Z.of_nat i) (seq 0 n)).
Proof.
  induction n as [| n IH]; intros k c Hlo Hhi; [reflexivity |].
  cbn [range_from]. destruct (1000 * k <? c) eqn:E; [| apply Z.ltb_ge in E; lia].
  replace (1000 * k + 1000) with (1000 * (k + 1)) by ring.
  rewrite IH by lia. cbn [seq map]. rewrite Z.add_0_r. f_equal.
  rewrite <- seq_shift, !map_map. apply map_ext. intros i. f_equal. lia.
Qed.

Lemma ceil_div_1000 (c : Z) : ceil_div c 1000 = (c + 1000 - 1) / 1000.
Proof.
  unfold ceil_div.
  pose proof (Z.div_mod (c + 1000 - 1) 1000 ltac:(lia)).
  pose proof (Z.mod_pos_bound (c + 1000 - 1) 1000 ltac:(lia)).
  rewrite <- (Z.div_unique (- c) 1000 (- ((c + 1000 - 1) / 1000))
                (999 - (c + 1000 - 1) mod 1000)); lia.
Qed.

Lemma range_step_pages (c : Z) :
  0 < c -> range_step c 1000 = map (fun i => 1000 * i) (range (ceil_div c 1000)).
Proof.
  intros Hc. unfold range_step, range_len. rewrite <- ceil_div_1000.
  pose proof (Z.div_mod (c + 1000 - 1) 1000 ltac:(lia)) as Hdm.
  pose proof (Z.mod_pos_bound (c + 1000 - 1) 1000 ltac:(lia)) as Hmb.
  rewrite <- ceil_div_1000 in Hdm.
  assert (Hpos : 0 < ceil_div c 1000) by lia.
  change 0 with (1000 * 0) at 1.
  rewrite range_from_pages by lia.
  rewrite range_seq. reflexivity.
Qed.

(** The loop of [stocks] sends one request per page and goes through the
    whole list. *)
Lemma stocks_pages_run (W : World) (m : Z) (pages : list Z) :
  (forall t r, exists recs, records_of W t r = Ok recs) ->
  forall acc s, exists df,
    StdQuotes.stocks_pages W m (map (fun i => 1000 * i) pages) acc s
    = (Ok df, {| trace := trace s ++ map Sent (list_requests m pages);
                 draws := draws s;
                 _closed := _closed s |})
    /\ (pages <> [] -> df <> None).
Proof.
  intros Hserver. induction pages as [| i rest IH]; intros acc s.
  - exists acc. cbn. rewrite app_nil_r. destruct s. split; [reflexivity | congruence].
  - cbn [map StdQuotes.stocks_pages list_requests].
    destruct (Hserver (trace s) (get_security_list m (1000 * i))) as [recs Hrecs].
    unfold bind at 1, send at 1. rewrite Hrecs.
    assert (Hnext : exists df',
      (if 1000 * i >? 1
       then lift (Pandas.concat [acc; Some (to_data recs)] true)
       else ret (to_data recs)) (log (Sent (get_security_list m (1000 * i))) s)
      = (Ok df', log (Sent (get_security_list m (1000 * i))) s)).
    { destruct (1000 * i >? 1); [| eexists; reflexivity].
      destruct acc; eexists; reflexivity. }
    destruct Hnext as [df' Hnext]. unfold bind at 1. rewrite Hnext.
    destruct (IH (Some df') (log (Sent (get_security_list m (1000 * i))) s))
      as (df & Hrun & Hsome).
    exists df. split.
    + rewrite Hrun. cbn [log trace draws _closed map].
      now rewrite <- app_assoc.
    + intros _. destruct rest as [| j rest].
      * cbn in Hrun. inversion Hrun. congruence.
      * apply Hsome. discriminate.
Qed.

(** X2: [stocks(market)] asks for the count and then, when the count is
    positive, for one page per thousand securities, pages 0, 1000, 2000, ...
    in that order, [ceil(count / 1000)] of them; with a count of zero or less
    it asks for nothing more and returns [None]. *)
Theorem stocks_requests (W : World) (market c : Z) (s : state) :
  In market [0; 1] ->
  scalar_of W (trace s) (get_security_count market) = Ok (Some c) ->
  (forall t r, exists recs, records_of W t r = Ok recs) ->
  trace (final (StdQuotes.stocks W market) s)
  = trace s ++ Sent (get_security_count market)
            :: map Sent (list_requests market (range (ceil_div c 1000)))
  /\ (c <= 0 -> result (StdQuotes.stocks W market) s = Ok None)
  /\ (0 < c -> exists df, result (StdQuotes.stocks W market) s = Ok (Some df)).
Proof.
  intros Hm Hc Hserver. unfold final, result, StdQuotes.stocks, StdQuotes.stock_count.
  rewrite (proj2 (in_markets market [0; 1]) Hm).
  assert (H2 : existsb (Z.eqb market) [0; 1; 2] = true).
  { apply in_markets. destruct Hm as [<- | [<- | []]]; cbn; auto. }
  rewrite H2. unfold bind at 1 2 3. unfold bind at 1 2 3, ask. rewrite Hc. cbn [ret].
  destruct (c >? 0) eqn:E.
  - apply Z.gtb_lt in E. rewrite (range_step_pages c E).
    destruct (stocks_pages_run W market (range (ceil_div c 1000)) Hserver None
                (log (Sent (get_security_count market)) s)) as (df & Hrun & Hsome).
    rewrite Hrun. cbn [fst snd trace log]. rewrite <- app_assoc.
    split; [reflexivity | split; [lia |]].
    intros _. destruct df as [df |]; [now exists df |].
    exfalso. apply Hsome; [| reflexivity].
    rewrite range_seq. unfold ceil_div.
    assert (0 < - (- c / 1000)).
    { pose proof (Z.div_mod (- c) 1000 ltac:(lia)).
      pose proof (Z.mod_pos_bound (- c) 1000 ltac:(lia)). lia. }
    destruct (Z.to_nat (- (- c / 1000))) eqn:En; [lia | discriminate].
  - assert (c <= 0) by (destruct (Z.gtb_spec c 0); [discriminate | lia]).
    rewrite (range_nonpos (ceil_div c 1000)).
    + cbn. split; [reflexivity | split; [reflexivity | lia]].
    + unfold ceil_div.
      pose proof (Z.div_mod (- c) 1000 ltac:(lia)).
      pose proof (Z.mod_pos_bound (- c) 1000 ltac:(lia)). lia.
Qed.

Lemma stocks_requests_witness :
  trace (final (StdQuotes.stocks Samples.world 0) Samples.alive)
  = [Sent (get_security_count 0); Sent (get_security_list 0 0)].
Proof.
  apply (stocks_requests Samples.world 0 2 Samples.alive);
    [cbn; auto | reflexivity | exact sample_world_answers].
Defined.

(** X3: when the server reports no security for Shenzhen, [stock_all]
    raises [ValueError] at the first round of its loop, having asked for the
    Shenzhen count only: Shanghai is never asked. *)
Theorem stock_all_needs_shenzhen (W : World) (c : Z) (s : state) :
  scalar_of W (trace s) (get_security_count MARKET_SZ) = Ok (Some c) ->
  c <= 0 ->
  StdQuotes.stock_all W s
  = (Raise (ValueError "All objects passed were None"),
     log (Sent (get_security_count MARKET_SZ)) s).
Proof.
  intros Hc Hle. apply stock_all_without_SZ.
  unfold StdQuotes.stocks, StdQuotes.stock_count. cbn [existsb MARKET_SZ Z.eqb orb].
  unfold bind, ask. rewrite Hc. cbn [ret].
  replace (c >? 0) with false; [reflexivity |].
  symmetry. destruct (Z.gtb_spec c 0); [lia | reflexivity].
Qed.

Lemma stock_all_needs_shenzhen_witness :
  StdQuotes.stock_all MoreSamples.shanghai_only Samples.alive
  = (Raise (ValueError "All objects passed were None"),
     log (Sent (get_security_count 0)) Samples.alive).
Proof.
  apply (stock_all_needs_shenzhen MoreSamples.shanghai_only 0 Samples.alive);
    [reflexivity | lia].
Defined.

(** X4: [quotes] swallows a [ValidationException], whether it comes from the
    market lookup or from the client, and returns the empty table; every other
    exception is raised to the caller.  Nothing is sent when the lookup
    fails. *)
Theorem quotes_validation_silenced (U : Utils) (W : World)
  (symbol : StdQuotes.symbols) (s : state) (e : exc) :
  StdQuotes.no_symbol symbol = false ->
  (get_stock_markets U (symbol_list symbol) = Raise e ->
   StdQuotes.quotes U W symbol s
   = (if is_validation e then Ok (to_data None) else Raise e, s))
  /\ (forall ms,
         get_stock_markets U (symbol_list symbol) = Ok ms ->
         records_of W (trace s) (get_security_quotes ms) = Raise e ->
         StdQuotes.quotes U W symbol s
         = (if is_validation e then Ok (to_data None) else Raise e,
            log (Sent (get_security_quotes ms)) s)).
Proof.
  intros Hs. unfold StdQuotes.quotes. rewrite Hs.
  assert (El : match symbol with
               | StdQuotes.NoSymbol => []
               | StdQuotes.OneSymbol s0 => [s0]
               | StdQuotes.ManySymbols l => l
               end = symbol_list symbol) by reflexivity.
  rewrite El. split.
  - intros H. unfold bind, attempt, lift. rewrite H. cbn.
    destruct e; reflexivity.
  - intros ms H Hr. unfold bind, attempt, lift, send. rewrite H, Hr. cbn.
    destruct e; reflexivity.
Qed.

Lemma quotes_validation_silenced_witness :
  StdQuotes.quotes
    {| get_frequency := get_frequency Samples.utils;
       get_stock_market := get_stock_market Samples.utils;
       get_stock_markets := fun _ => Raise ValidationException;
       to_datetime := to_datetime Samples.utils;
       to_data_table := to_data_table Samples.utils |}
    Samples.world (StdQuotes.OneSymbol "abc") Samples.alive
  = (Ok (to_data None), Samples.alive).
Proof.
  refine (proj1 (quotes_validation_silenced _ Samples.world (StdQuotes.OneSymbol "abc")
                   Samples.alive ValidationException _) _); reflexivity.
Defined.

(** X5: the count [bars], [index_bars] and [index] pass to the client is
    [min(offset, 800)] for every offset: offsets up to 800 go through as they
    are, zero and negative ones included. *)
Theorem bars_count_is_min (U : Utils) (W : World) (symbol : string) (frequency : pyval)
  (start offset : Z) (s : state) (f m : Z) :
  get_frequency U frequency = Ok f ->
  get_stock_market U symbol = Ok m ->
  trace (final (StdQuotes.bars U W symbol frequency start offset) s)
  = trace s ++ [Sent (get_security_bars f m symbol start (Z.min offset 800))]
  /\ trace (final (StdQuotes.index_bars U W symbol frequency start offset) s)
     = trace s ++ [Sent (get_index_bars f (StdQuotes.index_market symbol) symbol start
                           (Z.min offset 800))]
  /\ trace (final (StdQuotes.index U W symbol frequency start offset) s)
     = trace s ++ [Sent (get_index_bars f (StdQuotes.index_market symbol) symbol start
                           (Z.min offset 800))].
Proof.
  intros Hf Hm.
  assert (Hp : StdQuotes.page offset = Z.min offset 800).
  { unfold StdQuotes.page. destruct (Z.gtb_spec offset 800); lia. }
  unfold final, StdQuotes.bars, StdQuotes.index_bars, StdQuotes.index.
  unfold bind, lift, send. rewrite Hp, Hf, Hm.
  split; [| split]; destruct (records_of W (trace s) _); reflexivity.
Qed.

Lemma bars_count_is_min_witness :
  trace (final (StdQuotes.bars Samples.utils Samples.world "600000" (VInt 9) 0 (-5))
               Samples.alive)
  = [Sent (get_security_bars 9 1 "600000" 0 (-5))].
Proof.
  apply (bars_count_is_min Samples.utils Samples.world "600000" (VInt 9) 0 (-5)
           Samples.alive 9 1); reflexivity.
Defined.

(** X6: [transactions] checks the market before it reads the date: for a
    market other than 0 and 1 it raises the validation error whatever the
    date, and for a date that is no integer it raises [ValueError]; in both
    cases nothing is sent.  [transaction] has no such check and sends its
    request for any market. *)
Theorem transactions_checks_first (U : Utils) (W : World) (symbol date : string)
  (start offset : Z) (s : state) (m : Z) :
  get_stock_market U symbol = Ok m ->
  (~ In m [0; 1] ->
   exists msg, StdQuotes.transactions U W symbol start offset date s
               = (Raise (MootdxValidationException msg), s))
  /\ (In m [0; 1] -> forall e, int_of_str date = Raise e ->
      StdQuotes.transactions U W symbol start offset date s = (Raise e, s))
  /\ trace (final (StdQuotes.transaction U W symbol start offset) s)
     = trace s ++ [Sent (get_transaction_data m symbol start offset)].
Proof.
  intros Hm. unfold StdQuotes.transactions, StdQuotes.transaction, final.
  rewrite !(bind_lift_ok _ m) by assumption.
  split; [| split].
  - intros H. rewrite (not_in_markets _ _ H). eexists. reflexivity.
  - intros H e He. rewrite (proj2 (in_markets _ _) H).
    now rewrite (bind_lift_raise _ e).
  - unfold bind, send. cbn.
    destruct (records_of W (trace s) _); reflexivity.
Qed.

Lemma transactions_checks_first_witness :
  StdQuotes.transactions Samples.utils Samples.world "600000" 0 800 "2017-02-09"
    Samples.alive
  = (Raise (ValueError "invalid literal for int() with base 10"), Samples.alive).
Proof.
  refine (proj1 (proj2 (transactions_checks_first Samples.utils Samples.world "600000"
                          "2017-02-09" 0 800 Samples.alive 1 _)) _ _ _);
    [reflexivity | cbn; auto | reflexivity].
Defined.

(* ===================================================================== *)
(** * Further properties of [ExtQuotes.validate] *)
(* ===================================================================== *)

(** X7: a market that is given wins: when [market] is not empty [validate]
    returns the symbol as it is, separators included, with [int(market)]. *)
Theorem validate_keeps_symbol (market : ExtQuotes.market_arg) (symbol : string) (m : Z) :
  ExtQuotes.no_market market = false ->
  ExtQuotes.int_of_market market = Ok m ->
  ExtQuotes.validate market symbol = Ok (m, symbol).
Proof.
  intros Hn Hm. unfold ExtQuotes.validate. rewrite Hn. cbv iota beta.
  now rewrite Hn, Hm.
Qed.

Lemma validate_keeps_symbol_witness :
  ExtQuotes.validate (ExtQuotes.MStr "47") "1#IF2312" = Ok (47, "1#IF2312").
Proof.
  apply (validate_keeps_symbol (ExtQuotes.MStr "47") "1#IF2312" 47); reflexivity.
Defined.

(** X8: every empty market is treated alike: [None], the empty string and
    the int 0 give the same result for every symbol.  So market 0 cannot be
    passed as a number: without a [#] in the symbol the call raises. *)
Theorem validate_empty_markets_alike (market : ExtQuotes.market_arg) (symbol : string) :
  ExtQuotes.no_market market = true ->
  ExtQuotes.validate market symbol = ExtQuotes.validate ExtQuotes.MNone symbol.
Proof.
  intros Hn. unfold ExtQuotes.validate. rewrite Hn.
  cbn [ExtQuotes.no_market].
  destruct (1 <? Z.of_nat (List.length (Py.split "#" symbol))); [reflexivity |].
  cbv iota beta. rewrite Hn. reflexivity.
Qed.

Lemma validate_empty_markets_alike_witness :
  ExtQuotes.validate (ExtQuotes.MInt 0) "600000"
  = Raise (ValueError "market must not be empty").
Proof.
  rewrite (validate_empty_markets_alike (ExtQuotes.MInt 0) "600000"); reflexivity.
Defined.

Lemma split_chars_nonempty (sep : ascii) (l : list ascii) : split_chars sep l <> [].
Proof.
  induction l as [| c l IH]; cbn; [discriminate |].
  destruct (Ascii.eqb c sep); [discriminate |].
  destruct (split_chars sep l); discriminate.
Qed.

(** The first two pieces of [a#b#rest]. *)
Lemma split_three (a b rest : string) :
  no_hash a -> no_hash b ->
  exists more, Py.split "#" (a ++ String "#" (b ++ String "#" rest))%string = a :: b :: more
               /\ more <> [].
Proof.
  intros Ha Hb. unfold Py.split. rewrite chars_app.
  change (chars (String "#" (b ++ String "#" rest)))
    with ("#"%char :: chars (b ++ String "#" rest)).
  rewrite split_chars_at by exact Ha.
  rewrite chars_app.
  change (chars (String "#" rest)) with ("#"%char :: chars rest).
  rewrite split_chars_at by exact Hb.
  cbn [map]. rewrite !text_chars.
  exists (map text (split_chars "#" (chars rest))). split; [reflexivity |].
  intros E. apply map_eq_nil in E. now apply split_chars_nonempty in E.
Qed.

(** The piece before the first separator, and the piece after it. *)
Lemma split_first (a tail : string) :
  no_hash a ->
  exists b more, Py.split "#" (a ++ String "#" tail)%string = a :: b :: more.
Proof.
  intros Ha. unfold Py.split. rewrite chars_app.
  change (chars (String "#" tail)) with ("#"%char :: chars tail).
  rewrite split_chars_at by exact Ha.
  destruct (split_chars "#" (chars tail)) as [| b more] eqn:E.
  - now apply split_chars_nonempty in E.
  - cbn [map]. rewrite text_chars. eauto.
Qed.

(** C9, as stated, fails: a symbol with a separator need not give the pair
    of its two sides.  With a second separator the symbol returned is the
    piece between the two, not the part after the first; and when the part
    before the separator is no integer, or is empty, the call raises. *)
Lemma validate_separator_is_not_enough :
  (ExtQuotes.validate (ExtQuotes.MStr "") ("1" ++ String "#" "600000#SH")
   = Ok (1, "600000")
   /\ ExtQuotes.validate (ExtQuotes.MStr "") ("1" ++ String "#" "600000#SH")
      <> Ok (1, "600000#SH"))
  /\ ExtQuotes.validate (ExtQuotes.MStr "") ("SH" ++ String "#" "600000")
     = Raise (ValueError "invalid literal for int() with base 10")
  /\ ExtQuotes.validate (ExtQuotes.MStr "") ("" ++ String "#" "600000")
     = Raise (ValueError "market must not be empty").
Proof. repeat split. discriminate. Qed.

(** C9 (amended): with an empty market, a symbol [a#b] with one separator
    whose part [a] reads as the integer [n] gives [(n, b)], so
    [validate("", "1#600000")] is [(1, "600000")]; with further separators,
    [a#b#rest], the result is still [(n, b)] and the rest is dropped; when
    the part before the first separator reads as no integer (the empty part
    included) the call raises [ValueError]; and with a symbol without
    separator it raises [ValueError]. *)
Theorem validate_market_from_symbol (market : ExtQuotes.market_arg) :
  ExtQuotes.no_market market = true ->
  (forall (a b : string) (n : Z),
      no_hash a -> no_hash b -> int_of_str a = Ok n ->
      ExtQuotes.validate market (a ++ String "#" b)%string = Ok (n, b))
  /\ ExtQuotes.validate (ExtQuotes.MStr "") "1#600000" = Ok (1, "600000")
  /\ (forall (a b rest : string) (n : Z),
         no_hash a -> no_hash b -> int_of_str a = Ok n ->
         ExtQuotes.validate market (a ++ String "#" (b ++ String "#" rest))%string
         = Ok (n, b))
  /\ (forall (a tail : string) (e : exc),
         no_hash a -> int_of_str a = Raise e ->
         exists msg,
           ExtQuotes.validate market (a ++ String "#" tail)%string
           = Raise (ValueError msg))
  /\ (forall symbol : string,
         no_hash symbol ->
         exists msg, ExtQuotes.validate market symbol = Raise (ValueError msg)).
Proof.
  intros Hm.
  assert (Hpieces : forall a b more n,
             int_of_str a = Ok n ->
             (let '(market, symbol) :=
                (ExtQuotes.MStr (ExtQuotes.item (a :: b :: more) 0),
                 ExtQuotes.item (a :: b :: more) 1) in
              if ExtQuotes.no_market market
              then Raise (ValueError "market must not be empty")
              else match ExtQuotes.int_of_market market with
                   | Ok m => Ok (m, symbol)
                   | Raise e => Raise e
                   end) = Ok (n, b)).
  { intros a b more n Hn.
    unfold ExtQuotes.item. cbn [nth ExtQuotes.no_market ExtQuotes.int_of_market].
    destruct (String.eqb a "") eqn:E.
    - apply String.eqb_eq in E. now apply int_of_str_nonempty in Hn.
    - now rewrite Hn. }
  assert (Hlong : forall (a b : string) (more : list string),
             (1 <? Z.of_nat (List.length (a :: b :: more))) = true).
  { intros a b more. apply Z.ltb_lt. cbn [List.length]. lia. }
  repeat match goal with |- _ /\ _ => split end.
  - intros a b n Ha Hb Hn. unfold ExtQuotes.validate.
    rewrite Hm, (split_pair a b Ha Hb), Hlong. now apply Hpieces.
  - reflexivity.
  - intros a b rest n Ha Hb Hn. unfold ExtQuotes.validate. rewrite Hm.
    destruct (split_three a b rest Ha Hb) as (more & -> & _).
    rewrite Hlong. now apply Hpieces.
  - intros a tail e Ha He. unfold ExtQuotes.validate. rewrite Hm.
    destruct (split_first a tail Ha) as (b & more & ->).
    rewrite Hlong.
    unfold ExtQuotes.item. cbn [nth ExtQuotes.no_market ExtQuotes.int_of_market].
    destruct (String.eqb a ""); [eauto |].
    rewrite He. destruct (int_of_str_raises a e He) as [msg ->]. eauto.
  - intros symbol Hs. unfold ExtQuotes.validate.
    rewrite Hm, (split_whole symbol Hs).
    change (1 <? Z.of_nat (List.length [symbol])) with false.
    cbv iota beta. rewrite Hm. eauto.
Qed.

Lemma validate_market_from_symbol_witness :
  ExtQuotes.validate ExtQuotes.MNone "47#IF2312" = Ok (47, "IF2312")
  /\ ExtQuotes.validate ExtQuotes.MNone "47#IF2312#CFFEX" = Ok (47, "IF2312")
  /\ (exists msg, ExtQuotes.validate ExtQuotes.MNone "SH#600000#x"
                  = Raise (ValueError msg))
  /\ exists msg, ExtQuotes.validate ExtQuotes.MNone "600000" = Raise (ValueError msg).
Proof.
  destruct (validate_market_from_symbol ExtQuotes.MNone eq_refl)
    as [H1 [_ [H2 [H3 H4]]]].
  repeat match goal with |- _ /\ _ => split end.
  - apply (H1 "47" "IF2312" 47); [apply no_hash_dec_true | apply no_hash_dec_true |];
      reflexivity.
  - apply (H2 "47" "IF2312" "CFFEX" 47);
      [apply no_hash_dec_true | apply no_hash_dec_true |]; reflexivity.
  - apply (H3 "SH" "600000#x" (ValueError "invalid literal for int() with base 10"));
      [apply no_hash_dec_true |]; reflexivity.
  - apply (H4 "600000"). apply no_hash_dec_true. reflexivity.
Defined.

(** X9: with an empty market only the first two pieces of the symbol count:
    [a#b#rest] gives [(int(a), b)] and the rest is dropped; and a symbol that
    starts with [#] has an empty market part, so the call raises
    [ValueError]. *)
Theorem validate_extra_pieces (market : ExtQuotes.market_arg) (a b rest : string) :
  ExtQuotes.no_market market = true ->
  no_hash a -> no_hash b ->
  (forall n, int_of_str a = Ok n ->
             ExtQuotes.validate market (a ++ String "#" (b ++ String "#" rest))%string
             = Ok (n, b))
  /\ (exists msg, ExtQuotes.validate market (String "#" b) = Raise (ValueError msg)).
Proof.
  intros Hm Ha Hb. split.
  - intros n Hn. unfold ExtQuotes.validate. rewrite Hm.
    destruct (split_three a b rest Ha Hb) as (more & -> & Hmore).
    replace (1 <? Z.of_nat (List.length (a :: b :: more))) with true
      by (symmetry; apply Z.ltb_lt; cbn [List.length]; lia).
    unfold ExtQuotes.item. cbn [nth ExtQuotes.no_market ExtQuotes.int_of_market].
    destruct (String.eqb a "") eqn:E.
    + apply String.eqb_eq in E. now apply int_of_str_nonempty in Hn.
    + now rewrite Hn.
  - unfold ExtQuotes.validate. rewrite Hm.
    assert (E : Py.split "#" (String "#" b) = [""; b]).
    { apply (split_pair "" b); [intros [] | exact Hb]. }
    rewrite E. change (1 <? Z.of_nat (List.length [""; b])) with true.
    unfold ExtQuotes.item. cbn [nth ExtQuotes.no_market String.eqb].
    eexists. reflexivity.
Qed.

Lemma validate_extra_pieces_witness :
  ExtQuotes.validate ExtQuotes.MNone "47#IF2312#x" = Ok (47, "IF2312")
  /\ exists msg, ExtQuotes.validate ExtQuotes.MNone "#IF2312" = Raise (ValueError msg).
Proof.
  destruct (validate_extra_pieces ExtQuotes.MNone "47" "IF2312" "x" eq_refl)
    as [H1 H2]; try (apply no_hash_dec_true; reflexivity).
  split; [apply (H1 47); reflexivity | exact H2].
Defined.

(* ===================================================================== *)
(** * Further properties of the session and of the retry decorator *)
(* ===================================================================== *)

(** X10: [reconnect] on a session that is not alive.  With a best endpoint
    it sends one [connect] and returns; the transport it leaves is a new one
    whose flag is unset, so the session counts as alive afterwards and a
    second [reconnect] does nothing, whether the server was reached or not.
    Without a best endpoint ([bestip] left at [None]) the call raises
    [TypeError] and sends nothing. *)
Theorem reconnect_on_closed_session (W : World) (self : facade) (s : state) :
  result closed s = Ok true ->
  (forall address port,
      bestip self = Some (address, port) ->
      let s1 := final (reconnect W self) s in
      result (reconnect W self) s = Ok tt
      /\ trace s1 = trace s ++ [Sent (connect address port)]
      /\ result closed s1 = Ok false
      /\ reconnect W self s1 = (Ok tt, s1))
  /\ (bestip self = None ->
      exists msg, reconnect W self s = (Raise (TypeError msg), s)).
Proof.
  intros Hc.
  assert (Hflag : match _closed s with Some flag => flag | None => true end = true).
  { unfold result, closed in Hc. cbn [fst] in Hc.
    destruct (_closed s) as [[|] |]; [reflexivity | discriminate Hc | reflexivity]. }
  split.
  - intros address port Hb s1.
    assert (Hrun : reconnect W self s
                   = (Ok tt, {| trace := trace s ++ [Sent (connect address port)];
                                draws := draws s;
                                _closed := Some false |})).
    { unfold reconnect, bind, closed. rewrite Hflag, Hb. reflexivity. }
    unfold s1, result, final. rewrite Hrun. cbn [fst snd].
    repeat split.
  - intros Hb. unfold reconnect, bind, closed. rewrite Hflag, Hb.
    eexists. reflexivity.
Qed.

Lemma reconnect_on_closed_session_witness :
  let s1 := final (reconnect MoreSamples.unreachable Samples.session) Samples.dead in
  trace s1 = [Sent (connect "127.0.0.1" 7709)]
  /\ result closed s1 = Ok false
  /\ reconnect MoreSamples.unreachable Samples.session s1 = (Ok tt, s1).
Proof.
  destruct (reconnect_on_closed_session MoreSamples.unreachable Samples.session
              Samples.dead eq_refl) as [H _].
  destruct (H "127.0.0.1" 7709 eq_refl) as (_ & H1 & H2 & H3).
  intros s1. split; [exact H1 | split; [exact H2 | exact H3]].
Defined.

(** A call of the decorated method whose first attempt is not to be retried
    is that attempt. *)
Lemma retry_once (W : World) (self : facade) (fn : M value) (fuel : nat) (s : state) :
  (1 <= fuel)%nat ->
  retried self (result fn s) = false ->
  ExtQuotes.retry W self fuel fn s = Some (fn s).
Proof.
  intros Hfuel Hr. destruct fuel as [| fuel]; [lia |].
  unfold ExtQuotes.retry. rewrite call_step, Hr. reflexivity.
Qed.

(** X11: the decorator is transparent when there is nothing to retry: if
    the first attempt returns a result that [check_empty] does not judge
    empty, or raises something that is no [Exception], the decorated call is
    exactly that attempt: one run of the method, no pause. *)
Theorem retry_transparent (W : World) (self : facade) (fn : M value) (fuel : nat)
  (s : state) :
  (1 <= fuel)%nat ->
  (forall v, result fn s = Ok v -> check_empty (Some self) v = Ok false ->
             ExtQuotes.retry W self fuel fn s = Some (fn s))
  /\ (forall e, result fn s = Raise e -> is_Exception e = false ->
                ExtQuotes.retry W self fuel fn s = Some (fn s)).
Proof.
  intros Hfuel. split.
  - intros v Hv He. apply retry_once; [exact Hfuel |].
    rewrite Hv. cbn [retried]. now rewrite He.
  - intros e He Hx. apply retry_once; [exact Hfuel |].
    rewrite He. exact Hx.
Qed.

Lemma retry_transparent_witness :
  ExtQuotes.markets MoreSamples.ex_world Samples.session 1 Samples.alive
  = Some (Ok (Frame (to_data (Some [Samples.stock "47" "CFFEX"]))),
          log (Sent ex_get_markets) Samples.alive).
Proof.
  refine (proj1 (retry_transparent MoreSamples.ex_world Samples.session
                   (ExtQuotes.markets_fn MoreSamples.ex_world) 1 Samples.alive _)
            _ _ _); [lia | reflexivity | reflexivity].
Defined.

(** X12: a validation failure is retried like a transient error: when
    [validate] rejects the market, [ExtQuotes.bars] and
    [ExtQuotes.transaction] run three times with two pauses in between, and
    not one request is sent. *)
Theorem invalid_market_is_retried (U : Utils) (W : World) (self : facade) (fuel : nat)
  (frequency : pyval) (market : ExtQuotes.market_arg) (symbol : string)
  (start offset : Z) (s : state) (f : Z) (e : exc) :
  (3 <= fuel)%nat ->
  get_frequency U frequency = Ok f ->
  ExtQuotes.validate market symbol = Raise e ->
  is_Exception e = true ->
  (exists o, ExtQuotes.bars U W self fuel frequency market symbol start offset s
             = Some (o, paused W (paused W s)))
  /\ (exists o, ExtQuotes.transaction W self fuel market symbol start offset s
                = Some (o, paused W (paused W s)))
  /\ requests (trace (paused W (paused W s))) = requests (trace s)
  /\ pauses (trace (paused W (paused W s)))
     = pauses (trace s) ++ [pause_length W s; pause_length W (paused W s)].
Proof.
  intros Hfuel Hf Hv He.
  assert (Hb : forall s', ExtQuotes.bars_fn U W frequency market symbol start offset s'
                          = (Raise e, s')).
  { intros s'. unfold ExtQuotes.bars_fn.
    rewrite (bind_lift_ok _ f) by assumption. now rewrite (bind_lift_raise _ e). }
  assert (Ht : forall s', ExtQuotes.transaction_fn W market symbol start offset s'
                          = (Raise e, s')).
  { intros s'. unfold ExtQuotes.transaction_fn. now rewrite (bind_lift_raise _ e). }
  split; [| split; [| split]].
  - unfold ExtQuotes.bars. rewrite retry_unrolled by exact Hfuel.
    cbn [attempt_state]. unfold result, final. rewrite !Hb. cbn [fst snd retried].
    rewrite He, ?Hb. cbn [snd]. eauto.
  - unfold ExtQuotes.transaction. rewrite retry_unrolled by exact Hfuel.
    cbn [attempt_state]. unfold result, final. rewrite !Ht. cbn [fst snd retried].
    rewrite He, ?Ht. cbn [snd]. eauto.
  - unfold paused, requests. cbn [trace]. rewrite !flat_map_app. cbn.
    now rewrite !app_nil_r.
  - unfold paused, pauses. cbn [trace draws]. rewrite !flat_map_app. cbn.
    now rewrite <- app_assoc.
Qed.

Lemma invalid_market_is_retried_witness :
  exists o, ExtQuotes.bars Samples.utils Samples.world Samples.session 3 (VInt 9)
              ExtQuotes.MNone "IF2312" 0 800 Samples.alive
            = Some (o, paused Samples.world (paused Samples.world Samples.alive)).
Proof.
  refine (proj1 (invalid_market_is_retried Samples.utils Samples.world Samples.session 3
                   (VInt 9) ExtQuotes.MNone "IF2312" 0 800 Samples.alive 9
                   (ValueError "market must not be empty") _ _ _ _));
    [lia | reflexivity | reflexivity | reflexivity].
Defined.

(** *** [check_empty] on tables made of records *)

Lemma add_columns_empty (new cols : list string) :
  series_empty (add_columns cols new) = series_empty cols && series_empty new.
Proof.
  revert cols. induction new as [| c new IH]; intros cols; cbn [add_columns].
  - cbn. now rewrite andb_true_r.
  - rewrite IH. cbn [series_empty]. rewrite andb_false_r.
    destruct (has_column c cols) eqn:E.
    + destruct cols; [discriminate E | reflexivity].
    + destruct cols; reflexivity.
Qed.

Lemma columns_of_records_empty (l : list record) :
  forall cols,
    series_empty (fold_left (fun cols r => add_columns cols (map fst r)) l cols)
    = series_empty cols && forallb no_field l.
Proof.
  induction l as [| r l IH]; intros cols; cbn [fold_left forallb].
  - now rewrite andb_true_r.
  - rewrite IH, add_columns_empty, <- andb_assoc. f_equal. f_equal.
    destruct r; reflexivity.
Qed.

Lemma check_empty_records (self : facade) (recs : list record) :
  check_empty (Some self) (Frame (to_data (Some recs))) = Ok (forallb no_field recs).
Proof.
  rewrite check_empty_frame.
  cbn [to_data of_records columns]. now rewrite columns_of_records_empty.
Qed.



(** X13: on a table made of the records of an answer, [check_empty] holds
    exactly when no record has a field: for [None], for the empty list and for
    records without fields, however many; a single field in a single record
    makes the answer count as data. *)
Theorem check_empty_on_records (self : facade) (answer : option (list record)) :
  check_empty (Some self) (Frame (to_data answer))
  = Ok match answer with
       | None => true
       | Some recs => forallb no_field recs
       end.
Proof.
  rewrite check_empty_frame. destruct answer as [recs |]; [| reflexivity].
  cbn [to_data of_records columns]. now rewrite columns_of_records_empty.
Qed.

(* ===================================================================== *)
(** * Further properties of [get_k_data] *)
(* ===================================================================== *)

Lemma k_pages_returns (W : World) (market : Z) (code : string) (first : Z)
  (todo : list Z) :
  forall temp s temp' s',
    StdQuotes.k_pages W market code first todo temp s = (Ok temp', s') ->
    let reqs := k_requests market code first todo in
    List.length (fetched W reqs (trace s)) = List.length reqs
    /\ temp' = temp ++ map StdQuotes.to_df (fetched W reqs (trace s))
    /\ trace s' = trace s ++ map Sent reqs.
Proof.
  induction todo as [| i rest IH]; intros temp s temp' s' H.
  - cbn in H. inversion H; subst. cbn. now rewrite !app_nil_r.
  - cbn [StdQuotes.k_pages] in H. unfold bind at 1, send at 1 in H.
    cbn [k_requests map fetched].
    destruct (records_of W (trace s)
                (get_security_bars 9 market code (first + i * 800) 800))
      as [recs | e]; [| discriminate H].
    apply IH in H. cbv zeta in H. cbn [log trace] in H.
    destruct H as (H1 & H2 & H3). fold (k_requests market code first rest).
    cbn [List.length map]. rewrite H1, H2, H3, <- !app_assoc.
    repeat split.
Qed.

(** A call of [get_k_data] that returns has got past its arithmetic: what
    is left is the loop over the pages and the post-processing. *)
Lemma get_k_data_returns (U : Utils) (W : World) (code start_date end_date : string)
  (s : state) (df : DataFrame) :
  result (StdQuotes.get_k_data U W code start_date end_date) s = Ok df ->
  exists market first pages,
    get_stock_market U code = Ok market
    /\ StdQuotes.get_k_data U W code start_date end_date s
       = (temp <- StdQuotes.k_pages W market code first (range pages) [] ;;
          lift (StdQuotes.k_table temp code start_date end_date)) s.
Proof.
  unfold result, StdQuotes.get_k_data. intros H.
  do 8 (unfold bind at 1, lift at 1 in H; unfold bind at 1, lift at 1;
        match type of H with
        | fst (match ?o with _ => _ end) = _ => destruct o eqn:?; [| discriminate H]
        end).
  eauto.
Qed.

(** X14: [get_k_data] loses no bar and invents none.  When it returns a
    table, the requests it has sent are the page requests of its plan, every
    one of them was answered, and the rows of the table are, up to their
    order, the rows made of the bars of these answers whose date lies in
    [start_date, end_date), a bar fetched twice (on overlapping pages) giving
    two rows; the index has one label per row. *)
Theorem get_k_data_keeps_every_bar (U : Utils) (W : World)
  (code start_date end_date : string) (s : state) (df : DataFrame) :
  result (StdQuotes.get_k_data U W code start_date end_date) s = Ok df ->
  exists market first pages,
    get_stock_market U code = Ok market
    /\ trace (final (StdQuotes.get_k_data U W code start_date end_date) s)
       = trace s ++ map Sent (k_requests market code first (range pages))
    /\ let answers := fetched W (k_requests market code first (range pages))
                        (trace s) in
       List.length answers = List.length (range pages)
       /\ Permutation (rows df)
            (map (row_of code)
                 (filter (fun bar => in_range start_date end_date (date_of bar))
                         (records_in answers)))
       /\ List.length (Pandas.index df) = List.length (rows df).
Proof.
  intros H.
  destruct (get_k_data_returns U W code start_date end_date s df H)
    as (market & first & pages & Hm & Hrun).
  unfold result in H. unfold final. rewrite Hrun in *. clear Hrun.
  unfold bind at 1 in H. unfold bind at 1.
  destruct (StdQuotes.k_pages W market code first (range pages) [] s)
    as [[temp | e] s1] eqn:Hpages; [| discriminate H].
  apply k_pages_returns in Hpages. cbv zeta in Hpages.
  destruct Hpages as (Hlen & Htemp & Htrace). cbn [app] in Htemp.
  unfold lift in *. cbn [fst snd] in *.
  apply k_table_spec in H. cbv zeta in H. destruct H as (Hrows & Hindex & _).
  exists market, first, pages. split; [exact Hm | split; [exact Htrace |]].
  cbv zeta. split; [| split].
  - rewrite Hlen. unfold k_requests. apply length_map.
  - rewrite Hrows, Htemp, rows_of_pages.
    rewrite (Permutation_map snd (sort_rows_perm _)).
    unfold kept. rewrite filter_map_swap, map_map. cbn [fst snd]. reflexivity.
  - now rewrite Hrows, Hindex, !length_map.
Qed.

Lemma get_k_data_keeps_every_bar_witness :
  exists df, result (StdQuotes.get_k_data Samples.utils MoreSamples.paged_world "000001"
                       "2015-01-01" "2023-01-10") Samples.alive = Ok df
             /\ Permutation (rows df)
                  (map (row_of "000001")
                       [Samples.bar "2023-01-06 15:00" "10.5";
                        Samples.bar "2023-01-09 15:00" "10.7";
                        Samples.bar "2023-01-04 15:00" "10.1";
                        Samples.bar "2023-01-05 15:00" "10.3"]).
Proof.
  assert (E : exists df,
             result (StdQuotes.get_k_data Samples.utils MoreSamples.paged_world "000001"
                       "2015-01-01" "2023-01-10") Samples.alive = Ok df).
  { eexists. vm_compute. reflexivity. }
  destruct E as [df E]. exists df. split; [exact E |].
  destruct (get_k_data_keeps_every_bar _ _ _ _ _ _ _ E)
    as (market & first & pages & Hm & Htrace & H).
  cbv zeta in H. destruct H as (_ & H & _).
  assert (Et : trace (final (StdQuotes.get_k_data Samples.utils MoreSamples.paged_world "000001"
                               "2015-01-01" "2023-01-10") Samples.alive)
               = [Sent (get_security_bars 9 0 "000001" 2 800);
                  Sent (get_security_bars 9 0 "000001" 802 800);
                  Sent (get_security_bars 9 0 "000001" 1602 800)]).
  { vm_compute. reflexivity. }
  rewrite Et in Htrace. cbn [Samples.alive initial trace app] in Htrace.
  assert (Ereqs : k_requests market "000001" first (range pages)
                  = [get_security_bars 9 0 "000001" 2 800;
                     get_security_bars 9 0 "000001" 802 800;
                     get_security_bars 9 0 "000001" 1602 800]).
  { destruct (k_requests market "000001" first (range pages))
      as [| r1 [| r2 [| r3 [| r4 l]]]]; try discriminate Htrace.
    cbn [map] in Htrace. now inversion Htrace. }
  rewrite Ereqs in H. exact H.
Defined.

Lemma compare_common_prefix (y a b : string) :
  String.compare (y ++ a) (y ++ b) = String.compare a b.
Proof.
  induction y as [| c y IH]; [reflexivity |].
  cbn. unfold Ascii.compare. rewrite N.compare_refl. exact IH.
Qed.

(** A date written without dashes sorts after every dashed date of its
    year. *)
Lemma undashed_after_dashed (y rest1 rest2 : string) (c : ascii) :
  (45 < N_of_ascii c)%N ->
  str_le (y ++ String c rest1) (y ++ String "-" rest2) = false.
Proof.
  intros Hc. unfold str_le, String.leb. rewrite compare_common_prefix.
  cbn. unfold Ascii.compare.
  change (N_of_ascii "-") with 45%N.
  destruct (N.compare_spec (N_of_ascii c) 45); first [reflexivity | lia].
Qed.

(** X15: dates are compared as strings.  When the start date is written
    without dashes after its year (as in 20230101) while the bars carry
    dashed dates, no bar of that year passes the filter: the table has no row
    whose date is the year followed by a dash. *)
Theorem get_k_data_undashed_start (U : Utils) (W : World)
  (code year rest end_date : string) (c : ascii) (s : state) (df : DataFrame) :
  (45 < N_of_ascii c)%N ->
  result (StdQuotes.get_k_data U W code (year ++ String c rest) end_date) s = Ok df ->
  Forall (fun r => forall tail, cell r "date" <> VStr (year ++ String "-" tail))
         (rows df).
Proof.
  intros Hc H. unfold StdQuotes.get_k_data in H.
  do 9 (apply bind_ok in H; destruct H as (? & ? & _ & H)).
  unfold result, lift in H. cbn [fst] in H.
  apply k_table_spec in H. cbv zeta in H. destruct H as (Hrows & _ & _).
  apply Forall_forall. intros r Hr tail Hdate.
  rewrite Hrows in Hr. apply in_map_iff in Hr. destruct Hr as ([d r'] & <- & Hp).
  apply (Permutation_in _ (sort_rows_perm _)) in Hp.
  unfold kept in Hp. apply filter_In in Hp. destruct Hp as [Hp Hrange].
  apply in_map_iff in Hp. destruct Hp as (bar & Hbar & _).
  inversion Hbar; subst d r'. cbn [fst snd] in *.
  rewrite row_of_date in Hdate. inversion Hdate as [Hd].
  unfold in_range in Hrange. rewrite Hd in Hrange.
  rewrite (undashed_after_dashed year rest tail c Hc) in Hrange. discriminate.
Qed.

Lemma get_k_data_undashed_start_witness :
  exists df,
    result (StdQuotes.get_k_data Samples.utils Samples.world "000001"
              ("2023" ++ String "0" "105") "20230110") Samples.alive = Ok df
    /\ Forall (fun r => forall tail, cell r "date" <> VStr ("2023" ++ String "-" tail))
              (rows df).
Proof.
  assert (E : exists df,
             result (StdQuotes.get_k_data Samples.utils Samples.world "000001"
                       ("2023" ++ String "0" "105") "20230110") Samples.alive = Ok df).
  { eexists. vm_compute. reflexivity. }
  destruct E as [df E]. exists df. split; [exact E |].
  exact (get_k_data_undashed_start Samples.utils Samples.world "000001"
           "2023" "105" "20230110" "0"%char Samples.alive df eq_refl E).
Defined.

(* ===================================================================== *)
(** * Properties of [valid_server] *)
(* ===================================================================== *)

(** X16: [valid_server] returns [None] for anything that is no tuple and no
    list, whatever it is.  For a tuple or a list it returns the endpoint
    [(address, int(port))] exactly when there are two items, the first one is
    an IP address and the second one converts to an int; in every other case
    it raises [ValueError] and nothing else, and it never returns [None]. *)
Theorem valid_server_outcomes (ip_address : Server.item -> outcome unit) :
  (forall a e, ip_address a = Raise e -> is_Exception e = true) ->
  Server.valid_server ip_address Server.NotSequence = Ok None
  /\ (forall items a p,
         Server.valid_server ip_address (Server.Sequence items) = Ok (Some (a, p))
         <-> exists port, items = [a; port]
                          /\ raised (ip_address a) = false
                          /\ Server.int_of_item port = Ok p)
  /\ (forall items,
         Server.valid_server ip_address (Server.Sequence items) <> Ok None
         /\ forall e, Server.valid_server ip_address (Server.Sequence items) = Raise e ->
                      exists msg, e = ValueError msg).
Proof.
  intros Hip.
  assert (Hint : forall port e, Server.int_of_item port = Raise e -> is_Exception e = true).
  { intros [| str | z] e H; cbn in H.
    - now inversion H.
    - destruct (int_of_str_raises _ _ H) as [msg ->]. reflexivity.
    - discriminate. }
  split; [reflexivity | split].
  - intros items a p. unfold Server.valid_server. split.
    + intros H. destruct items as [| a' [| port [| x items]]]; try discriminate H.
      destruct (ip_address a') as [u |] eqn:Ea.
      * destruct (Server.int_of_item port) as [p' |] eqn:Ep.
        -- inversion H; subst. exists port. rewrite Ea. now repeat split.
        -- destruct (is_Exception e); discriminate H.
      * destruct (is_Exception e); discriminate H.
    + intros (port & -> & Ha & Hp).
      destruct (ip_address a) as [u |]; [| discriminate Ha].
      now rewrite Hp.
  - intros items. unfold Server.valid_server.
    destruct items as [| a [| port [| x items]]]; cbn [is_Exception];
      try (split; [discriminate | intros e H; inversion H; eauto]).
    destruct (ip_address a) as [u |] eqn:Ea.
    + destruct (Server.int_of_item port) as [p |] eqn:Ep.
      * split; discriminate.
      * rewrite (Hint _ _ Ep). split; [discriminate | intros e' H; inversion H; eauto].
    + rewrite (Hip _ _ Ea). split; [discriminate | intros e' H; inversion H; eauto].
Qed.

Lemma sample_ip_address_raises_exceptions :
  forall a e, MoreSamples.ip_address a = Raise e -> is_Exception e = true.
Proof.
  intros a e H. unfold MoreSamples.ip_address in H.
  destruct a as [| str | z]; try (now inversion H).
  destruct (_ && _); now inversion H.
Qed.

Lemma valid_server_outcomes_witness :
  Server.valid_server MoreSamples.ip_address
    (Server.Sequence [Server.IStr "127.0.0.1"; Server.IStr "7709"])
  = Ok (Some (Server.IStr "127.0.0.1", 7709))
  /\ exists msg, Server.valid_server MoreSamples.ip_address
                   (Server.Sequence [Server.IStr "localhost"; Server.IInt 7709])
                 = Raise (ValueError msg).
Proof.
  destruct (valid_server_outcomes MoreSamples.ip_address
              sample_ip_address_raises_exceptions) as (_ & H2 & H3).
  split.
  - apply H2. exists (Server.IStr "7709"). repeat split.
  - destruct (H3 [Server.IStr "localhost"; Server.IInt 7709]) as [_ H].
    destruct (H _ eq_refl) as [msg E]. exists msg.
    rewrite <- E. reflexivity.
Defined.

(* ===================================================================== *)
(** * Properties of [ExtQuotes.instruments] *)
(* ===================================================================== *)

Lemma instrument_pages_checked :
  holds_from (N.to_nat 131072) 0 instrument_pages_agrees = true.
Proof. vm_compute. reflexivity. Qed.

(** [math.ceil(count / 100)] for an instrument count. *)
Lemma instrument_pages_ceil (c : Z) :
  0 <= c <= max_instruments -> ExtQuotes.instrument_pages c = Ok (ceil_div c 100).
Proof.
  intros H. unfold max_instruments in H.
  pose proof (holds_from_spec _ _ _ instrument_pages_checked c) as Hn.
  rewrite N_nat_Z in Hn. specialize (Hn ltac:(lia)).
  unfold instrument_pages_agrees in Hn.
  destruct (ExtQuotes.instrument_pages c) as [p | e]; [| discriminate].
  apply andb_true_iff in Hn. destruct Hn as [Hlo Hhi].
  apply Z.ltb_lt in Hlo. apply Z.leb_le in Hhi.
  unfold ceil_div.
  rewrite <- (Z.div_unique (- c) 100 (- p) (100 * p - c)); [f_equal; lia | lia | lia].
Qed.

Lemma instruments_pages_run (W : World) (pages : list Z) :
  (forall t start, exists recs,
      records_of W t (ex_get_instrument_info start 100) = Ok (Some recs)) ->
  forall result s,
    ExtQuotes.instruments_pages W pages result s
    = (Ok (result ++ records_in (fetched W (instrument_requests pages) (trace s))),
       {| trace := trace s ++ map Sent (instrument_requests pages);
          draws := draws s;
          _closed := _closed s |}).
Proof.
  intros Hserver. induction pages as [| page rest IH]; intros result s.
  - cbn. rewrite !app_nil_r. destruct s; reflexivity.
  - cbn [ExtQuotes.instruments_pages instrument_requests map fetched].
    destruct (Hserver (trace s) (page * 100)) as [recs Hrecs].
    unfold bind at 1, send at 1. rewrite Hrecs. rewrite IH.
    cbn [log trace draws _closed records_in flat_map].
    now rewrite <- !app_assoc.
Qed.

Lemma requests_app (t u : list event) : requests (t ++ u) = requests t ++ requests u.
Proof. apply flat_map_app. Qed.

Lemma pauses_app (t u : list event) : pauses (t ++ u) = pauses t ++ pauses u.
Proof. apply flat_map_app. Qed.

(** One attempt of [instruments], for a server that reports the count [c]
    and answers every page with a list. *)
Lemma instruments_attempt (W : World) (c : Z) :
  (forall t, scalar_of W t ex_get_instrument_count = Ok (Some c)) ->
  0 <= c <= max_instruments ->
  (forall t start, exists recs,
      records_of W t (ex_get_instrument_info start 100) = Ok (Some recs)) ->
  forall s, ExtQuotes.instruments_fn W s
            = (Ok (Frame (to_data (Some (listed W c s)))), listing_done c s).
Proof.
  intros Hc Hrange Hserver s.
  unfold ExtQuotes.instruments_fn. unfold bind at 1, ask at 1. rewrite Hc.
  rewrite (bind_lift_ok _ _ _ _ (instrument_pages_ceil c Hrange)).
  unfold bind at 1. rewrite (instruments_pages_run W _ Hserver).
  unfold ret, listed, listing_done. cbn [log trace draws _closed app].
  now rewrite <- app_assoc.
Qed.

(** X17: the decorated [instruments], for a server that reports the count
    [c] and answers every page with a list.  Each attempt asks for the count
    and then for [ceil(c / 100)] pages of 100 instruments, at the offsets 0,
    100, 200, ..., in that order, and makes the table of the records of the
    pages one after the other.  The call is the first attempt when one of its
    records has a field; otherwise a second attempt follows after a pause,
    and a third if the second lists no field either.  With a count of zero
    the count is asked for three times, with two pauses, and the table is
    empty. *)
Theorem instruments_listing (W : World) (self : facade) (fuel : nat) (c : Z)
  (s : state) :
  (3 <= fuel)%nat ->
  (forall t, scalar_of W t ex_get_instrument_count = Ok (Some c)) ->
  0 <= c <= max_instruments ->
  (forall t start, exists recs,
      records_of W t (ex_get_instrument_info start 100) = Ok (Some recs)) ->
  let s1 := paused W (listing_done c s) in
  let s2 := paused W (listing_done c s1) in
  let attempt s' := (Ok (Frame (to_data (Some (listed W c s')))), listing_done c s') in
  instrument_requests (range (ceil_div c 100))
  = map (fun i => ex_get_instrument_info (Z.of_nat i * 100) 100)
        (seq 0 (Z.to_nat (ceil_div c 100)))
  /\ ExtQuotes.instruments W self fuel s
     = Some (if forallb no_field (listed W c s)
             then if forallb no_field (listed W c s1) then attempt s2 else attempt s1
             else attempt s)
  /\ (c = 0 ->
      ExtQuotes.instruments W self fuel s
      = Some (Ok (Frame (to_data (Some []))), listing_done 0 s2)
      /\ requests (trace (listing_done 0 s2))
         = requests (trace s) ++ [ex_get_instrument_count; ex_get_instrument_count;
                                  ex_get_instrument_count]
      /\ pauses (trace (listing_done 0 s2))
         = pauses (trace s) ++ [pause_length W s; pause_length W (paused W s)]).
Proof.
  intros Hfuel Hc Hrange Hserver s1 s2 attempt.
  pose proof (instruments_attempt W c Hc Hrange Hserver) as Hrun.
  assert (Hcall : ExtQuotes.instruments W self fuel s
                  = Some (if forallb no_field (listed W c s)
                          then if forallb no_field (listed W c s1)
                               then attempt s2 else attempt s1
                          else attempt s)).
  { unfold ExtQuotes.instruments. rewrite retry_unrolled by exact Hfuel.
    cbn [attempt_state]. unfold result, final. rewrite !Hrun. cbn [fst snd retried].
    rewrite !check_empty_records. fold s1.
    destruct (forallb no_field (listed W c s)); [| reflexivity].
    rewrite ?Hrun. cbn [fst snd retried]. rewrite ?check_empty_records.
    destruct (forallb no_field (listed W c s1)); reflexivity. }
  split; [| split].
  - unfold instrument_requests. now rewrite range_seq, map_map.
  - exact Hcall.
  - intros ->. split; [| split].
    + rewrite Hcall. reflexivity.
    + unfold s2, s1, listing_done, paused. cbn [trace draws].
      change (instrument_requests (range (ceil_div 0 100))) with (@nil request).
      cbn [map]. rewrite !requests_app. cbn. rewrite <- ?app_assoc. reflexivity.
    + unfold s2, s1, listing_done, paused, pause_length. cbn [trace draws].
      change (instrument_requests (range (ceil_div 0 100))) with (@nil request).
      cbn [map]. rewrite !pauses_app. cbn. rewrite <- ?app_assoc. reflexivity.
Qed.

Lemma ex_world_lists_pages :
  forall t start, exists recs,
    records_of MoreSamples.ex_world t (ex_get_instrument_info start 100) = Ok (Some recs).
Proof. intros t start. eexists. reflexivity. Qed.

Lemma instruments_listing_witness :
  (exists table,
      ExtQuotes.instruments MoreSamples.ex_world Samples.session 3 Samples.alive
      = Some (Ok (Frame table),
              {| trace := [Sent ex_get_instrument_count;
                           Sent (ex_get_instrument_info 0 100);
                           Sent (ex_get_instrument_info 100 100);
                           Sent (ex_get_instrument_info 200 100)];
                 draws := 0;
                 _closed := Some false |})
      /\ nrows table = 250%nat)
  /\ (exists s',
         ExtQuotes.instruments MoreSamples.empty_exchange Samples.session 3 Samples.alive
         = Some (Ok (Frame (to_data (Some []))), s')
         /\ requests (trace s')
            = [ex_get_instrument_count; ex_get_instrument_count;
               ex_get_instrument_count]).
Proof.
  split.
  - destruct (instruments_listing MoreSamples.ex_world Samples.session 3 250
                Samples.alive ltac:(lia) ltac:(reflexivity)
                ltac:(unfold max_instruments; lia) ex_world_lists_pages)
      as (_ & H & _).
    cbv zeta in H. rewrite H. eexists. split; [vm_compute; reflexivity |].
    vm_compute. reflexivity.
  - destruct (instruments_listing MoreSamples.empty_exchange Samples.session 3 0
                Samples.alive ltac:(lia) ltac:(reflexivity)
                ltac:(unfold max_instruments; lia)
                ltac:(intros; eexists; reflexivity))
      as (_ & _ & H).
    destruct (H eq_refl) as (Hcall & Hreq & _).
    eexists. split; [exact Hcall | exact Hreq].
Defined.

(** X18: the decorated [instruments] without an answer.  When the client
    returns [None] for the count, or for the first page of a positive count,
    an attempt raises [TypeError]; the decorator tries again, so with a
    server that keeps answering so the caller gets the [TypeError] of the
    third attempt, after three rounds of requests and two pauses; and when
    the second attempt returns a table that is not judged empty the caller
    gets that table and no error. *)
Theorem instruments_without_answer (W : World) (self : facade) (fuel : nat)
  (s : state) :
  (3 <= fuel)%nat ->
  ((forall t, scalar_of W t ex_get_instrument_count = Ok None) ->
   exists msg s',
     ExtQuotes.instruments W self fuel s = Some (Raise (TypeError msg), s')
     /\ requests (trace s')
        = requests (trace s) ++ [ex_get_instrument_count; ex_get_instrument_count;
                                 ex_get_instrument_count]
     /\ pauses (trace s')
        = pauses (trace s) ++ [pause_length W s; pause_length W (paused W s)])
  /\ (forall c,
         (forall t, scalar_of W t ex_get_instrument_count = Ok (Some c)) ->
         0 < c <= max_instruments ->
         (forall t, records_of W t (ex_get_instrument_info 0 100) = Ok None) ->
         exists msg s',
           ExtQuotes.instruments W self fuel s = Some (Raise (TypeError msg), s')
           /\ requests (trace s')
              = requests (trace s)
                ++ [ex_get_instrument_count; ex_get_instrument_info 0 100;
                    ex_get_instrument_count; ex_get_instrument_info 0 100;
                    ex_get_instrument_count; ex_get_instrument_info 0 100]
           /\ pauses (trace s')
              = pauses (trace s) ++ [pause_length W s; pause_length W (paused W s)])
  /\ (forall v,
         scalar_of W (trace s) ex_get_instrument_count = Ok None ->
         let s1 := paused W (log (Sent ex_get_instrument_count) s) in
         result (ExtQuotes.instruments_fn W) s1 = Ok v ->
         check_empty (Some self) v = Ok false ->
         ExtQuotes.instruments W self fuel s = Some (ExtQuotes.instruments_fn W s1)).
Proof.
  intros Hfuel. split; [| split].
  - intros Hnone.
    assert (Hrun : forall s', ExtQuotes.instruments_fn W s'
                   = (Raise (TypeError "unsupported operand type(s) for /: 'NoneType' and 'int'"),
                      log (Sent ex_get_instrument_count) s')).
    { intros s'. unfold ExtQuotes.instruments_fn, bind, ask. now rewrite Hnone. }
    unfold ExtQuotes.instruments. rewrite retry_unrolled by exact Hfuel.
    cbn [attempt_state]. unfold result, final. rewrite !Hrun. cbn [fst snd retried is_Exception].
    rewrite ?Hrun. cbn [fst snd retried is_Exception].
    eexists. eexists. split; [reflexivity | split].
    + unfold log, paused. cbn [trace draws]. rewrite !requests_app. cbn.
      rewrite <- ?app_assoc. reflexivity.
    + unfold log, paused, pause_length. cbn [trace draws]. rewrite !pauses_app. cbn.
      rewrite <- ?app_assoc. reflexivity.
  - intros c Hc Hrange Hnone.
    assert (Hrun : forall s', ExtQuotes.instruments_fn W s'
                   = (Raise (TypeError "'NoneType' object is not iterable"),
                      log (Sent (ex_get_instrument_info 0 100))
                          (log (Sent ex_get_instrument_count) s'))).
    { intros s'. unfold ExtQuotes.instruments_fn.
      unfold bind at 1, ask at 1. rewrite Hc.
      rewrite (bind_lift_ok _ _ _ _ (instrument_pages_ceil c ltac:(lia))).
      rewrite range_seq.
      assert (Hp : 0 < ceil_div c 100).
      { unfold ceil_div. pose proof (Z.div_mod (- c) 100 ltac:(lia)).
        pose proof (Z.mod_pos_bound (- c) 100 ltac:(lia)). lia. }
      destruct (Z.to_nat (ceil_div c 100)) as [| n] eqn:En; [lia |].
      cbn [seq map ExtQuotes.instruments_pages Z.of_nat Z.mul].
      unfold bind at 1. unfold bind at 1, send at 1.
      rewrite Hnone. reflexivity. }
    unfold ExtQuotes.instruments. rewrite retry_unrolled by exact Hfuel.
    cbn [attempt_state]. unfold result, final. rewrite !Hrun. cbn [fst snd retried is_Exception].
    rewrite ?Hrun. cbn [fst snd retried is_Exception].
    eexists. eexists. split; [reflexivity | split].
    + unfold log, paused. cbn [trace draws]. rewrite !requests_app. cbn.
      rewrite <- ?app_assoc. reflexivity.
    + unfold log, paused, pause_length. cbn [trace draws]. rewrite !pauses_app. cbn.
      rewrite <- ?app_assoc. reflexivity.
  - intros v Hnone s1 Hv He.
    unfold ExtQuotes.instruments. rewrite retry_unrolled by exact Hfuel.
    assert (Hfirst : ExtQuotes.instruments_fn W s
                     = (Raise (TypeError "unsupported operand type(s) for /: 'NoneType' and 'int'"),
                        log (Sent ex_get_instrument_count) s)).
    { unfold ExtQuotes.instruments_fn, bind, ask. now rewrite Hnone. }
    cbn [attempt_state]. unfold result at 1, final. rewrite Hfirst.
    cbn [fst snd retried is_Exception]. fold s1. rewrite Hv. cbn [retried].
    now rewrite He.
Qed.

Lemma instruments_without_answer_witness :
  exists msg s',
    ExtQuotes.instruments Samples.silent_world Samples.session 3 Samples.alive
    = Some (Raise (TypeError msg), s')
    /\ requests (trace s')
       = [ex_get_instrument_count; ex_get_instrument_count; ex_get_instrument_count].
Proof.
  destruct (proj1 (instruments_without_answer Samples.silent_world Samples.session 3
                     Samples.alive ltac:(lia)) ltac:(reflexivity))
    as (msg & s' & H & Hreq & _).
  exists msg, s'. split; [exact H | exact Hreq].
Defined.

(* ===================================================================== *)
(** * Properties of [F10C] and [F10] *)
(* ===================================================================== *)

Section CompanyInformation.
Variable U : Utils.
Variable Srv : CompanyInfo.InfoServer.
Variable symbol : string.
Variable m : Z.
Hypothesis market_known : get_stock_market U symbol = Ok m.

Let directory_request : CompanyInfo.info_request :=
  CompanyInfo.get_company_info_category m symbol.

(** [F10] up to the directory, for a market that passes the check. *)
Lemma F10_with_directory (name_ : string) (t : list CompanyInfo.info_request)
  (x : CompanyInfo.section) (rest : list CompanyInfo.section) :
  In m [0; 1] ->
  CompanyInfo.directory_of Srv t directory_request = Ok (Some (x :: rest)) ->
  CompanyInfo.F10 U Srv symbol name_ t
  = CompanyInfo.and_then
      (if negb (String.eqb name_ "")
       then CompanyInfo.named Srv m symbol name_ (x :: rest)
       else CompanyInfo.unit_ None)
      (fun found =>
         match found with
         | Some text => CompanyInfo.unit_ (CompanyInfo.Content text)
         | None =>
             CompanyInfo.and_then (CompanyInfo.every Srv m symbol (x :: rest) [])
               (fun result => CompanyInfo.unit_ (CompanyInfo.Contents result))
         end)
      (t ++ [directory_request]).
Proof.
  intros Hm Hd. unfold CompanyInfo.F10.
  unfold CompanyInfo.and_then at 1, CompanyInfo.pure. rewrite market_known.
  rewrite (proj2 (in_markets _ _) Hm).
  unfold CompanyInfo.and_then at 1, CompanyInfo.category.
  fold directory_request. rewrite Hd. reflexivity.
Qed.

(** X19: [F10C] and [F10] check the market first and send nothing for a
    market other than 0 and 1; and when the directory of the company is
    [None] or empty, [F10] returns [None] after that one request, whatever
    the title asked for. *)
Theorem F10_without_directory (name_ : string) (t : list CompanyInfo.info_request) :
  (~ In m [0; 1] ->
   exists msg,
     CompanyInfo.F10 U Srv symbol name_ t = (Raise (MootdxValidationException msg), t)
     /\ CompanyInfo.F10C U Srv symbol t = (Raise (MootdxValidationException msg), t))
  /\ (In m [0; 1] ->
      forall d, CompanyInfo.directory_of Srv t directory_request = Ok d ->
                d = None \/ d = Some [] ->
                CompanyInfo.F10 U Srv symbol name_ t
                = (Ok CompanyInfo.Nothing, t ++ [directory_request])).
Proof.
  split.
  - intros Hm. unfold CompanyInfo.F10, CompanyInfo.F10C, CompanyInfo.and_then,
      CompanyInfo.pure.
    rewrite market_known, (not_in_markets _ _ Hm). eexists. split; reflexivity.
  - intros Hm d Hd Hempty. unfold CompanyInfo.F10.
    unfold CompanyInfo.and_then at 1, CompanyInfo.pure. rewrite market_known.
    rewrite (proj2 (in_markets _ _) Hm).
    unfold CompanyInfo.and_then at 1, CompanyInfo.category.
    fold directory_request. rewrite Hd.
    destruct Hempty as [-> | ->]; reflexivity.
Qed.

Lemma named_skips (name_ : string) (before : list CompanyInfo.section) :
  (forall y, In y before -> titled name_ y = false) ->
  forall after t,
    CompanyInfo.named Srv m symbol name_ (before ++ after) t
    = CompanyInfo.named Srv m symbol name_ after t.
Proof.
  induction before as [| y before IH]; intros H after t; [reflexivity |].
  cbn [app CompanyInfo.named].
  assert (E : String.eqb (CompanyInfo.name y) name_ = false) by (apply H; now left).
  rewrite E. apply IH. intros z Hz. apply H. now right.
Qed.

(** X20: with a title, [F10] returns the text of the first section that
    carries it, and sends two requests only: the directory and the content of
    that section.  Sections before it, and later sections of the same title,
    are not fetched. *)
Theorem F10_named_section (name_ : string) (t : list CompanyInfo.info_request)
  (before after : list CompanyInfo.section) (x : CompanyInfo.section) (text : pyval) :
  In m [0; 1] ->
  name_ <> "" ->
  CompanyInfo.directory_of Srv t directory_request = Ok (Some (before ++ x :: after)) ->
  (forall y, In y before -> titled name_ y = false) ->
  titled name_ x = true ->
  CompanyInfo.content_of Srv (t ++ [directory_request]) (content_request m symbol x)
  = Ok text ->
  CompanyInfo.F10 U Srv symbol name_ t
  = (Ok (CompanyInfo.Content text),
     t ++ [directory_request; content_request m symbol x]).
Proof.
  intros Hm Hname Hd Hbefore Hx Htext.
  assert (Hne : negb (String.eqb name_ "") = true).
  { apply negb_true_iff. now apply String.eqb_neq. }
  destruct (before ++ x :: after) as [| z rest] eqn:El.
  { destruct before; discriminate El. }
  rewrite (F10_with_directory name_ t z rest Hm Hd), Hne, <- El.
  unfold CompanyInfo.and_then at 1. rewrite (named_skips name_ before Hbefore).
  cbn [CompanyInfo.named]. unfold titled in Hx. rewrite Hx.
  unfold CompanyInfo.and_then, CompanyInfo.content.
  fold (content_request m symbol x). rewrite Htext.
  cbn. now rewrite <- app_assoc.
Qed.

Lemma named_unknown (name_ : string) (directory : list CompanyInfo.section)
  (t : list CompanyInfo.info_request) :
  (forall y, In y directory -> titled name_ y = false) ->
  CompanyInfo.named Srv m symbol name_ directory t = (Ok None, t).
Proof.
  intros H. rewrite <- (app_nil_r directory).
  now rewrite (named_skips name_ directory H).
Qed.

(** X21: a title no section carries is not an error: [F10] then does what
    it does without a title, and fetches every section. *)
Theorem F10_unknown_title (name_ : string) (t : list CompanyInfo.info_request) :
  (forall directory y,
      CompanyInfo.directory_of Srv t directory_request = Ok (Some directory) ->
      In y directory -> titled name_ y = false) ->
  CompanyInfo.F10 U Srv symbol name_ t = CompanyInfo.F10 U Srv symbol "" t.
Proof.
  intros H. unfold CompanyInfo.F10, CompanyInfo.and_then, CompanyInfo.pure.
  rewrite market_known.
  destruct (existsb (Z.eqb m) [0; 1]); [| reflexivity].
  unfold CompanyInfo.category. fold directory_request.
  destruct (CompanyInfo.directory_of Srv t directory_request) as [[[| x rest] |] | e] eqn:Hd;
    try reflexivity.
  destruct (negb (String.eqb name_ "")); [| reflexivity].
  rewrite (named_unknown name_ (x :: rest)); [reflexivity |].
  intros y Hy. exact (H _ y eq_refl Hy).
Qed.

(** *** All sections *)

Variable text_of : CompanyInfo.info_request -> pyval.
Hypothesis texts_served : forall t r, CompanyInfo.content_of Srv t r = Ok (text_of r).

Lemma every_run (directory : list CompanyInfo.section) :
  forall result t,
    CompanyInfo.every Srv m symbol directory result t
    = (Ok (fold_left (fun d x => set_cell (CompanyInfo.name x)
                                   (text_of (content_request m symbol x)) d)
                     directory result),
       t ++ map (content_request m symbol) directory).
Proof.
  induction directory as [| x rest IH]; intros result t.
  - cbn. now rewrite app_nil_r.
  - cbn [CompanyInfo.every fold_left map].
    unfold CompanyInfo.and_then, CompanyInfo.content.
    fold (content_request m symbol x). rewrite texts_served, IH.
    now rewrite <- app_assoc.
Qed.

Lemma find_app {A} (p : A -> bool) (l1 l2 : list A) :
  find p (l1 ++ l2) = match find p l1 with Some a => Some a | None => find p l2 end.
Proof.
  induction l1 as [| a l1 IH]; [reflexivity |].
  cbn. destruct (p a); [reflexivity | exact IH].
Qed.

Lemma lookup_every (title : string) (directory : list CompanyInfo.section) :
  forall result,
    lookup title (fold_left (fun d x => set_cell (CompanyInfo.name x)
                                          (text_of (content_request m symbol x)) d)
                            directory result)
    = match last_titled title directory with
      | Some x => Some (text_of (content_request m symbol x))
      | None => lookup title result
      end.
Proof.
  unfold last_titled.
  induction directory as [| x rest IH]; intros result; [reflexivity |].
  cbn [fold_left rev]. rewrite IH, find_app.
  destruct (find (titled title) (rev rest)); [reflexivity |].
  cbn [find]. unfold titled at 1.
  destruct (String.eqb (CompanyInfo.name x) title) eqn:E.
  - apply String.eqb_eq in E. subst title. apply lookup_set_cell_same.
  - apply String.eqb_neq in E. apply lookup_set_cell_other. congruence.
Qed.

(** X22: without a title, [F10] fetches the content of every section of the
    directory, in the order of the directory, and returns a dict in which a
    title maps to the text of the last section that carries it: of two
    sections with one title the earlier text is fetched and then
    overwritten. *)
Theorem F10_every_section (t : list CompanyInfo.info_request)
  (x : CompanyInfo.section) (rest : list CompanyInfo.section) :
  In m [0; 1] ->
  CompanyInfo.directory_of Srv t directory_request = Ok (Some (x :: rest)) ->
  exists result,
    CompanyInfo.F10 U Srv symbol "" t
    = (Ok (CompanyInfo.Contents result),
       t ++ directory_request :: map (content_request m symbol) (x :: rest))
    /\ forall title,
         lookup title result
         = option_map (fun y => text_of (content_request m symbol y))
                      (last_titled title (x :: rest)).
Proof.
  intros Hm Hd. rewrite (F10_with_directory "" t x rest Hm Hd).
  cbn [String.eqb negb]. unfold CompanyInfo.and_then at 1, CompanyInfo.unit_ at 1.
  unfold CompanyInfo.and_then. rewrite every_run.
  eexists. split.
  - unfold CompanyInfo.unit_. now rewrite <- app_assoc.
  - intros title. rewrite lookup_every.
    destruct (last_titled title (x :: rest)); reflexivity.
Qed.

End CompanyInformation.

Lemma F10_without_directory_witness :
  CompanyInfo.F10 Samples.utils MoreSamples.silent_info_server "600000" "news" []
  = (Ok CompanyInfo.Nothing, [CompanyInfo.get_company_info_category 1 "600000"]).
Proof.
  refine (proj2 (F10_without_directory Samples.utils MoreSamples.silent_info_server
                   "600000" 1 eq_refl "news" []) _ None eq_refl _);
    [cbn; auto | now left].
Defined.

Lemma F10_named_section_witness :
  CompanyInfo.F10 Samples.utils MoreSamples.info_server "600000" "profile" []
  = (Ok (CompanyInfo.Content (VStr "600000.txt@100")),
     [CompanyInfo.get_company_info_category 1 "600000";
      CompanyInfo.get_company_info_content 1 "600000" "600000.txt" 100 50]).
Proof.
  refine (F10_named_section Samples.utils MoreSamples.info_server "600000" 1 eq_refl
            "profile" []
            [CompanyInfo.mkSection "news" "600000.txt" 0 100]
            [CompanyInfo.mkSection "news" "600000.txt" 150 20]
            (CompanyInfo.mkSection "profile" "600000.txt" 100 50)
            (VStr "600000.txt@100") _ _ eq_refl _ eq_refl eq_refl).
  - cbn. auto.
  - discriminate.
  - intros y [<- | []]. reflexivity.
Defined.

Lemma F10_unknown_title_witness :
  CompanyInfo.F10 Samples.utils MoreSamples.info_server "600000" "dividends" []
  = CompanyInfo.F10 Samples.utils MoreSamples.info_server "600000" "" [].
Proof.
  apply (F10_unknown_title Samples.utils MoreSamples.info_server "600000" 1 eq_refl).
  intros directory y Hd Hy. cbn in Hd. inversion Hd; subst directory.
  destruct Hy as [<- | [<- | [<- | []]]]; reflexivity.
Defined.

Lemma F10_every_section_witness :
  exists result,
    CompanyInfo.F10 Samples.utils MoreSamples.info_server "600000" "" []
    = (Ok (CompanyInfo.Contents result),
       [CompanyInfo.get_company_info_category 1 "600000";
        CompanyInfo.get_company_info_content 1 "600000" "600000.txt" 0 100;
        CompanyInfo.get_company_info_content 1 "600000" "600000.txt" 100 50;
        CompanyInfo.get_company_info_content 1 "600000" "600000.txt" 150 20])
    /\ lookup "news" result = Some (VStr "600000.txt@150").
Proof.
  destruct (F10_every_section Samples.utils MoreSamples.info_server "600000" 1 eq_refl
              MoreSamples.text_of (fun _ _ => eq_refl) []
              (CompanyInfo.mkSection "news" "600000.txt" 0 100)
              [CompanyInfo.mkSection "profile" "600000.txt" 100 50;
               CompanyInfo.mkSection "news" "600000.txt" 150 20])
    as (result & Hrun & Hlookup); [cbn; auto | reflexivity |].
  exists result. split; [exact Hrun |]. rewrite Hlookup. reflexivity.
Defined.
